(** * The experiment orchestrator of ai-pacman (backend/api.py)

    A shallow embedding of the four POST handlers of [backend/api.py]
    ([run_value_iteration], [start_qlearning], [run_pacman_game],
    [compare_algorithms]) and of the two serializers, together with the
    properties the specification states about them.

    The handlers are translated from the Python source.  Of the modules they
    import, the gridworld ([gridworld]) and the layout loader and game engine
    ([layout], [pacman]) are interfaces (type classes); the gridworld
    environment and the two gridworld agents ([valueIterationAgents],
    [qlearningAgents]) follow the specification, sections 4.1 to 4.3. *)

From Stdlib Require Import ZArith List String Ascii Bool Lia.
From Stdlib Require Import DecimalString DecimalPos DecimalZ.
From Stdlib Require Import Permutation PrimFloat.
Import ListNotations.
Open Scope Z_scope.

Set Implicit Arguments.
Set Warnings "-register-all".

(** ** Numbers

    Rewards, values and hyper-parameters are Python floats.  Nothing below
    depends on a law of their arithmetic, so the operations are an interface;
    [binary64] at the end of the file instantiates it with IEEE doubles.
    Python's [0] and [0.0] are equal and are not told apart: both are [f0]. *)

Class PyFloat : Type := {
  F : Type;
  f0 : F;
  fadd : F -> F -> F;
  fsub : F -> F -> F;
  fmul : F -> F -> F;
  fdiv : F -> F -> F;
  fltb : F -> F -> bool;      (* a < b *)
  F_of_Z : Z -> F
}.

(** ** The global generator of the [random] module *)

Class Random `{PyFloat} : Type := {
  Rng : Type;
  random_random : Rng -> F * Rng;          (* random.random() *)
  random_below : nat -> Rng -> nat * Rng   (* an index, for random.choice *)
}.

(** ** Gridworld states and actions

    A state is a coordinate pair or the terminal sentinel
    ([gw.grid.terminalState]); api.py unpacks every other state as [x, y].
    Actions are Python strings (['north'], ['exit'], ...). *)

Inductive State : Type :=
| Cell (x y : Z)
| TERMINAL_STATE.

Definition Action : Type := string.

Definition state_eqb (s t : State) : bool :=
  match s, t with
  | Cell x y, Cell x' y' => (x =? x') && (y =? y')
  | TERMINAL_STATE, TERMINAL_STATE => true
  | _, _ => false
  end.

Definition terminalState : State := TERMINAL_STATE.

(** [str(n)] for an int, and [str(state)]: a tuple prints as ["(x, y)"]. *)
Definition str_int (n : Z) : string := NilZero.string_of_int (Z.to_int n).

Definition str (s : State) : string :=
  match s with
  | Cell x y => ("(" ++ str_int x ++ ", " ++ str_int y ++ ")")%string
  | TERMINAL_STATE => "TERMINAL_STATE"%string
  end.

(** The outcome of a Python computation: a value or a raised exception. *)
Inductive Result (A : Type) : Type :=
| Ok (a : A)
| Raise (e : string).
Arguments Raise {A} e.

(** [lacks c s]: the character [c] does not occur in [s]. *)
Fixpoint lacks (c : ascii) (s : string) : bool :=
  match s with
  | EmptyString => true
  | String a s' => negb (Ascii.eqb c a) && lacks c s'
  end.

Section Model.
Context {FL : PyFloat}.

(** ** Python values

    A dict key is a string, or one of the composite keys api.py uses
    internally: a state, or a (state, action) pair. *)

Inductive PyKey : Type :=
| KStr (s : string)
| KState (s : State)
| KPair (s : State) (a : Action).

Inductive PyVal : Type :=
| VNone
| VBool (b : bool)
| VInt (z : Z)
| VNum (x : F)
| VStr (s : string)
| VList (l : list PyVal)
| VDict (d : list (PyKey * PyVal)).

Definition key_eqb (j k : PyKey) : bool :=
  match j, k with
  | KStr s, KStr t => String.eqb s t
  | KState s, KState t => state_eqb s t
  | KPair s a, KPair t b => state_eqb s t && String.eqb a b
  | _, _ => false
  end.

(** Dicts keep insertion order; assigning to a present key overwrites in
    place. *)
Definition pydict : Type := list (PyKey * PyVal).

Fixpoint dict_get (d : pydict) (k : PyKey) : option PyVal :=
  match d with
  | [] => None
  | (j, v) :: d' => if key_eqb j k then Some v else dict_get d' k
  end.

Fixpoint dict_set (d : pydict) (k : PyKey) (v : PyVal) : pydict :=
  match d with
  | [] => [(k, v)]
  | (j, w) :: d' => if key_eqb j k then (j, v) :: d' else (j, w) :: dict_set d' k v
  end.

Definition dict_mem (d : pydict) (k : PyKey) : bool :=
  match dict_get d k with Some _ => true | None => false end.

(** [str(k)] for a key of one of the internal tables. *)
Definition str_key (k : PyKey) : string :=
  match k with
  | KStr s => s
  | KState s => str s
  | KPair s a => ("(" ++ str s ++ ", '" ++ a ++ "')")%string
  end.

(** [{str(k): v for k, v in d.items()}] *)
Definition str_keys (d : pydict) : pydict :=
  fold_left (fun acc kv => dict_set acc (KStr (str_key (fst kv))) (snd kv)) d [].

(** A value that has a composite key nowhere: what a transport format such
    as JSON accepts. *)
Fixpoint string_keyed (v : PyVal) : bool :=
  match v with
  | VList l => forallb string_keyed l
  | VDict d =>
      (fix go (d : pydict) : bool :=
         match d with
         | [] => true
         | (KStr _, w) :: d' => string_keyed w && go d'
         | _ :: _ => false
         end) d
  | _ => true
  end.

(** A Flask response: the JSON body and the HTTP status. *)
Record Response : Type := { body : PyVal; status : Z }.

(** [data.get(key, default)] on a request whose fields are typed. *)
Definition get {A : Type} (field : option A) (default : A) : A :=
  match field with Some v => v | None => default end.

(** [max(l)] returns the first greatest element. *)
Definition py_max (x : F) (l : list F) : F :=
  fold_left (fun m y => if fltb m y then y else m) l x.

(** [sum(l)] starts from 0 and adds from the left. *)
Definition py_sum (l : list F) : F := fold_left fadd l f0.

(** [range(n)] *)
Definition range (n : Z) : list Z := map Z.of_nat (seq 0 (Z.to_nat n)).

(** ** Exceptions and the monad of a request

    A handler runs against the global generator and may raise.  [None]
    means that a [while] loop has not come to its end within the iterations
    it was given (the fuel of [episode_loop] and [compare_episode_loop]). *)

Context {RD : Random}.

Definition M (A : Type) : Type := Rng -> option (Result A * Rng).

Definition ret {A : Type} (a : A) : M A := fun r => Some (Ok a, r).

Definition bind {A B : Type} (m : M A) (k : A -> M B) : M B :=
  fun r => match m r with
           | Some (Ok a, r') => k a r'
           | Some (Raise e, r') => Some (Raise e, r')
           | None => None
           end.

Definition raise {A : Type} (e : string) : M A := fun r => Some (Raise e, r).

Definition lift {A : Type} (f : Rng -> A * Rng) : M A :=
  fun r => let (a, r') := f r in Some (Ok a, r').

Definition diverge {A : Type} : M A := fun _ => None.

Notation "x <- m ;; k" := (bind m (fun x => k))
  (at level 61, m at next level, right associativity).
Notation "' p <- m ;; k" := (bind m (fun x => match x with p => k end))
  (at level 61, p pattern, m at next level, right associativity).

(** [for x in l: body], threading the loop state [a]. *)
Fixpoint for_each {A X : Type} (l : list X) (a : A) (body : X -> A -> M A) : M A :=
  match l with
  | [] => ret a
  | x :: l' => a' <- body x a ;; for_each l' a' body
  end.

(** ** The gridworld module (gridworld.py), as api.py uses it *)

(** A grid cell is a number (an exit with that reward) or a character
    (['#'] is a wall). *)
Inductive GridCell : Type :=
| CNumber (r : F)
| CChar (c : string).

Record Grid : Type := {
  width : Z;
  height : Z;
  at_ : Z -> Z -> GridCell      (* grid[x][y] *)
}.

Record Gridworld : Type := {
  grid : Grid;
  livingReward : F;
  noise : F
}.

(** Modelled from the spec: the two configuration knobs of section 4.1; a
    change takes effect for the calls that follow. *)
Definition setNoise (gw : Gridworld) (n : F) : Gridworld :=
  {| grid := grid gw; livingReward := livingReward gw; noise := n |}.

Definition setLivingReward (gw : Gridworld) (r : F) : Gridworld :=
  {| grid := grid gw; livingReward := r; noise := noise gw |}.

Class GridworldModule : Type := {
  (* getattr(gridworld, name, None): the grid constructors by name *)
  gridworld_getattr : string -> option (unit -> Gridworld);
  getStates : Gridworld -> list State;
  getPossibleActions : Gridworld -> State -> list Action;
  getTransitionStatesAndProbs : Gridworld -> State -> Action -> list (State * F);
  getReward : Gridworld -> State -> Action -> State -> F;
  getStartState : Gridworld -> State;
  (* one sampled transition from a state: the next state and the reward *)
  sample_transition : Gridworld -> State -> Action -> Rng -> (State * F) * Rng
}.

Context {GM : GridworldModule}.

(** Modelled from the spec: [GridworldEnvironment] of gridworld.py (section
    4.1): the model together with its current-state pointer. *)
Record GridworldEnvironment : Type := {
  gridWorld : Gridworld;
  env_state : State
}.

(** Modelled from the spec: [reset] returns the current-state pointer to the
    configured start state (section 4.1). *)
Definition env_reset (env : GridworldEnvironment) : GridworldEnvironment :=
  {| gridWorld := gridWorld env; env_state := getStartState (gridWorld env) |}.

(** Modelled from the spec: a new environment starts at the start state. *)
Definition new_GridworldEnvironment (gw : Gridworld) : GridworldEnvironment :=
  env_reset {| gridWorld := gw; env_state := terminalState |}.

(** Modelled from the spec: the current-state pointer. *)
Definition getCurrentState (env : GridworldEnvironment) : State := env_state env.

(** Modelled from the spec: [step(action) -> (nextState, reward)] moves the
    current-state pointer to the sampled next state (section 4.1). *)
Definition doAction (env : GridworldEnvironment) (action : Action)
  : M ((State * F) * GridworldEnvironment) :=
  ' (next_state, reward) <- lift (sample_transition (gridWorld env) (env_state env) action) ;;
  ret ((next_state, reward), {| gridWorld := gridWorld env; env_state := next_state |}).

(** ** The value-iteration agent (valueIterationAgents.py, section 4.2) *)

(** Modelled from the spec: the value table, a mapping from states to
    numbers with default 0. *)
Fixpoint table_get (V : list (State * F)) (s : State) : F :=
  match V with
  | [] => f0
  | (t, v) :: V' => if state_eqb t s then v else table_get V' s
  end.

(** Modelled from the spec: the one-step lookahead, the sum over the
    transitions (s', p) of p * (reward(s,a,s') + discount * V(s')). *)
Definition lookahead (gw : Gridworld) (discount : F) (V : list (State * F))
  (s : State) (a : Action) : F :=
  py_sum (map (fun sp => fmul (snd sp)
                           (fadd (getReward gw s a (fst sp))
                                 (fmul discount (table_get V (fst sp)))))
              (getTransitionStatesAndProbs gw s a)).

(** Modelled from the spec: the maximum over the legal actions; a state
    with no legal action keeps the value 0. *)
Definition best_value (qs : list F) : F :=
  match qs with
  | [] => f0
  | q :: qs' => py_max q qs'
  end.

(** Modelled from the spec: one synchronous sweep over the states [sts];
    the new table is built from the old one as a whole (batch update). *)
Definition sweep_over (sts : list State) (gw : Gridworld) (discount : F)
  (V : list (State * F)) : list (State * F) :=
  map (fun s => (s, best_value (map (lookahead gw discount V s) (getPossibleActions gw s)))) sts.

(** Modelled from the spec: a sweep over the states of the model. *)
Definition sweep (gw : Gridworld) (discount : F) (V : list (State * F)) : list (State * F) :=
  sweep_over (getStates gw) gw discount V.

(** Modelled from the spec: K sweeps in a row. *)
Fixpoint sweeps (k : nat) (gw : Gridworld) (discount : F) (V : list (State * F))
  : list (State * F) :=
  match k with
  | O => V
  | S k' => sweeps k' gw discount (sweep gw discount V)
  end.

(** Modelled from the spec: the argmax, ties broken by the action
    encountered first. *)
Fixpoint argmax_from (best : Action) (bq : F) (l : list (Action * F)) : Action :=
  match l with
  | [] => best
  | (a, q) :: l' => if fltb bq q then argmax_from a q l' else argmax_from best bq l'
  end.

(** Modelled from the spec: the argmax over the legal actions, none if there
    is no legal action. *)
Definition argmax (l : list (Action * F)) : option Action :=
  match l with
  | [] => None
  | (a, q) :: l' => Some (argmax_from a q l')
  end.

(** Modelled from the spec: [ValueIterationAgent], the solver's state after
    solving: the model, the discount and the value table. *)
Record ValueIterationAgent : Type := {
  vi_mdp : Gridworld;
  vi_discount : F;
  vi_values : list (State * F)
}.

(** Modelled from the spec: the constructor runs the K sweeps from the table
    that is 0 everywhere. *)
Definition new_ValueIterationAgent (gw : Gridworld) (discount : F) (iterations : Z)
  : ValueIterationAgent :=
  {| vi_mdp := gw; vi_discount := discount;
     vi_values := sweeps (Z.to_nat iterations) gw discount [] |}.

(** Modelled from the spec: [getValue(s)], the entry of the table after the
    K sweeps. *)
Definition vi_getValue (agent : ValueIterationAgent) (s : State) : F :=
  table_get (vi_values agent) s.

(** Modelled from the spec: [getQValue(s,a)], the lookahead for one action
    on the final table. *)
Definition vi_getQValue (agent : ValueIterationAgent) (s : State) (a : Action) : F :=
  lookahead (vi_mdp agent) (vi_discount agent) (vi_values agent) s a.

(** Modelled from the spec: [getAction(s)], the argmax of [getQValue(s,.)];
    none if the state has no legal action. *)
Definition vi_getAction (agent : ValueIterationAgent) (s : State) : option Action :=
  argmax (map (fun a => (a, vi_getQValue agent s a)) (getPossibleActions (vi_mdp agent) s)).

(** ** The tabular Q-learning agent (qlearningAgents.py, sections 3 and 4.3) *)

(** Modelled from the spec: the Q-table, a mapping from (state, action)
    pairs to numbers. *)
Definition QTable : Type := list ((State * Action) * F).

Definition sa_eqb (p q : State * Action) : bool :=
  state_eqb (fst p) (fst q) && String.eqb (snd p) (snd q).

(** Modelled from the spec: an unseen pair has the default value 0. *)
Fixpoint q_get (Q : QTable) (k : State * Action) : F :=
  match Q with
  | [] => f0
  | (j, v) :: Q' => if sa_eqb j k then v else q_get Q' k
  end.

(** Modelled from the spec: setting the entry of a pair in the Q-table. *)
Fixpoint q_set (Q : QTable) (k : State * Action) (v : F) : QTable :=
  match Q with
  | [] => [(k, v)]
  | (j, w) :: Q' => if sa_eqb j k then (j, v) :: Q' else (j, w) :: q_set Q' k v
  end.

(** Modelled from the spec: [QLearningAgent], the trainer's state: the
    function giving the legal actions, the hyper-parameters, the Q-table
    and the episode counters. *)
Record QLearningAgent : Type := {
  actionFn : State -> list Action;
  epsilon : F;
  alpha : F;
  gamma : F;
  qtable : QTable;
  episodeRewards : F;
  episodesSoFar : Z
}.

(** Modelled from the spec: a new agent has an empty Q-table. *)
Definition new_QLearningAgent (actionFn : State -> list Action) (epsilon alpha gamma : F)
  : QLearningAgent :=
  {| actionFn := actionFn; epsilon := epsilon; alpha := alpha; gamma := gamma;
     qtable := []; episodeRewards := f0; episodesSoFar := 0 |}.

(** Modelled from the spec: [getQValue(s,a)] reads the Q-table. *)
Definition ql_getQValue (agent : QLearningAgent) (s : State) (a : Action) : F :=
  q_get (qtable agent) (s, a).

(** Modelled from the spec: [getValue(s)], the maximum over the row of the
    Q-table; over no legal action it is 0. *)
Definition ql_getValue (agent : QLearningAgent) (s : State) : F :=
  best_value (map (ql_getQValue agent s) (actionFn agent s)).

(** Modelled from the spec: [getPolicy(s)], the greedy action of the current
    table, ties to the first action; none without legal actions. *)
Definition ql_getPolicy (agent : QLearningAgent) (s : State) : option Action :=
  argmax (map (fun a => (a, ql_getQValue agent s a)) (actionFn agent s)).

(** Modelled from the spec: a coin that shows heads with probability [p]. *)
Definition flipCoin (p : F) : M bool :=
  r <- lift random_random ;; ret (fltb r p).

(** Modelled from the spec: a uniform choice in a list that is not empty. *)
Definition random_choice {A : Type} (x : A) (l : list A) : M A :=
  i <- lift (random_below (List.length (x :: l))) ;; ret (nth i (x :: l) x).

(** Modelled from the spec: [getAction(s)], epsilon-greedy: none without
    legal actions; with probability epsilon a uniform legal action,
    otherwise the greedy one. *)
Definition ql_getAction (agent : QLearningAgent) (s : State) : M (option Action) :=
  match actionFn agent s with
  | [] => ret None
  | a :: legal =>
      explore <- flipCoin (epsilon agent) ;;
      if explore : bool
      then (c <- random_choice a legal ;; ret (Some c))
      else ret (ql_getPolicy agent s)
  end.

Definition with_qtable (agent : QLearningAgent) (Q : QTable) : QLearningAgent :=
  {| actionFn := actionFn agent; epsilon := epsilon agent; alpha := alpha agent;
     gamma := gamma agent; qtable := Q;
     episodeRewards := episodeRewards agent; episodesSoFar := episodesSoFar agent |}.

(** Modelled from the spec: [update], the temporal-difference rule
    Q(s,a) <- Q(s,a) + alpha * (reward + gamma * max_a' Q(s',a') - Q(s,a)). *)
Definition ql_update (agent : QLearningAgent) (s : State) (a : Action)
  (next_state : State) (reward : F) : QLearningAgent :=
  let q := ql_getQValue agent s a in
  let target := fadd reward (fmul (gamma agent) (ql_getValue agent next_state)) in
  with_qtable agent (q_set (qtable agent) (s, a) (fadd q (fmul (alpha agent) (fsub target q)))).

Definition with_episodeRewards (agent : QLearningAgent) (r : F) : QLearningAgent :=
  {| actionFn := actionFn agent; epsilon := epsilon agent; alpha := alpha agent;
     gamma := gamma agent; qtable := qtable agent;
     episodeRewards := r; episodesSoFar := episodesSoFar agent |}.

(** Modelled from the spec: [startEpisode] resets the reward counter of the
    episode. *)
Definition startEpisode (agent : QLearningAgent) : QLearningAgent :=
  with_episodeRewards agent f0.

(** Modelled from the spec: [stopEpisode] closes the episode and counts it. *)
Definition stopEpisode (agent : QLearningAgent) : QLearningAgent :=
  {| actionFn := actionFn agent; epsilon := epsilon agent; alpha := alpha agent;
     gamma := gamma agent; qtable := qtable agent;
     episodeRewards := episodeRewards agent; episodesSoFar := episodesSoFar agent + 1 |}.

(** ** Responses *)

(** [traceback.format_exc()]: only its last line, the message, is modelled. *)
Definition format_exc (e : string) : string :=
  ("Traceback (most recent call last): " ++ e)%string.

(** [jsonify] raises a TypeError on a dict key that is a tuple. *)
Definition jsonify (v : PyVal) : M Response :=
  if string_keyed v
  then ret {| body := v; status := 200 |}
  else raise "keys must be str, int, float, bool or None, not tuple"%string.

(** [return jsonify(v), code] *)
Definition with_status (resp : Response) (code : Z) : Response :=
  {| body := body resp; status := code |}.

(** [try: ... except Exception as e: return jsonify({'error': str(e),
    'traceback': traceback.format_exc()}), 500], around a handler's body. *)
Definition try_except (m : M Response) : M Response :=
  fun r => match m r with
           | Some (Raise e, r') =>
               (resp <- jsonify (VDict [(KStr "error"%string, VStr e);
                                        (KStr "traceback"%string, VStr (format_exc e))]) ;;
                ret (with_status resp 500)) r'
           | other => other
           end.

(** [return jsonify({'error': msg}), 404] *)
Definition not_found (msg : string) : M Response :=
  resp <- jsonify (VDict [(KStr "error"%string, VStr msg)]) ;;
  ret (with_status resp 404).

(** Integer [a % b] and true division by a count raise on a zero divisor. *)
Definition py_mod (a b : Z) : M Z :=
  if b =? 0 then raise "integer modulo by zero"%string else ret (a mod b).

Definition py_truediv (a : F) (n : Z) : M F :=
  if n =? 0 then raise "division by zero"%string else ret (fdiv a (F_of_Z n)).

(** [request.json or {}]: the fields a request may carry. *)
Record RequestData : Type := {
  d_grid : option string;
  d_iterations : option Z;
  d_discount : option F;
  d_noise : option F;
  d_livingReward : option F;
  d_episodes : option Z;
  d_epsilon : option F;
  d_alpha : option F;
  d_layout : option string;
  d_agent : option string;
  d_numTraining : option Z;
  d_numGames : option Z
}.

(** The float written [m]e-[k], as [0.9] is [lit 9 1]. *)
Definition lit (m k : Z) : F := fdiv (F_of_Z m) (F_of_Z (10 ^ k)).

(** Truth value of an action that may be [None]: [if best_action:]. *)
Definition truthy (a : option Action) : bool :=
  match a with
  | Some a => negb (String.eqb a "")
  | None => false
  end.

Definition VAction (a : option Action) : PyVal :=
  match a with
  | Some a => VStr a
  | None => VNone
  end.

(** ** serialize_gridworld_state *)

Definition is_number (c : GridCell) : bool :=
  match c with CNumber _ => true | CChar _ => false end.

Definition is_wall (c : GridCell) : bool :=
  match c with CChar c => String.eqb c "#" | CNumber _ => false end.

Definition state_info (gw : Gridworld) (s : State) (x y : Z)
  (values q_values : option pydict) : PyVal :=
  let cell := at_ (grid gw) x y in
  let info :=
    [(KStr "x"%string, VInt x);
     (KStr "y"%string, VInt y);
     (KStr "type"%string, VStr (if is_number cell then "terminal" else "normal")%string);
     (KStr "reward"%string, match cell with
                            | CNumber r => VNum r
                            | CChar _ => VNum (livingReward gw)
                            end);
     (KStr "actions"%string, VList (map VStr (getPossibleActions gw s)))] in
  let info :=
    match values with
    | Some values =>
        match dict_get values (KState s) with
        | Some v => dict_set info (KStr "value"%string) v
        | None => info
        end
    | None => info
    end in
  let info :=
    match q_values with
    | Some q_values =>
        dict_set info (KStr "qValues"%string)
          (VDict (fold_left
                    (fun qs action =>
                       match dict_get q_values (KPair s action) with
                       | Some q => dict_set qs (KStr action) q
                       | None => qs
                       end)
                    (getPossibleActions gw s) []))
    | None => info
    end in
  VDict info.

(** The [agent] argument of the Python function is not used by it. *)
Definition serialize_gridworld_state (gw : Gridworld) (state : option State)
  (values q_values : option pydict) : PyVal :=
  let states := getStates gw in
  let infos :=
    fold_left
      (fun acc s =>
         if state_eqb s terminalState then acc
         else match s with
              | Cell x y => acc ++ [state_info gw s x y values q_values]
              | TERMINAL_STATE => acc
              end)
      states [] in
  let walls :=
    flat_map
      (fun x =>
         flat_map
           (fun y =>
              if is_wall (at_ (grid gw) x y)
              then [VDict [(KStr "x"%string, VInt x); (KStr "y"%string, VInt y)]]
              else [])
           (range (height (grid gw))))
      (range (width (grid gw))) in
  VDict
    [(KStr "width"%string, VInt (width (grid gw)));
     (KStr "height"%string, VInt (height (grid gw)));
     (KStr "currentState"%string,
        match state with
        | Some (Cell x y) => VList [VInt x; VInt y]
        | _ => VNone
        end);
     (KStr "isTerminal"%string,
        VBool (match state with
               | Some s => state_eqb s terminalState
               | None => false
               end));
     (KStr "states"%string, VList infos);
     (KStr "livingReward"%string, VNum (livingReward gw));
     (KStr "noise"%string, VNum (noise gw));
     (KStr "walls"%string, VList walls)].

(** ** POST /api/value-iteration *)

(** The tables [values], [policy], [q_values] a handler collects. *)
Definition Tables : Type := (pydict * pydict * pydict)%type.

Definition vi_collect (gw : Gridworld) (agent : ValueIterationAgent) : Tables :=
  fold_left
    (fun (t : Tables) state =>
       let '(values, policy, q_values) := t in
       if negb (state_eqb state terminalState) then
         let values := dict_set values (KState state) (VNum (vi_getValue agent state)) in
         let best_action := vi_getAction agent state in
         let policy :=
           if truthy best_action
           then dict_set policy (KStr (str state)) (VAction best_action)
           else policy in
         let q_values :=
           fold_left
             (fun q action =>
                dict_set q (KPair state action) (VNum (vi_getQValue agent state action)))
             (getPossibleActions gw state) q_values in
         (values, policy, q_values)
       else t)
    (getStates gw) ([], [], []).

Definition run_value_iteration (data : RequestData) : M Response :=
  let grid_name := get (d_grid data) "BookGrid"%string in
  let iterations := get (d_iterations data) 100 in
  let discount := get (d_discount data) (lit 9 1) in
  let noise := get (d_noise data) (lit 2 1) in
  let living_reward := get (d_livingReward data) f0 in
  try_except
    match gridworld_getattr ("get" ++ grid_name)%string with
    | None => not_found ("Grid " ++ grid_name ++ " not found")%string
    | Some grid_func =>
        let gw := grid_func tt in
        let gw := setNoise gw noise in
        let gw := setLivingReward gw living_reward in
        let agent := new_ValueIterationAgent gw discount iterations in
        let '(values, policy, q_values) := vi_collect gw agent in
        jsonify
          (VDict
             [(KStr "grid"%string, VStr grid_name);
              (KStr "iterations"%string, VInt iterations);
              (KStr "discount"%string, VNum discount);
              (KStr "noise"%string, VNum noise);
              (KStr "livingReward"%string, VNum living_reward);
              (KStr "gridData"%string,
                 serialize_gridworld_state gw None (Some values) (Some q_values));
              (KStr "values"%string, VDict (str_keys values));
              (KStr "policy"%string, VDict policy)])
    end.

(** ** POST /api/qlearning/start *)

Record EpisodeEnd : Type := {
  ep_agent : QLearningAgent;
  ep_env : GridworldEnvironment;
  ep_state : State;
  ep_total_reward : F;
  ep_steps : Z
}.

(** [agent.episodeRewards += reward] *)
Definition add_episodeRewards (agent : QLearningAgent) (reward : F) : QLearningAgent :=
  with_episodeRewards agent (fadd (episodeRewards agent) reward).

(** The [while True:] loop of one training episode; [fuel] bounds the number
    of times its body is entered. *)
Fixpoint episode_loop (fuel : nat) (gw : Gridworld) (agent : QLearningAgent)
  (env : GridworldEnvironment) (state : State) (total_reward : F) (steps : Z)
  : M EpisodeEnd :=
  match fuel with
  | O => diverge
  | S fuel' =>
      let break :=
        ret {| ep_agent := agent; ep_env := env; ep_state := state;
               ep_total_reward := total_reward; ep_steps := steps |} in
      match getPossibleActions gw state with
      | [] => break
      | _ :: _ =>
          action <- ql_getAction agent state ;;
          match action with
          | None => break
          | Some action =>
              ' (next_state, reward, env) <- doAction env action ;;
              let agent := ql_update agent state action next_state reward in
              let agent := add_episodeRewards agent reward in
              let total_reward := fadd total_reward reward in
              let steps := steps + 1 in
              let state := next_state in
              if state_eqb state terminalState || (steps >? 100)
              then ret {| ep_agent := agent; ep_env := env; ep_state := state;
                          ep_total_reward := total_reward; ep_steps := steps |}
              else episode_loop fuel' gw agent env state total_reward steps
          end
      end
  end.

(** The state of the training run between two episodes. *)
Definition Training : Type := (QLearningAgent * GridworldEnvironment * list PyVal)%type.

(** An entry of the training history. *)
Definition history_entry (episode : Z) (total_reward : F) (steps : Z) : PyVal :=
  VDict [(KStr "episode"%string, VInt episode);
         (KStr "totalReward"%string, VNum total_reward);
         (KStr "steps"%string, VInt steps)].

(** The body of [for episode in range(episodes):]. *)
Definition train_episode (fuel : nat) (gw : Gridworld) (episodes : Z)
  (episode : Z) (t : Training) : M Training :=
  let '(agent, env, results) := t in
  let agent := startEpisode agent in
  let state := getCurrentState env in
  e <- episode_loop fuel gw agent env state f0 0 ;;
  let agent := stopEpisode (ep_agent e) in
  let env := env_reset (ep_env e) in
  m <- py_mod episode (Z.max 1 (episodes / 20)) ;;
  let results :=
    if m =? 0
    then results ++ [history_entry episode (ep_total_reward e) (ep_steps e)]
    else results in
  ret (agent, env, results).

Definition ql_collect (gw : Gridworld) (agent : QLearningAgent) : Tables :=
  fold_left
    (fun (t : Tables) state =>
       let '(values, policy, q_values) := t in
       if negb (state_eqb state terminalState) then
         let actions := getPossibleActions gw state in
         match actions with
         | [] => t
         | _ :: _ =>
             let q_vals := map (ql_getQValue agent state) actions in
             let values :=
               dict_set values (KState state)
                 (VNum (match q_vals with [] => f0 | q :: qs => py_max q qs end)) in
             let policy :=
               dict_set policy (KStr (str state)) (VAction (ql_getPolicy agent state)) in
             let q_values :=
               fold_left
                 (fun q action =>
                    dict_set q (KPair state action) (VNum (ql_getQValue agent state action)))
                 actions q_values in
             (values, policy, q_values)
         end
       else t)
    (getStates gw) ([], [], []).

Definition start_qlearning (fuel : nat) (data : RequestData) : M Response :=
  let grid_name := get (d_grid data) "BookGrid"%string in
  let episodes := get (d_episodes data) 100 in
  let epsilon := get (d_epsilon data) (lit 3 1) in
  let alpha := get (d_alpha data) (lit 5 1) in
  let discount := get (d_discount data) (lit 9 1) in
  let noise := get (d_noise data) (lit 2 1) in
  let living_reward := get (d_livingReward data) f0 in
  try_except
    match gridworld_getattr ("get" ++ grid_name)%string with
    | None => not_found ("Grid " ++ grid_name ++ " not found")%string
    | Some grid_func =>
        let gw := grid_func tt in
        let gw := setNoise gw noise in
        let gw := setLivingReward gw living_reward in
        let env := new_GridworldEnvironment gw in
        let agent :=
          new_QLearningAgent (fun state => getPossibleActions gw state)
            epsilon alpha discount in
        ' (agent, env, results) <-
          for_each (range episodes) (agent, env, []) (train_episode fuel gw episodes) ;;
        let '(values, policy, q_values) := ql_collect gw agent in
        jsonify
          (VDict
             [(KStr "grid"%string, VStr grid_name);
              (KStr "episodes"%string, VInt episodes);
              (KStr "epsilon"%string, VNum epsilon);
              (KStr "alpha"%string, VNum alpha);
              (KStr "discount"%string, VNum discount);
              (KStr "trainingHistory"%string, VList results);
              (KStr "gridData"%string,
                 serialize_gridworld_state gw None (Some values) (Some q_values));
              (KStr "values"%string, VDict (str_keys values));
              (KStr "policy"%string, VDict policy)])
    end.

(** ** POST /api/demo/compare *)

(** The loop [while state != gw.grid.terminalState:] of one episode. *)
Fixpoint compare_episode_loop (fuel : nat) (ql_agent : QLearningAgent)
  (env : GridworldEnvironment) (state : State)
  : M (QLearningAgent * GridworldEnvironment) :=
  match fuel with
  | O => diverge
  | S fuel' =>
      if negb (state_eqb state terminalState) then
        action <- ql_getAction ql_agent state ;;
        match action with
        | None => ret (ql_agent, env)
        | Some action =>
            ' (next_state, reward, env) <- doAction env action ;;
            let ql_agent := ql_update ql_agent state action next_state reward in
            let ql_agent := add_episodeRewards ql_agent reward in
            compare_episode_loop fuel' ql_agent env next_state
        end
      else ret (ql_agent, env)
  end.

(** The body of [for _ in range(episodes):]. *)
Definition compare_episode (fuel : nat) (_ : Z)
  (t : QLearningAgent * GridworldEnvironment) : M (QLearningAgent * GridworldEnvironment) :=
  let '(ql_agent, env) := t in
  let ql_agent := startEpisode ql_agent in
  let state := getCurrentState env in
  ' (ql_agent, env) <- compare_episode_loop fuel ql_agent env state ;;
  let ql_agent := stopEpisode ql_agent in
  let env := env_reset env in
  ret (ql_agent, env).

Definition compare_vi_collect (gw : Gridworld) (vi_agent : ValueIterationAgent)
  : pydict * pydict :=
  fold_left
    (fun (t : pydict * pydict) state =>
       let '(vi_values, vi_policy) := t in
       if negb (state_eqb state terminalState) then
         let vi_values :=
           dict_set vi_values (KStr (str state)) (VNum (vi_getValue vi_agent state)) in
         let action := vi_getAction vi_agent state in
         let vi_policy :=
           if truthy action
           then dict_set vi_policy (KStr (str state)) (VAction action)
           else vi_policy in
         (vi_values, vi_policy)
       else t)
    (getStates gw) ([], []).

Definition compare_ql_collect (gw : Gridworld) (ql_agent : QLearningAgent)
  : pydict * pydict :=
  fold_left
    (fun (t : pydict * pydict) state =>
       let '(ql_values, ql_policy) := t in
       if negb (state_eqb state terminalState) then
         let actions := getPossibleActions gw state in
         match actions with
         | [] => t
         | _ :: _ =>
             let q_vals := map (ql_getQValue ql_agent state) actions in
             let ql_values :=
               dict_set ql_values (KStr (str state))
                 (VNum (match q_vals with [] => f0 | q :: qs => py_max q qs end)) in
             let ql_policy :=
               dict_set ql_policy (KStr (str state)) (VAction (ql_getPolicy ql_agent state)) in
             (ql_values, ql_policy)
         end
       else t)
    (getStates gw) ([], []).

Definition compare_algorithms (fuel : nat) (data : RequestData) : M Response :=
  let grid_name := get (d_grid data) "BookGrid"%string in
  let iterations := get (d_iterations data) 100 in
  let episodes := get (d_episodes data) 100 in
  try_except
    match gridworld_getattr ("get" ++ grid_name)%string with
    | None => not_found ("Grid " ++ grid_name ++ " not found")%string
    | Some grid_func =>
        let gw := grid_func tt in
        let vi_agent := new_ValueIterationAgent gw (lit 9 1) iterations in
        let '(vi_values, vi_policy) := compare_vi_collect gw vi_agent in
        let comparisons :=
          [VDict [(KStr "algorithm"%string, VStr "Value Iteration");
                  (KStr "iterations"%string, VInt iterations);
                  (KStr "values"%string, VDict vi_values);
                  (KStr "policy"%string, VDict vi_policy)]] in
        let env := new_GridworldEnvironment gw in
        let ql_agent :=
          new_QLearningAgent (fun state => getPossibleActions gw state)
            (lit 3 1) (lit 5 1) (lit 9 1) in
        ' (ql_agent, env) <-
          for_each (range episodes) (ql_agent, env) (compare_episode fuel) ;;
        let '(ql_values, ql_policy) := compare_ql_collect gw ql_agent in
        let comparisons :=
          comparisons ++
          [VDict [(KStr "algorithm"%string, VStr "Q-Learning");
                  (KStr "episodes"%string, VInt episodes);
                  (KStr "values"%string, VDict ql_values);
                  (KStr "policy"%string, VDict ql_policy)]] in
        jsonify
          (VDict [(KStr "grid"%string, VStr grid_name);
                  (KStr "comparisons"%string, VList comparisons)])
    end.

(** ** POST /api/pacman/run *)

(** The final state of a game, with the accessors api.py calls on it. *)
Record GameState : Type := {
  getScore : F;
  isWin : bool;
  isLose : bool;
  getPacmanPosition : F * F;
  getGhostPositions : list (F * F);
  getCapsules : list (F * F);
  food : Z -> Z -> bool;
  food_width : Z;
  food_height : Z;
  layout_width : Z;
  layout_height : Z;
  layout_walls : Z -> Z -> bool
}.

Record Game : Type := { state : GameState }.

(** The agents [run_pacman_game] constructs. *)
Inductive PacmanAgent : Type :=
| PacmanQAgent (epsilon alpha gamma : F) (numTraining : Z)
| ApproximateQAgent (extractor : string) (epsilon alpha gamma : F) (numTraining : Z)
| RandomAgent.

Inductive Ghost : Type := RandomGhost (index : Z).

Inductive Display : Type := NullGraphics.

(** The arguments of [pacman.runGames]. *)
Record RunGamesArgs (Layout : Type) : Type := {
  rg_layout : Layout;
  rg_agent : PacmanAgent;
  rg_ghosts : list Ghost;
  rg_display : Display;
  rg_numGames : Z;
  rg_record : bool;
  rg_numTraining : Z;
  rg_catchExceptions : bool;
  rg_timeout : Z
}.

(** The layout loader and the game engine (layout.py, pacman.py): external
    collaborators.  The engine returns the games it played, or raises. *)
Class PacmanModule : Type := {
  Layout : Type;
  numGhosts : Layout -> Z;
  getLayout : string -> option Layout;
  runGames : RunGamesArgs Layout -> M (list Game)
}.

Context {PM : PacmanModule}.

Definition position (p : F * F) : PyVal := VList [VNum (fst p); VNum (snd p)].

(** [serialize_game_state] on a state that has every accessor. *)
Definition serialize_game_state (st : option GameState) : PyVal :=
  match st with
  | None => VNone
  | Some st =>
      VDict
        [(KStr "score"%string, VNum (getScore st));
         (KStr "pacmanPosition"%string, position (getPacmanPosition st));
         (KStr "ghostPositions"%string, VList (map position (getGhostPositions st)));
         (KStr "food"%string,
            VList (map (fun x => VList (map (fun y => VBool (food st x y))
                                            (range (food_height st))))
                       (range (food_width st))));
         (KStr "capsules"%string, VList (map position (getCapsules st)));
         (KStr "isWin"%string, VBool (isWin st));
         (KStr "isLose"%string, VBool (isLose st));
         (KStr "width"%string, VInt (layout_width st));
         (KStr "height"%string, VInt (layout_height st));
         (KStr "walls"%string,
            VList (map (fun x => VList (map (fun y => VBool (layout_walls st x y))
                                            (range (layout_height st))))
                       (range (layout_width st))))]
  end.

(** The slice [l[i:]]; a negative [i] counts from the end. *)
Definition slice_from {A : Type} (l : list A) (i : Z) : list A :=
  let n := Z.of_nat (List.length l) in
  let start := if i <? 0 then Z.max 0 (n + i) else Z.min i n in
  skipn (Z.to_nat start) l.

(** [len(l)] *)
Definition len {A : Type} (l : list A) : Z := Z.of_nat (List.length l).

(** [games[num_training:] if len(games) > num_training else games] *)
Definition test_games_of (games : list Game) (num_training : Z) : list Game :=
  if len games >? num_training then slice_from games num_training else games.

(** [sum(1 for g in l if p(g))] *)
Definition count {A : Type} (p : A -> bool) (l : list A) : Z :=
  len (filter p l).

(** The ['avgScore'] entry:
    [sum(scores) / len(test_games) if test_games else 0]. *)
Definition avgScore (test_games : list Game) : M F :=
  match test_games with
  | [] => ret f0
  | _ :: _ => py_truediv (py_sum (map (fun g => getScore (state g)) test_games))
                         (len test_games)
  end.

Definition summary (test_games : list Game) : M PyVal :=
  avg <- avgScore test_games ;;
  ret (VDict [(KStr "wins"%string, VInt (count (fun g => isWin (state g)) test_games));
              (KStr "losses"%string, VInt (count (fun g => isLose (state g)) test_games));
              (KStr "avgScore"%string, VNum avg)]).

(** [enumerate(l)] *)
Definition enumerate {A : Type} (l : list A) : list (Z * A) :=
  combine (range (len l)) l.

Definition game_entry (ig : Z * Game) : PyVal :=
  let (i, g) := ig in
  VDict [(KStr "gameIndex"%string, VInt i);
         (KStr "score"%string, VNum (getScore (state g)));
         (KStr "isWin"%string, VBool (isWin (state g)));
         (KStr "isLose"%string, VBool (isLose (state g)));
         (KStr "finalState"%string, serialize_game_state (Some (state g)))].

Definition make_agent (agent_type : string) (epsilon alpha discount : F) (num_training : Z)
  : PacmanAgent :=
  if String.eqb agent_type "PacmanQAgent" then
    PacmanQAgent epsilon alpha discount num_training
  else if String.eqb agent_type "ApproximateQAgent" then
    ApproximateQAgent "SimpleExtractor" epsilon alpha discount num_training
  else RandomAgent.

(** The call [pacman.runGames(lay, agent, ghosts, display, numGames=...,
    record=False, numTraining=..., catchExceptions=True, timeout=30)]. *)
Definition runGames_args (lay : Layout) (agent : PacmanAgent) (num_training num_games : Z)
  : RunGamesArgs Layout :=
  {| rg_layout := lay;
     rg_agent := agent;
     rg_ghosts := map (fun i => RandomGhost (i + 1)) (range (numGhosts lay));
     rg_display := NullGraphics;
     rg_numGames := num_training + num_games;
     rg_record := false;
     rg_numTraining := num_training;
     rg_catchExceptions := true;
     rg_timeout := 30 |}.

Definition run_pacman_game (data : RequestData) : M Response :=
  let layout_name := get (d_layout data) "smallGrid"%string in
  let agent_type := get (d_agent data) "PacmanQAgent"%string in
  let num_training := get (d_numTraining data) 10 in
  let num_games := get (d_numGames data) 1 in
  let epsilon := get (d_epsilon data) (lit 5 2) in
  let alpha := get (d_alpha data) (lit 2 1) in
  let discount := get (d_discount data) (lit 8 1) in
  try_except
    match getLayout layout_name with
    | None => not_found ("Layout " ++ layout_name ++ " not found")%string
    | Some lay =>
        let agent := make_agent agent_type epsilon alpha discount num_training in
        games <- runGames (runGames_args lay agent num_training num_games) ;;
        let test_games := test_games_of games num_training in
        summ <- summary test_games ;;
        jsonify
          (VDict [(KStr "layout"%string, VStr layout_name);
                  (KStr "agent"%string, VStr agent_type);
                  (KStr "numTraining"%string, VInt num_training);
                  (KStr "numGames"%string, VInt num_games);
                  (KStr "games"%string, VList (map game_entry (enumerate test_games)));
                  (KStr "summary"%string, summ)])
    end.

End Model.

(** ** The endpoints *)

Inductive Endpoint : Type :=
| ValueIteration      (* POST /api/value-iteration *)
| QLearningStart      (* POST /api/qlearning/start *)
| PacmanRun           (* POST /api/pacman/run *)
| DemoCompare.        (* POST /api/demo/compare *)

Section Routes.
Context {FL : PyFloat} {RD : Random} {GM : GridworldModule} {PM : PacmanModule}.

Definition handle (ep : Endpoint) (fuel : nat) (data : RequestData) : M Response :=
  match ep with
  | ValueIteration => run_value_iteration data
  | QLearningStart => start_qlearning fuel data
  | PacmanRun => run_pacman_game data
  | DemoCompare => compare_algorithms fuel data
  end.

(** The name an endpoint resolves first, and whether the lookup fails. *)
Definition requested_name (ep : Endpoint) (data : RequestData) : string :=
  match ep with
  | PacmanRun => get (d_layout data) "smallGrid"%string
  | _ => get (d_grid data) "BookGrid"%string
  end.

Definition unknown_name (ep : Endpoint) (data : RequestData) : bool :=
  match ep with
  | PacmanRun =>
      match getLayout (requested_name ep data) with Some _ => false | None => true end
  | _ =>
      match gridworld_getattr ("get" ++ requested_name ep data)%string with
      | Some _ => false
      | None => true
      end
  end.

Definition not_found_message (ep : Endpoint) (data : RequestData) : string :=
  match ep with
  | PacmanRun => ("Layout " ++ requested_name ep data ++ " not found")%string
  | _ => ("Grid " ++ requested_name ep data ++ " not found")%string
  end.

(** The engine call a Pacman request leads to on the layout [lay]. *)
Definition pacman_call (data : RequestData) (lay : Layout) : RunGamesArgs Layout :=
  let num_training := get (d_numTraining data) 10 in
  runGames_args lay
    (make_agent (get (d_agent data) "PacmanQAgent"%string)
       (get (d_epsilon data) (lit 5 2)) (get (d_alpha data) (lit 2 1))
       (get (d_discount data) (lit 8 1)) num_training)
    num_training (get (d_numGames data) 1).

(** The average score of a list of games, 0 for none. *)
Definition mean_score (gs : list Game) : F :=
  match gs with
  | [] => f0
  | _ :: _ => fdiv (py_sum (map (fun g => getScore (state g)) gs)) (F_of_Z (len gs))
  end.

(** The summary of a list of games. *)
Definition summary_over (gs : list Game) : PyVal :=
  VDict [(KStr "wins"%string, VInt (count (fun g => isWin (state g)) gs));
         (KStr "losses"%string, VInt (count (fun g => isLose (state g)) gs));
         (KStr "avgScore"%string, VNum (mean_score gs))].

(** The gridworld a solve or train request configures, from the constructor
    its grid name resolves to. *)
Definition configured (data : RequestData) (grid_func : unit -> Gridworld) : Gridworld :=
  setLivingReward (setNoise (grid_func tt) (get (d_noise data) (lit 2 1)))
    (get (d_livingReward data) f0).

(** ** Reading a response *)

(** The response of a run that came to its end without raising. *)
Definition response_of (run : option (Result Response * Rng)) : option Response :=
  match run with
  | Some (Ok resp, _) => Some resp
  | _ => None
  end.

Definition field (k : string) (v : PyVal) : PyVal :=
  match v with
  | VDict d => match dict_get d (KStr k) with Some x => x | None => VNone end
  | _ => VNone
  end.

Definition items (v : PyVal) : list PyVal :=
  match v with VList l => l | _ => [] end.

Definition dict_values (v : PyVal) : list PyVal :=
  match v with VDict d => map snd d | _ => [] end.

Definition has_key (v : PyVal) (k : string) : bool :=
  match v with VDict d => dict_mem d (KStr k) | _ => false end.

(** The per-state entries of the response's grid data. *)
Definition state_infos (resp : Response) : list PyVal :=
  items (field "states" (field "gridData" (body resp))).

(** Every Q-value a response reports. *)
Definition reported_qvalues (resp : Response) : list PyVal :=
  flat_map (fun info => dict_values (field "qValues" info)) (state_infos resp).

(** Every state value a response reports: the ['values'] table and the
    ['value'] entry of each state. *)
Definition reported_values (resp : Response) : list PyVal :=
  dict_values (field "values" (body resp)) ++
  flat_map (fun info => if has_key info "value" then [field "value" info] else [])
           (state_infos resp).

(** A failure result: its kind is the HTTP status, its message the
    ['error'] entry. *)
Definition failure (code : Z) (msg : string) : Response :=
  {| body := VDict [(KStr "error"%string, VStr msg)]; status := code |}.

(** ** Shapes of tables *)

(** An entry with a string key and a value without composite keys. *)
Definition entry_ok (kv : PyKey * PyVal) : bool :=
  match fst kv with
  | KStr _ => string_keyed (snd kv)
  | _ => false
  end.

Definition is_num (v : PyVal) : bool :=
  match v with VNum _ => true | _ => false end.

(** A table all of whose values are numbers. *)
Definition num_valued (d : pydict) : bool := forallb (fun kv => is_num (snd kv)) d.

(** A table all of whose values are 0. *)
Definition zero_valued (d : pydict) : Prop := Forall (fun kv => snd kv = VNum f0) d.

(** The tables a handler collects: numbers in [values] and [q_values],
    string keys in [policy]. *)
Definition tables_ok (t : Tables) : Prop :=
  let '(values, policy, q_values) := t in
  num_valued values = true /\ forallb entry_ok policy = true /\ num_valued q_values = true.

End Routes.

(** ** IEEE doubles *)

Fixpoint float_of_pos (p : positive) : float :=
  match p with
  | xH => 1%float
  | xO p => PrimFloat.mul 2 (float_of_pos p)
  | xI p => PrimFloat.add (PrimFloat.mul 2 (float_of_pos p)) 1
  end.

Definition float_of_Z (z : Z) : float :=
  match z with
  | Z0 => 0%float
  | Zpos p => float_of_pos p
  | Zneg p => PrimFloat.opp (float_of_pos p)
  end.

#[export] Instance binary64 : PyFloat := {|
  F := float;
  f0 := 0%float;
  fadd := PrimFloat.add;
  fsub := PrimFloat.sub;
  fmul := PrimFloat.mul;
  fdiv := PrimFloat.div;
  fltb := PrimFloat.ltb;
  F_of_Z := float_of_Z
|}.

(** ** A concrete world

    A generator and a small deterministic gridworld on which the handlers can
    be run.  A cell ['L'] has the single action north, which bumps into the
    wall; ['D'] is a dead end without actions; a number is an exit; on any
    other open cell the agent may go north (and bump) or east. *)

Module Concrete.

#[export] Instance counter : Random := {|
  Rng := nat;
  random_random := fun n => (if Nat.even n then 0%float else 1%float, S n);
  random_below := fun k n => (Nat.modulo n k, S n)
|}.

(** The generator in its state number [n]. *)
Definition seed (n : nat) : Rng := n.

Definition actions_at (c : GridCell) : list Action :=
  match c with
  | CNumber _ => ["exit"%string]
  | CChar c =>
      if String.eqb c "#" then []
      else if String.eqb c "D" then []
      else if String.eqb c "L" then ["north"%string]
      else ["north"%string; "east"%string]
  end.

Definition cells (g : Grid) : list State :=
  flat_map (fun x => flat_map (fun y => if is_wall (at_ g x y) then [] else [Cell x y])
                              (range (height g)))
           (range (width g)).

Definition inside (g : Grid) (x y : Z) : bool :=
  (0 <=? x) && (x <? width g) && (0 <=? y) && (y <? height g) && negb (is_wall (at_ g x y)).

Definition move (gw : Gridworld) (s : State) (a : Action) : State :=
  match s with
  | TERMINAL_STATE => TERMINAL_STATE
  | Cell x y =>
      if String.eqb a "exit" then TERMINAL_STATE
      else if String.eqb a "east" && inside (grid gw) (x + 1) y then Cell (x + 1) y
      else Cell x y
  end.

Definition reward_of (gw : Gridworld) (s : State) : F :=
  match s with
  | TERMINAL_STATE => f0
  | Cell x y =>
      match at_ (grid gw) x y with
      | CNumber r => r
      | CChar _ => livingReward gw
      end
  end.

Definition row (cs : list GridCell) : Grid :=
  {| width := Z.of_nat (List.length cs);
     height := 1;
     at_ := fun x y => if y =? 0 then nth (Z.to_nat x) cs (CChar "#") else CChar "#" |}.

Definition new_gridworld (g : Grid) : Gridworld :=
  {| grid := g; livingReward := f0; noise := lit 2 1 |}.

Definition getBookGrid (_ : unit) : Gridworld :=
  new_gridworld (row [CChar "S"; CNumber 1%float; CChar "D"]).

Definition getLoopGrid (_ : unit) : Gridworld :=
  new_gridworld (row [CChar "L"]).

#[export] Instance corridor : GridworldModule := {|
  gridworld_getattr := fun name =>
    if String.eqb name "getBookGrid" then Some getBookGrid
    else if String.eqb name "getLoopGrid" then Some getLoopGrid
    else None;
  getStates := fun gw => TERMINAL_STATE :: cells (grid gw);
  getPossibleActions := fun gw s =>
    match s with
    | TERMINAL_STATE => []
    | Cell x y => actions_at (at_ (grid gw) x y)
    end;
  getTransitionStatesAndProbs := fun gw s a => [(move gw s a, 1%float)];
  getReward := fun gw s a s' => reward_of gw s;
  getStartState := fun gw => Cell 0 0;
  sample_transition := fun gw s a rng => ((move gw s a, reward_of gw s), rng)
|}.

(** An engine that plays [numGames] games, all won with score 10, and returns
    them all; it raises when asked for a negative number of games. *)
Definition won_game : Game :=
  {| state := {| getScore := 10%float; isWin := true; isLose := false;
                 getPacmanPosition := (1%float, 1%float);
                 getGhostPositions := []; getCapsules := [];
                 food := fun _ _ => false; food_width := 1; food_height := 1;
                 layout_width := 1; layout_height := 1;
                 layout_walls := fun _ _ => false |} |}.

#[export] Instance arcade : PacmanModule := {|
  Layout := unit;
  numGhosts := fun _ => 1;
  getLayout := fun name => if String.eqb name "smallGrid" then Some tt else None;
  runGames := fun args =>
    if rg_numGames args <? 0 then raise "negative number of games"%string
    else ret (repeat won_game (Z.to_nat (rg_numGames args)))
|}.

(** The one layout the loader knows. *)
Definition small_grid : Layout := tt.

(** The empty request, and requests that set some fields. *)
Definition no_data : RequestData :=
  {| d_grid := None; d_iterations := None; d_discount := None; d_noise := None;
     d_livingReward := None; d_episodes := None; d_epsilon := None; d_alpha := None;
     d_layout := None; d_agent := None; d_numTraining := None; d_numGames := None |}.

Definition on_grid (name : string) (episodes : Z) : RequestData :=
  {| d_grid := Some name; d_iterations := None; d_discount := None; d_noise := None;
     d_livingReward := None; d_episodes := Some episodes; d_epsilon := None;
     d_alpha := None; d_layout := None; d_agent := None; d_numTraining := None;
     d_numGames := None |}.

Definition pacman_request (layout_name : string) (num_training num_games : Z) : RequestData :=
  {| d_grid := None; d_iterations := None; d_discount := None; d_noise := None;
     d_livingReward := None; d_episodes := None; d_epsilon := None; d_alpha := None;
     d_layout := Some layout_name; d_agent := None;
     d_numTraining := Some num_training; d_numGames := Some num_games |}.

End Concrete.


(** * Further code of api.py *)

From Stdlib Require Import Sorted Permutation.

Section Further.
Context {FL : PyFloat} {RD : Random} {GM : GridworldModule} {PM : PacmanModule}.

(** ** More readers of a response *)

(** The states of an enumeration but the terminal one. *)
Definition non_terminal (sts : list State) : list State :=
  filter (fun s => negb (state_eqb s terminalState)) sts.

(** The ['x'] and ['y'] entries of a state's entry, and what they are for a
    given state. *)
Definition coords (info : PyVal) : PyVal * PyVal := (field "x" info, field "y" info).

Definition coords_of (s : State) : PyVal * PyVal :=
  match s with
  | Cell x y => (VInt x, VInt y)
  | TERMINAL_STATE => (VNone, VNone)
  end.

(** An entry of the ['walls'] list. *)
Definition wall_entry (x y : Z) : PyVal :=
  VDict [(KStr "x"%string, VInt x); (KStr "y"%string, VInt y)].

(** [d[k]] in a dict value, if [k] is a key of it. *)
Definition entry (v : PyVal) (k : string) : option PyVal :=
  match v with
  | VDict d => dict_get d (KStr k)
  | _ => None
  end.

(** [k in d and d[k]] for a table that may be [None]. *)
Definition lookup (d : option pydict) (k : PyKey) : option PyVal :=
  match d with
  | Some d => dict_get d k
  | None => None
  end.

(** The entry made for the state [s]. *)
Definition info_of (gw : Gridworld) (values q_values : option pydict) (s : State) : PyVal :=
  match s with
  | Cell x y => state_info gw s x y values q_values
  | TERMINAL_STATE => VNone
  end.

(** A table keyed by states, each at most once: the shape of [values]. *)
Definition state_keyed (d : pydict) : Prop :=
  Forall (fun kv => exists s, fst kv = KState s) d /\ NoDup (map fst d).

(** What the training loop records of an episode: its index, its total
    reward and its number of steps; and the entry made of it. *)
Definition EpisodeRecord : Type := (Z * F * Z)%type.

Definition history_of (rec : EpisodeRecord) : PyVal :=
  history_entry (fst (fst rec)) (snd (fst rec)) (snd rec).

(** [episode % max(1, episodes // 20) == 0] *)
Definition sampled (episodes episode : Z) : bool :=
  episode mod Z.max 1 (episodes / 20) =? 0.

(** Whether a value is [True]. *)
Definition is_true (v : PyVal) : bool :=
  match v with
  | VBool true => true
  | _ => false
  end.

(** [m[x][y]] in a list of lists. *)
Definition at2 (m : PyVal) (x y : Z) : PyVal :=
  nth (Z.to_nat y) (items (nth (Z.to_nat x) (items m) VNone)) VNone.

(** ** GET /api/layout/<layout_name> *)

(** What [get_layout] reads of a layout (layout.py): its size, its walls and
    food, its capsules, and the agents' entries, each a tag (whether it is
    Pacman) and a start position. *)
Class LayoutData : Type := {
  lay_width : Layout -> Z;
  lay_height : Layout -> Z;
  lay_walls : Layout -> Z -> Z -> bool;        (* lay.walls[x][y] *)
  lay_food : Layout -> Z -> Z -> bool;         (* lay.food[x][y] *)
  lay_capsules : Layout -> list (Z * Z);
  lay_agentPositions : Layout -> list (bool * (Z * Z))
}.

Context {LD : LayoutData}.

(** [list(pos)] for a position of a layout. *)
Definition pos_list (p : Z * Z) : PyVal := VList [VInt (fst p); VInt (snd p)].

(** [[[m[x][y] for y in range(h)] for x in range(w)]] *)
Definition bool_matrix (m : Z -> Z -> bool) (w h : Z) : PyVal :=
  VList (map (fun x => VList (map (fun y => VBool (m x y)) (range h))) (range w)).

Definition get_layout (layout_name : string) : M Response :=
  try_except
    match getLayout layout_name with
    | None => not_found ("Layout " ++ layout_name ++ " not found")%string
    | Some lay =>
        let walls := bool_matrix (lay_walls lay) (lay_width lay) (lay_height lay) in
        let food := bool_matrix (lay_food lay) (lay_width lay) (lay_height lay) in
        jsonify
          (VDict
             [(KStr "name"%string, VStr layout_name);
              (KStr "width"%string, VInt (lay_width lay));
              (KStr "height"%string, VInt (lay_height lay));
              (KStr "walls"%string, walls);
              (KStr "food"%string, food);
              (KStr "capsules"%string, VList (map pos_list (lay_capsules lay)));
              (KStr "numGhosts"%string, VInt (numGhosts lay));
              (KStr "pacmanStart"%string,
                 match lay_agentPositions lay with
                 | [] => VNone
                 | p :: _ => pos_list (snd p)
                 end);
              (KStr "ghostStarts"%string,
                 if len (lay_agentPositions lay) >? 1
                 then VList (map (fun pos => pos_list (snd pos))
                                 (slice_from (lay_agentPositions lay) 1))
                 else VList [])])
    end.

(** ** get_available_layouts *)

(** [s.endswith(suffix)] *)
Fixpoint endswith (s suffix : string) : bool :=
  String.eqb s suffix ||
  match s with
  | EmptyString => false
  | String _ s' => endswith s' suffix
  end.

(** [s.replace(old, new)] for a non-empty [old]: the occurrences of [old]
    are replaced from the left, without overlap; [skip] counts the
    characters of an occurrence still to pass over. *)
Fixpoint replace_from (skip : nat) (old new s : string) : string :=
  match s with
  | EmptyString => EmptyString
  | String c s' =>
      match skip with
      | S k => replace_from k old new s'
      | O =>
          if prefix old s
          then (new ++ replace_from (String.length old - 1) old new s')%string
          else String c (replace_from 0 old new s')
      end
  end.

Definition replace (old new s : string) : string := replace_from 0 old new s.

(** [old in s] *)
Fixpoint occurs (old s : string) : bool :=
  prefix old s ||
  match s with
  | EmptyString => false
  | String _ s' => occurs old s'
  end.

(** [sorted(l)] for strings: a stable sort by the order of their characters. *)
Fixpoint insert_sorted (x : string) (l : list string) : list string :=
  match l with
  | [] => [x]
  | y :: l' => if String.ltb x y then x :: l else y :: insert_sorted x l'
  end.

Definition sorted (l : list string) : list string :=
  fold_right insert_sorted [] l.

(** [get_available_layouts], given whether the [layouts] directory exists
    and what [os.listdir] returns for it. *)
Definition get_available_layouts (dir_exists : bool) (listdir : list string) : list string :=
  let layouts :=
    if dir_exists
    then fold_left
           (fun layouts f =>
              if endswith f ".lay" then layouts ++ [replace ".lay" "" f] else layouts)
           listdir []
    else [] in
  sorted layouts.

End Further.

(** ** A concrete layout *)

Module ConcreteMore.
Import Concrete.

(** What the one layout of [arcade] holds: a corridor of three cells with a
    wall at its end and food in the middle, Pacman and one ghost. *)
#[export] Instance corridor_layout : LayoutData := {|
  lay_width := fun _ => 3;
  lay_height := fun _ => 1;
  lay_walls := fun _ x _ => x =? 2;
  lay_food := fun _ x _ => x =? 1;
  lay_capsules := fun _ => [];
  lay_agentPositions := fun _ => [(true, (0, 0)); (false, (1, 0))]
|}.

(** A request for [num_games] games of an agent of the type [agent_type],
    without training. *)
Definition agent_request (agent_type : string) (num_games : Z) : RequestData :=
  {| d_grid := None; d_iterations := None; d_discount := None; d_noise := None;
     d_livingReward := None; d_episodes := None; d_epsilon := None; d_alpha := None;
     d_layout := None; d_agent := Some agent_type;
     d_numTraining := Some 0; d_numGames := Some num_games |}.

(** The files of a layouts directory. *)
Definition some_files : list string :=
  ["smallGrid.lay"; "README.txt"; "mediumClassic.lay"; "capsuleClassic.lay"]%string.

End ConcreteMore.
(** * Properties *)

Unset Implicit Arguments.

(** ** Equality tests and dicts *)

Lemma state_eqb_eq (s t : State) : state_eqb s t = true <-> s = t.
Proof.
  destruct s as [x y|], t as [x' y'|]; simpl; split; intros H;
    try discriminate; try reflexivity.
  - apply andb_true_iff in H as [Hx Hy].
    apply Z.eqb_eq in Hx, Hy. now subst.
  - injection H as -> ->. now rewrite !Z.eqb_refl.
Qed.

Lemma state_eqb_refl (s : State) : state_eqb s s = true.
Proof. now apply state_eqb_eq. Qed.

Lemma fold_left_inv {A B : Type} (P : A -> Prop) (f : A -> B -> A) (l : list B) :
  forall a, P a -> (forall a x, In x l -> P a -> P (f a x)) -> P (fold_left f l a).
Proof.
  induction l as [|x l IH]; simpl; intros a Ha Hf; [exact Ha|].
  apply IH.
  - apply Hf; [now left | exact Ha].
  - intros a' y Hy. apply Hf. now right.
Qed.

(** ** [str] tells states apart *)

Lemma str_int_inj (x y : Z) : str_int x = str_int y -> x = y.
Proof.
  unfold str_int. intros H.
  assert (Hnil : forall z, Z.to_int z <> Decimal.Pos Decimal.Nil /\
                           Z.to_int z <> Decimal.Neg Decimal.Nil).
  { intros [|p|p]; simpl; split; try discriminate;
      intros [= E]; exact (DecimalPos.Unsigned.to_uint_nonnil p E). }
  apply (f_equal NilZero.int_of_string) in H.
  rewrite !NilZero.isi in H by apply Hnil.
  injection H as H. now apply DecimalZ.to_int_inj.
Qed.

Lemma lacks_comma_uint (d : Decimal.uint) :
  lacks "," (NilEmpty.string_of_uint d) = true.
Proof. induction d; simpl; auto. Qed.

Lemma lacks_paren_uint (d : Decimal.uint) :
  lacks ")" (NilEmpty.string_of_uint d) = true.
Proof. induction d; simpl; auto. Qed.

Lemma lacks_comma_str_int (z : Z) : lacks "," (str_int z) = true.
Proof.
  unfold str_int.
  destruct (Z.to_int z) as [d|d]; destruct d; simpl; auto using lacks_comma_uint.
Qed.

Lemma lacks_paren_str_int (z : Z) : lacks ")" (str_int z) = true.
Proof.
  unfold str_int.
  destruct (Z.to_int z) as [d|d]; destruct d; simpl; auto using lacks_paren_uint.
Qed.

(** Two strings that agree up to and after the first [c] are equal part by
    part. *)
Lemma append_sep_inj (c : ascii) (a : string) :
  forall (a' rest rest' : string),
    lacks c a = true -> lacks c a' = true ->
    (a ++ String c rest)%string = (a' ++ String c rest')%string ->
    a = a' /\ rest = rest'.
Proof.
  induction a as [|x a IH]; intros [|x' a'] rest rest'; simpl; intros Ha Ha' H.
  - injection H as ->. now split.
  - injection H as -> _. rewrite Ascii.eqb_refl in Ha'. discriminate.
  - injection H as -> _. rewrite Ascii.eqb_refl in Ha. discriminate.
  - injection H as -> H.
    apply andb_true_iff in Ha as [_ Ha]. apply andb_true_iff in Ha' as [_ Ha'].
    destruct (IH a' rest rest' Ha Ha' H) as [-> ->]. now split.
Qed.

Lemma str_inj (s t : State) : str s = str t -> s = t.
Proof.
  destruct s as [x y|], t as [x' y'|]; simpl; intros H;
    try discriminate; try reflexivity.
  injection H as H.
  apply append_sep_inj in H as [Hx H];
    [|apply lacks_comma_str_int | apply lacks_comma_str_int].
  injection H as H.
  apply append_sep_inj in H as [Hy _];
    [|apply lacks_paren_str_int | apply lacks_paren_str_int].
  apply str_int_inj in Hx, Hy. now subst.
Qed.

Section Properties.
Context {FL : PyFloat} {RD : Random} {GM : GridworldModule} {PM : PacmanModule}.

Lemma key_eqb_eq (j k : PyKey) : key_eqb j k = true <-> j = k.
Proof.
  destruct j, k; simpl; split; intros H; try discriminate.
  - apply String.eqb_eq in H. now subst.
  - injection H as ->. apply String.eqb_refl.
  - apply state_eqb_eq in H. now subst.
  - injection H as ->. apply state_eqb_refl.
  - apply andb_true_iff in H as [Hs Ha].
    apply state_eqb_eq in Hs. apply String.eqb_eq in Ha. now subst.
  - injection H as -> ->. now rewrite state_eqb_refl, String.eqb_refl.
Qed.

Lemma key_eqb_refl (k : PyKey) : key_eqb k k = true.
Proof. now apply key_eqb_eq. Qed.

Lemma dict_get_In (d : pydict) (k : PyKey) (v : PyVal) :
  dict_get d k = Some v -> In (k, v) d.
Proof.
  induction d as [|[j w] d IH]; simpl; [discriminate|].
  destruct (key_eqb j k) eqn:E.
  - intros [= <-]. apply key_eqb_eq in E. subst. now left.
  - intros H. right. now apply IH.
Qed.

Lemma dict_set_In (d : pydict) (k : PyKey) (v : PyVal) (kw : PyKey * PyVal) :
  In kw (dict_set d k v) -> kw = (k, v) \/ In kw d.
Proof.
  induction d as [|[j w] d IH]; simpl.
  - intros [<-|[]]. now left.
  - destruct (key_eqb j k) eqn:E; simpl.
    + intros [<-|H]; [|now right; right].
      apply key_eqb_eq in E. subst. now left.
    + intros [<-|H]; [now right; left|].
      destruct (IH H) as [->|H']; [now left | now right; right].
Qed.

Lemma dict_get_set_same (d : pydict) (k : PyKey) (v : PyVal) :
  dict_get (dict_set d k v) k = Some v.
Proof.
  induction d as [|[j w] d IH]; simpl.
  - now rewrite key_eqb_refl.
  - destruct (key_eqb j k) eqn:E; simpl; now rewrite E.
Qed.

Lemma dict_get_set_other (d : pydict) (j k : PyKey) (v : PyVal) :
  key_eqb k j = false -> dict_get (dict_set d k v) j = dict_get d j.
Proof.
  intros Hkj. induction d as [|[i w] d IH]; simpl.
  - now rewrite Hkj.
  - destruct (key_eqb i k) eqn:E; simpl.
    + apply key_eqb_eq in E. subst. now rewrite Hkj.
    + now rewrite IH.
Qed.

(** ** Values without composite keys *)

Lemma string_keyed_dict (d : pydict) : string_keyed (VDict d) = forallb entry_ok d.
Proof.
  induction d as [|[k v] d IH]; [reflexivity|].
  simpl in *. destruct k; simpl; try reflexivity.
  now rewrite IH.
Qed.

Lemma dict_set_ok (d : pydict) (k : string) (v : PyVal) :
  forallb entry_ok d = true -> string_keyed v = true ->
  forallb entry_ok (dict_set d (KStr k) v) = true.
Proof.
  intros Hd Hv. apply forallb_forall. intros kw Hin.
  destruct (dict_set_In _ _ _ _ Hin) as [->|Hin'].
  - exact Hv.
  - now apply (proj1 (forallb_forall _ _) Hd).
Qed.

Lemma is_num_string_keyed (v : PyVal) : is_num v = true -> string_keyed v = true.
Proof. now destruct v. Qed.

Lemma dict_set_num (d : pydict) (k : PyKey) (x : F) :
  num_valued d = true -> num_valued (dict_set d k (VNum x)) = true.
Proof.
  intros Hd. apply forallb_forall. intros kw Hin.
  destruct (dict_set_In _ _ _ _ Hin) as [->|Hin'].
  - reflexivity.
  - now apply (proj1 (forallb_forall _ _) Hd).
Qed.

Lemma dict_get_num (d : pydict) (k : PyKey) (v : PyVal) :
  num_valued d = true -> dict_get d k = Some v -> is_num v = true.
Proof.
  intros Hd Hg. apply dict_get_In in Hg.
  exact (proj1 (forallb_forall _ _) Hd _ Hg).
Qed.

Lemma str_keys_ok (d : pydict) :
  num_valued d = true -> forallb entry_ok (str_keys d) = true.
Proof.
  intros Hd. unfold str_keys.
  apply fold_left_inv; [reflexivity|].
  intros acc kv Hin Hacc. apply dict_set_ok; [exact Hacc|].
  apply is_num_string_keyed.
  exact (proj1 (forallb_forall _ _) Hd _ Hin).
Qed.

(** ** Running the monad *)

Lemma jsonify_ok (v : PyVal) (r : Rng) :
  string_keyed v = true -> jsonify v r = Some (Ok {| body := v; status := 200 |}, r).
Proof. intros H. unfold jsonify. now rewrite H. Qed.

Lemma not_found_run (msg : string) (r : Rng) :
  not_found msg r = Some (Ok (failure 404 msg), r).
Proof. reflexivity. Qed.

Lemma try_except_ok (m : M Response) (r r' : Rng) (resp : Response) :
  m r = Some (Ok resp, r') -> try_except m r = Some (Ok resp, r').
Proof. intros H. unfold try_except. now rewrite H. Qed.

Lemma try_except_raise (m : M Response) (r r' : Rng) (e : string) :
  m r = Some (Raise e, r') ->
  try_except m r =
    Some (Ok {| body := VDict [(KStr "error"%string, VStr e);
                               (KStr "traceback"%string, VStr (format_exc e))];
                status := 500 |}, r').
Proof. intros H. unfold try_except. now rewrite H. Qed.

Lemma try_except_diverge (m : M Response) (r : Rng) :
  m r = None -> try_except m r = None.
Proof. intros H. unfold try_except. now rewrite H. Qed.

(** ** The collected tables and the serialized grid *)

Lemma VAction_ok (a : option Action) : string_keyed (VAction a) = true.
Proof. now destruct a. Qed.

Lemma q_values_fold_num (f : Action -> F) (s : State) (l : list Action) (q : pydict) :
  num_valued q = true ->
  num_valued (fold_left (fun q action => dict_set q (KPair s action) (VNum (f action))) l q)
  = true.
Proof.
  intros Hq. apply fold_left_inv; [exact Hq|].
  intros a x _ Ha. now apply dict_set_num.
Qed.

Lemma vi_collect_ok (gw : Gridworld) (agent : ValueIterationAgent) :
  tables_ok (vi_collect gw agent).
Proof.
  unfold vi_collect. apply fold_left_inv; [now repeat split|].
  intros [[values policy] q_values] s _ (Hv & Hp & Hq). simpl.
  destruct (negb (state_eqb s terminalState)); [|now repeat split].
  repeat split.
  - now apply dict_set_num.
  - destruct (truthy (vi_getAction agent s)); [|exact Hp].
    apply dict_set_ok; [exact Hp | apply VAction_ok].
  - now apply q_values_fold_num.
Qed.

Lemma ql_collect_ok (gw : Gridworld) (agent : QLearningAgent) :
  tables_ok (ql_collect gw agent).
Proof.
  unfold ql_collect. apply fold_left_inv; [now repeat split|].
  intros [[values policy] q_values] s _ (Hv & Hp & Hq). simpl.
  destruct (negb (state_eqb s terminalState)); [|now repeat split].
  destruct (getPossibleActions gw s) as [|a l] eqn:Ha; [now repeat split|].
  repeat split.
  - now apply dict_set_num.
  - apply dict_set_ok; [exact Hp | apply VAction_ok].
  - now apply (q_values_fold_num (ql_getQValue agent s)).
Qed.

Lemma forallb_map_VStr (l : list string) : forallb string_keyed (map VStr l) = true.
Proof. induction l; simpl; auto. Qed.

Lemma state_info_base_ok (gw : Gridworld) (s : State) (x y : Z) :
  forallb entry_ok
    [(KStr "x"%string, VInt x);
     (KStr "y"%string, VInt y);
     (KStr "type"%string,
        VStr (if is_number (at_ (grid gw) x y) then "terminal" else "normal")%string);
     (KStr "reward"%string, match at_ (grid gw) x y with
                            | CNumber r => VNum r
                            | CChar _ => VNum (livingReward gw)
                            end);
     (KStr "actions"%string, VList (map VStr (getPossibleActions gw s)))] = true.
Proof.
  destruct (at_ (grid gw) x y);
    cbn [forallb entry_ok fst snd string_keyed is_number];
    now rewrite forallb_map_VStr.
Qed.

Lemma state_info_ok (gw : Gridworld) (s : State) (x y : Z) (values q_values : pydict) :
  num_valued values = true -> num_valued q_values = true ->
  string_keyed (state_info gw s x y (Some values) (Some q_values)) = true.
Proof.
  intros Hv Hq. unfold state_info. cbv zeta. rewrite string_keyed_dict.
  apply dict_set_ok.
  - destruct (dict_get values (KState s)) as [v|] eqn:Hg.
    + apply dict_set_ok; [apply state_info_base_ok|].
      apply is_num_string_keyed. exact (dict_get_num _ _ _ Hv Hg).
    + apply state_info_base_ok.
  - rewrite string_keyed_dict.
    apply (fold_left_inv (fun qs => forallb entry_ok qs = true)); [reflexivity|].
    intros qs a _ Hqs.
    destruct (dict_get q_values (KPair s a)) as [q|] eqn:Hg; [|exact Hqs].
    apply dict_set_ok; [exact Hqs|].
    apply is_num_string_keyed. exact (dict_get_num _ _ _ Hq Hg).
Qed.

Lemma forallb_app_true {A : Type} (p : A -> bool) (l l' : list A) :
  forallb p l = true -> forallb p l' = true -> forallb p (l ++ l') = true.
Proof. intros H H'. rewrite forallb_app. now rewrite H, H'. Qed.

Lemma state_infos_ok (gw : Gridworld) (values q_values : pydict) (sts : list State) :
  num_valued values = true -> num_valued q_values = true ->
  forallb string_keyed
    (fold_left
       (fun acc s =>
          if state_eqb s terminalState then acc
          else match s with
               | Cell x y => acc ++ [state_info gw s x y (Some values) (Some q_values)]
               | TERMINAL_STATE => acc
               end)
       sts []) = true.
Proof.
  intros Hv Hq.
  apply (fold_left_inv (fun acc => forallb string_keyed acc = true)); [reflexivity|].
  intros acc s _ Hacc.
  destruct (state_eqb s terminalState); [exact Hacc|].
  destruct s as [x y|]; [|exact Hacc].
  apply forallb_app_true; [exact Hacc|].
  cbn [forallb]. rewrite andb_true_r. now apply state_info_ok.
Qed.

Lemma walls_ok (g : Grid) :
  forallb string_keyed
    (flat_map
       (fun x =>
          flat_map
            (fun y =>
               if is_wall (at_ g x y)
               then [VDict [(KStr "x"%string, VInt x); (KStr "y"%string, VInt y)]]
               else [])
            (range (height g)))
       (range (width g))) = true.
Proof.
  apply forallb_forall. intros v Hin.
  apply in_flat_map in Hin as (x & _ & Hin).
  apply in_flat_map in Hin as (y & _ & Hin).
  destruct (is_wall (at_ g x y)); [|destruct Hin].
  destruct Hin as [<-|[]]. reflexivity.
Qed.

Lemma serialize_gridworld_state_ok (gw : Gridworld) (values q_values : pydict) :
  num_valued values = true -> num_valued q_values = true ->
  string_keyed (serialize_gridworld_state gw None (Some values) (Some q_values)) = true.
Proof.
  intros Hv Hq. unfold serialize_gridworld_state.
  rewrite string_keyed_dict. cbn [forallb entry_ok fst snd string_keyed].
  now rewrite state_infos_ok, walls_ok.
Qed.

(** Splits the claim that a dict literal has string keys only into one goal
    per entry, and closes the entries that are plain values. *)
Ltac dict_ok :=
  rewrite string_keyed_dict; cbn [forallb entry_ok fst snd];
  repeat match goal with
         | |- andb _ _ = true => apply andb_true_intro; split
         end;
  try match goal with
      | |- string_keyed (VStr _) = true => reflexivity
      | |- string_keyed (VInt _) = true => reflexivity
      | |- string_keyed (VNum _) = true => reflexivity
      | |- string_keyed (VBool _) = true => reflexivity
      | |- true = true => reflexivity
      end.

Lemma vi_result_ok (gw : Gridworld) (grid_name : string) (iterations : Z)
  (discount noise living_reward : F) (values policy q_values : pydict) :
  tables_ok (values, policy, q_values) ->
  string_keyed
    (VDict
       [(KStr "grid"%string, VStr grid_name);
        (KStr "iterations"%string, VInt iterations);
        (KStr "discount"%string, VNum discount);
        (KStr "noise"%string, VNum noise);
        (KStr "livingReward"%string, VNum living_reward);
        (KStr "gridData"%string,
           serialize_gridworld_state gw None (Some values) (Some q_values));
        (KStr "values"%string, VDict (str_keys values));
        (KStr "policy"%string, VDict policy)]) = true.
Proof.
  intros (Hv & Hp & Hq). dict_ok.
  - now apply serialize_gridworld_state_ok.
  - rewrite string_keyed_dict. now apply str_keys_ok.
  - now rewrite string_keyed_dict.
Qed.

(** A value-iteration request is answered, and with the same response
    whatever the state of the generator, which it leaves as it was. *)
Lemma run_value_iteration_returns (data : RequestData) :
  exists resp : Response,
    (forall r : Rng, run_value_iteration data r = Some (Ok resp, r)) /\
    string_keyed (body resp) = true /\
    (status resp = 200 \/ status resp = 404).
Proof.
  unfold run_value_iteration.
  destruct (gridworld_getattr _) as [grid_func|].
  - set (gw := setLivingReward _ _).
    set (agent := new_ValueIterationAgent _ _ _).
    pose proof (vi_collect_ok gw agent) as Hok.
    destruct (vi_collect gw agent) as [[values policy] q_values].
    eexists. split; [|split].
    + intros r. apply try_except_ok. apply jsonify_ok. now apply vi_result_ok.
    + now apply vi_result_ok.
    + now left.
  - exists (failure 404 ("Grid " ++ get (d_grid data) "BookGrid" ++ " not found")%string).
    split; [|split].
    + intros r. apply try_except_ok. apply not_found_run.
    + reflexivity.
    + now right.
Qed.

(** ** The episode loop of the Q-learning handler *)

Lemma ql_getAction_total (agent : QLearningAgent) (s : State) (r : Rng) :
  exists a r', ql_getAction agent s r = Some (Ok a, r') /\
               (a = None -> actionFn agent s = []).
Proof.
  unfold ql_getAction. destruct (actionFn agent s) as [|a l] eqn:E.
  - exists None, r. now split.
  - cbv [bind flipCoin lift ret random_choice].
    destruct (random_random r) as [x r1].
    destruct (fltb x (epsilon agent)).
    + destruct (random_below (List.length (a :: l)) r1) as [i r2].
      eexists _, _. split; [reflexivity | discriminate].
    + eexists _, _. split; [reflexivity|].
      unfold ql_getPolicy. rewrite E. discriminate.
Qed.

Lemma doAction_total (env : GridworldEnvironment) (a : Action) (r : Rng) :
  exists next_state reward r',
    doAction env a r =
      Some (Ok (next_state, reward,
                {| gridWorld := gridWorld env; env_state := next_state |}), r').
Proof.
  cbv [doAction bind lift ret].
  destruct (sample_transition (gridWorld env) (env_state env) a r) as [[ns rw] r'].
  now exists ns, rw, r'.
Qed.

Lemma actionFn_update (agent : QLearningAgent) (s s' : State) (a : Action) (x : F) :
  actionFn (add_episodeRewards (ql_update agent s a s' x) x) = actionFn agent.
Proof. reflexivity. Qed.

(** With at least [101 - steps] iterations allowed, the loop ends: it has
    counted at most 101 steps, and below the cap it stopped on the terminal
    state or for want of an action. *)
Lemma episode_loop_ends (gw : Gridworld) (fuel : nat) :
  forall (agent : QLearningAgent) (env : GridworldEnvironment) (state : State)
         (total : F) (steps : Z) (r : Rng),
    0 <= steps <= 100 -> 101 - steps <= Z.of_nat fuel ->
    exists e r',
      episode_loop fuel gw agent env state total steps r = Some (Ok e, r') /\
      steps <= ep_steps e <= 101 /\
      actionFn (ep_agent e) = actionFn agent /\
      (ep_steps e <= 100 ->
       ep_state e = terminalState \/
       getPossibleActions gw (ep_state e) = [] \/
       actionFn agent (ep_state e) = []).
Proof.
  induction fuel as [|fuel IH]; intros agent env state total steps r Hs Hf; [lia|].
  cbn [episode_loop].
  destruct (getPossibleActions gw state) as [|a0 l0] eqn:Hacts.
  { eexists _, _. split; [reflexivity|]. cbn. repeat split; try lia. auto. }
  unfold bind at 1.
  destruct (ql_getAction_total agent state r) as (a & r1 & -> & Hnone).
  destruct a as [a|].
  2:{ eexists _, _. split; [reflexivity|]. cbn. repeat split; try lia. auto. }
  unfold bind at 1.
  destruct (doAction_total env a r1) as (ns & rw & r2 & ->).
  destruct (state_eqb ns terminalState || (steps + 1 >? 100)) eqn:Hstop.
  - eexists _, _. split; [reflexivity|]. cbn. repeat split; try lia.
    intros Hle. left.
    apply orb_true_iff in Hstop as [Ht|Hgt]; [now apply state_eqb_eq | lia].
  - apply orb_false_iff in Hstop as [_ Hgt].
    destruct (IH (add_episodeRewards (ql_update agent state a ns rw) rw)
                 {| gridWorld := gridWorld env; env_state := ns |}
                 ns (fadd total rw) (steps + 1) r2) as (e & r' & He & Hb & Hfn & Hend);
      [lia | lia |].
    exists e, r'. split; [exact He|]. repeat split; try lia; assumption.
Qed.

(** More fuel does not change what the loop returns. *)
Lemma episode_loop_fuel (gw : Gridworld) (fuel : nat) :
  forall (fuel' : nat) (agent : QLearningAgent) (env : GridworldEnvironment)
         (state : State) (total : F) (steps : Z) (r : Rng) (res : Result EpisodeEnd * Rng),
    (fuel <= fuel')%nat ->
    episode_loop fuel gw agent env state total steps r = Some res ->
    episode_loop fuel' gw agent env state total steps r = Some res.
Proof.
  induction fuel as [|fuel IH]; intros fuel' agent env state total steps r res Hle;
    [discriminate|].
  destruct fuel' as [|fuel']; [lia|].
  cbn [episode_loop].
  destruct (getPossibleActions gw state); [auto|].
  unfold bind at 1 3.
  destruct (ql_getAction agent state r) as [[[[act|]|e] r1]|]; auto.
  unfold bind at 1 2.
  destruct (doAction env act r1) as [[[[[ns rw] env']|e] r2]|]; auto.
  destruct (state_eqb ns terminalState || (steps + 1 >? 100)); [auto|].
  apply IH. lia.
Qed.

Lemma for_each_inv {A X : Type} (I : A -> Prop) (body : X -> A -> M A) (l : list X) :
  (forall x a r, In x l -> I a -> exists a' r', body x a r = Some (Ok a', r') /\ I a') ->
  forall a r, I a -> exists a' r', for_each l a body r = Some (Ok a', r') /\ I a'.
Proof.
  induction l as [|x l IH]; intros Hbody a r Ha.
  - exists a, r. now split.
  - cbn [for_each]. unfold bind.
    destruct (Hbody x a r (or_introl eq_refl) Ha) as (a1 & r1 & -> & Ha1).
    apply IH; [|exact Ha1].
    intros y b s Hy. apply Hbody. now right.
Qed.

Lemma py_mod_sampling (episode episodes : Z) (r : Rng) :
  py_mod episode (Z.max 1 (episodes / 20)) r =
    Some (Ok (episode mod Z.max 1 (episodes / 20)), r).
Proof.
  unfold py_mod.
  destruct (Z.eqb_spec (Z.max 1 (episodes / 20)) 0) as [E|_]; [lia | reflexivity].
Qed.

(** One pass through the body of the training loop. *)
Lemma train_episode_spec (fuel : nat) (gw : Gridworld) (episodes episode : Z)
  (agent : QLearningAgent) (env : GridworldEnvironment) (results : list PyVal) (r : Rng) :
  (101 <= fuel)%nat ->
  exists e r',
    episode_loop fuel gw (startEpisode agent) env (getCurrentState env) f0 0 r
      = Some (Ok e, r') /\
    0 <= ep_steps e <= 101 /\
    train_episode fuel gw episodes episode (agent, env, results) r =
      Some (Ok (stopEpisode (ep_agent e), env_reset (ep_env e),
                if episode mod Z.max 1 (episodes / 20) =? 0
                then results ++ [history_entry episode (ep_total_reward e) (ep_steps e)]
                else results), r').
Proof.
  intros Hfuel.
  destruct (episode_loop_ends gw fuel (startEpisode agent) env (getCurrentState env)
              f0 0 r) as (e & r' & He & Hb & _); [lia | lia |].
  exists e, r'. split; [exact He|]. split; [exact Hb|].
  unfold train_episode. unfold bind at 1. rewrite He.
  unfold bind. now rewrite py_mod_sampling.
Qed.

Lemma ql_result_ok (gw : Gridworld) (grid_name : string) (episodes : Z)
  (epsilon alpha discount : F) (results : list PyVal) (values policy q_values : pydict) :
  forallb string_keyed results = true ->
  tables_ok (values, policy, q_values) ->
  string_keyed
    (VDict
       [(KStr "grid"%string, VStr grid_name);
        (KStr "episodes"%string, VInt episodes);
        (KStr "epsilon"%string, VNum epsilon);
        (KStr "alpha"%string, VNum alpha);
        (KStr "discount"%string, VNum discount);
        (KStr "trainingHistory"%string, VList results);
        (KStr "gridData"%string,
           serialize_gridworld_state gw None (Some values) (Some q_values));
        (KStr "values"%string, VDict (str_keys values));
        (KStr "policy"%string, VDict policy)]) = true.
Proof.
  intros Hr (Hv & Hp & Hq). dict_ok.
  - exact Hr.
  - now apply serialize_gridworld_state_ok.
  - rewrite string_keyed_dict. now apply str_keys_ok.
  - now rewrite string_keyed_dict.
Qed.

(** The training loop as a whole, from any state of the run. *)
Lemma training_returns (fuel : nat) (gw : Gridworld) (episodes : Z) (l : list Z)
  (t : Training) (r : Rng) :
  (101 <= fuel)%nat ->
  forallb string_keyed (snd t) = true ->
  exists t' r',
    for_each l t (train_episode fuel gw episodes) r = Some (Ok t', r') /\
    forallb string_keyed (snd t') = true.
Proof.
  intros Hfuel Ht.
  apply (for_each_inv (fun t : Training => forallb string_keyed (snd t) = true));
    [|exact Ht].
  intros episode [[agent env] results] r0 _ Hres.
  destruct (train_episode_spec fuel gw episodes episode agent env results r0 Hfuel)
    as (e & r' & _ & _ & ->).
  eexists _, _. split; [reflexivity|]. cbn [snd] in *.
  destruct (_ =? 0); [|exact Hres].
  apply forallb_app_true; [exact Hres | reflexivity].
Qed.

(** A training request is answered once every episode may take 101 steps. *)
Lemma start_qlearning_returns (fuel : nat) (data : RequestData) (r : Rng) :
  (101 <= fuel)%nat ->
  exists resp r',
    start_qlearning fuel data r = Some (Ok resp, r') /\
    string_keyed (body resp) = true /\
    (status resp = 200 \/ status resp = 404).
Proof.
  intros Hfuel. unfold start_qlearning.
  destruct (gridworld_getattr _) as [grid_func|].
  - set (gw := setLivingReward _ _).
    set (agent0 := new_QLearningAgent _ _ _ _).
    destruct (training_returns fuel gw (get (d_episodes data) 100)
                (range (get (d_episodes data) 100))
                (agent0, new_GridworldEnvironment gw, []) r Hfuel eq_refl)
      as ([[agent env] results] & r' & Hrun & Hres).
    pose proof (ql_collect_ok gw agent) as Hok.
    destruct (ql_collect gw agent) as [[values policy] q_values] eqn:Hcol.
    eexists _, r'. split; [|split].
    + apply try_except_ok. unfold bind. unfold Training in Hrun.
      rewrite Hrun, Hcol. apply jsonify_ok. now apply ql_result_ok.
    + now apply ql_result_ok.
    + now left.
  - eexists _, r. split; [|split].
    + apply try_except_ok. apply not_found_run.
    + reflexivity.
    + now right.
Qed.

(** ** Unknown names *)

(** C3: when the grid name (solve, train, compare) or the layout name (Pacman
    run) is unknown, the handler answers with a failure that carries a kind
    (status 404) and a message and nothing else; it does so before any
    computation: no loop iteration is needed (any fuel, even 0) and the
    generator is left as it was. *)
Theorem unknown_name_is_reported (ep : Endpoint) (fuel : nat) (data : RequestData) (r : Rng) :
  unknown_name ep data = true ->
  handle ep fuel data r = Some (Ok (failure 404 (not_found_message ep data)), r).
Proof.
  destruct ep; cbn [handle unknown_name requested_name not_found_message];
    [unfold run_value_iteration | unfold start_qlearning
    | unfold run_pacman_game | unfold compare_algorithms];
    intros H.
  - destruct (gridworld_getattr _); [discriminate|].
    apply try_except_ok, not_found_run.
  - destruct (gridworld_getattr _); [discriminate|].
    apply try_except_ok, not_found_run.
  - destruct (getLayout _); [discriminate|].
    apply try_except_ok, not_found_run.
  - destruct (gridworld_getattr _); [discriminate|].
    apply try_except_ok, not_found_run.
Qed.

(** ** Determinism of value iteration *)

Lemma table_get_sweep_over (sts : list State) (gw : Gridworld) (discount : F)
  (V : list (State * F)) (s : State) :
  table_get (sweep_over sts gw discount V) s =
    if existsb (state_eqb s) sts
    then best_value (map (lookahead gw discount V s) (getPossibleActions gw s))
    else f0.
Proof.
  induction sts as [|t sts IH]; [reflexivity|].
  cbn [sweep_over map table_get existsb] in *.
  destruct (state_eqb t s) eqn:E.
  - apply state_eqb_eq in E. subst. now rewrite state_eqb_refl.
  - replace (state_eqb s t) with false; [exact IH|].
    destruct (state_eqb s t) eqn:E'; [|reflexivity].
    apply state_eqb_eq in E'. subst. now rewrite state_eqb_refl in E.
Qed.

(** The new table of a sweep does not depend on the order in which the
    states are enumerated. *)
Lemma sweep_order_irrelevant (sts sts' : list State) (gw : Gridworld) (discount : F)
  (V : list (State * F)) (s : State) :
  Permutation sts sts' ->
  table_get (sweep_over sts gw discount V) s = table_get (sweep_over sts' gw discount V) s.
Proof.
  intros Hperm. rewrite !table_get_sweep_over.
  replace (existsb (state_eqb s) sts') with (existsb (state_eqb s) sts); [reflexivity|].
  destruct (existsb (state_eqb s) sts) eqn:E; symmetry.
  - apply existsb_exists in E as (t & Hin & Ht).
    apply existsb_exists. exists t. split; [|exact Ht].
    eapply Permutation_in; eassumption.
  - destruct (existsb (state_eqb s) sts') eqn:E'; [|reflexivity].
    apply existsb_exists in E' as (t & Hin & Ht).
    assert (existsb (state_eqb s) sts = true) as E2; [|congruence].
    apply existsb_exists. exists t. split; [|exact Ht].
    eapply Permutation_in; [apply Permutation_sym|]; eassumption.
Qed.

(** C2: for a fixed request (grid name, discount, iteration count, noise,
    living reward) the solve operation returns the same response, hence the
    same value table, Q-table and policy, on every run: whatever the state
    of the random generator, which it never draws from. *)
Theorem value_iteration_is_deterministic (data : RequestData) (r1 r2 : Rng) :
  exists resp : Response,
    run_value_iteration data r1 = Some (Ok resp, r1) /\
    run_value_iteration data r2 = Some (Ok resp, r2).
Proof.
  destruct (run_value_iteration_returns data) as (resp & Hrun & _).
  exists resp. split; apply Hrun.
Qed.

(** ** String keys *)

(** C7: the responses of solve and train hold no composite key: the value
    table, the Q-table and the policy map they return are keyed by strings,
    and serializing them never fails on a tuple key (the status is never
    500). *)
Theorem returned_tables_are_string_keyed (fuel : nat) (data : RequestData) (r : Rng) :
  (101 <= fuel)%nat ->
  (exists resp,
      run_value_iteration data r = Some (Ok resp, r) /\
      string_keyed (body resp) = true /\ status resp <> 500) /\
  (exists resp r',
      start_qlearning fuel data r = Some (Ok resp, r') /\
      string_keyed (body resp) = true /\ status resp <> 500).
Proof.
  intros Hfuel. split.
  - destruct (run_value_iteration_returns data) as (resp & Hrun & Hkeys & Hst).
    exists resp. repeat split; [apply Hrun | exact Hkeys | lia].
  - destruct (start_qlearning_returns fuel data r Hfuel) as (resp & r' & Hrun & Hkeys & Hst).
    exists resp, r'. repeat split; [exact Hrun | exact Hkeys | lia].
Qed.

(** ** Termination of the training episodes *)

(** C1, as the code has it: every episode loop of the Q-learning handler
    ends.  Allowed 101 iterations it returns, having counted at most 101
    steps; below that count it stopped on the terminal state, on a state
    without legal actions, or because the agent gave no action.  The bound
    is the constant of the test [steps > 100]: it holds for every request,
    and no field of a request enters it.  Hence the handler answers. *)
Theorem qlearning_episode_is_capped (fuel : nat) :
  (101 <= fuel)%nat ->
  (forall (gw : Gridworld) (agent : QLearningAgent) (env : GridworldEnvironment)
          (state : State) (total : F) (r : Rng),
      exists e r',
        episode_loop fuel gw agent env state total 0 r = Some (Ok e, r') /\
        0 <= ep_steps e <= 101 /\
        (ep_steps e <= 100 ->
         ep_state e = terminalState \/
         getPossibleActions gw (ep_state e) = [] \/
         actionFn agent (ep_state e) = [])) /\
  (forall (data : RequestData) (r : Rng),
      exists resp r', start_qlearning fuel data r = Some (Ok resp, r')).
Proof.
  intros Hfuel. split.
  - intros gw agent env state total r.
    destruct (episode_loop_ends gw fuel agent env state total 0 r)
      as (e & r' & He & Hb & _ & Hend); [lia | lia |].
    now exists e, r'.
  - intros data r.
    destruct (start_qlearning_returns fuel data r Hfuel) as (resp & r' & Hrun & _).
    now exists resp, r'.
Qed.

(** ** The Pacman run *)

Lemma avgScore_run (gs : list Game) (r : Rng) :
  avgScore gs r = Some (Ok (mean_score gs), r).
Proof.
  destruct gs as [|g gs]; [reflexivity|].
  unfold avgScore, py_truediv, mean_score.
  destruct (Z.eqb_spec (len (g :: gs)) 0) as [E|_]; [|reflexivity].
  unfold len in E. cbn [List.length] in E. lia.
Qed.

Lemma summary_run (gs : list Game) (r : Rng) :
  summary gs r = Some (Ok (summary_over gs), r).
Proof. unfold summary, bind. now rewrite avgScore_run. Qed.

Lemma forallb_map_true {A : Type} (f : A -> PyVal) (l : list A) :
  (forall a, string_keyed (f a) = true) -> forallb string_keyed (map f l) = true.
Proof. intros H. induction l; simpl; [reflexivity|]. now rewrite H. Qed.

Lemma bool_grid_ok (cell : Z -> Z -> bool) (w h : Z) :
  string_keyed
    (VList (map (fun x => VList (map (fun y => VBool (cell x y)) (range h))) (range w)))
  = true.
Proof.
  cbn [string_keyed]. apply forallb_map_true. intros x.
  cbn [string_keyed]. now apply forallb_map_true.
Qed.

Lemma positions_ok (l : list (F * F)) : string_keyed (VList (map position l)) = true.
Proof. cbn [string_keyed]. now apply forallb_map_true. Qed.

Lemma serialize_game_state_ok (st : option GameState) :
  string_keyed (serialize_game_state st) = true.
Proof.
  destruct st as [st|]; [|reflexivity].
  unfold serialize_game_state. dict_ok;
    try apply bool_grid_ok; try apply positions_ok; reflexivity.
Qed.

Lemma game_entry_ok (ig : Z * Game) : string_keyed (game_entry ig) = true.
Proof.
  destruct ig as [i g]. unfold game_entry. dict_ok. apply serialize_game_state_ok.
Qed.

(** What the handler answers when the engine returns the list [games]. *)
Lemma run_pacman_game_returns (data : RequestData) (lay : Layout) (games : list Game)
  (r r' : Rng) :
  getLayout (get (d_layout data) "smallGrid"%string) = Some lay ->
  runGames (pacman_call data lay) r = Some (Ok games, r') ->
  exists resp,
    run_pacman_game data r = Some (Ok resp, r') /\
    status resp = 200 /\
    field "summary" (body resp)
      = summary_over (test_games_of games (get (d_numTraining data) 10)) /\
    field "games" (body resp)
      = VList (map game_entry
                   (enumerate (test_games_of games (get (d_numTraining data) 10)))).
Proof.
  intros Hlay Hrun. unfold run_pacman_game. rewrite Hlay.
  eexists. split; [|split; [|split]].
  - apply try_except_ok. unfold bind at 1.
    change (runGames_args lay _ _ _) with (pacman_call data lay). rewrite Hrun.
    unfold bind. rewrite summary_run. apply jsonify_ok.
    dict_ok.
    + cbn [string_keyed]. apply forallb_map_true. apply game_entry_ok.
    + reflexivity.
  - reflexivity.
  - reflexivity.
  - reflexivity.
Qed.

(** What the handler answers when the engine raises. *)
Lemma run_pacman_game_raises (data : RequestData) (lay : Layout) (e : string)
  (r r' : Rng) :
  getLayout (get (d_layout data) "smallGrid"%string) = Some lay ->
  runGames (pacman_call data lay) r = Some (Raise e, r') ->
  run_pacman_game data r =
    Some (Ok {| body := VDict [(KStr "error"%string, VStr e);
                               (KStr "traceback"%string, VStr (format_exc e))];
                status := 500 |}, r').
Proof.
  intros Hlay Hrun. unfold run_pacman_game. rewrite Hlay.
  apply try_except_raise. unfold bind.
  change (runGames_args lay _ _ _) with (pacman_call data lay). now rewrite Hrun.
Qed.

Lemma slice_from_skipn {A : Type} (l : list A) (i : Z) :
  0 <= i -> slice_from l i = skipn (Z.to_nat i) l.
Proof.
  intros Hi. unfold slice_from.
  destruct (Z.ltb_spec i 0) as [|_]; [lia|].
  destruct (Z.le_ge_cases i (Z.of_nat (List.length l))) as [Hle|Hge].
  - now rewrite Z.min_l.
  - rewrite Z.min_r, Nat2Z.id by exact Hge.
    rewrite !skipn_all2; [reflexivity | lia | lia].
Qed.



(** C5, as the code has it: every Pacman request runs the engine with
    [catchExceptions=True]; the request has no say in it.  What becomes of an
    episode that fails is then the engine's business; if the call itself
    raises, the handler answers with a failure of status 500 that carries the
    message, and with no games and no summary. *)
Theorem engine_runs_with_catch_exceptions (data : RequestData) (lay : Layout) (r : Rng) :
  getLayout (get (d_layout data) "smallGrid"%string) = Some lay ->
  rg_catchExceptions (pacman_call data lay) = true /\
  (forall e r',
      runGames (pacman_call data lay) r = Some (Raise e, r') ->
      exists resp,
        run_pacman_game data r = Some (Ok resp, r') /\
        status resp = 500 /\
        field "error" (body resp) = VStr e /\
        has_key (body resp) "games" = false /\
        has_key (body resp) "summary" = false).
Proof.
  intros Hlay. split; [reflexivity|].
  intros e r' Hrun. eexists.
  split; [exact (run_pacman_game_raises data lay e r r' Hlay Hrun)|].
  now repeat split.
Qed.

(** ** The training history *)

Lemma sampling_every_episode (N episode : Z) :
  N < 40 -> (episode mod Z.max 1 (N / 20) =? 0) = true.
Proof.
  intros HN. assert (N / 20 < 2) by (apply Z.div_lt_upper_bound; lia).
  rewrite Z.max_l by lia. rewrite Z.mod_1_r. reflexivity.
Qed.

(** With fewer than 40 episodes the loop records each of them. *)
Lemma training_records_all (fuel : nat) (gw : Gridworld) (N : Z) (l : list Z) :
  (101 <= fuel)%nat -> N < 40 ->
  forall (agent : QLearningAgent) (env : GridworldEnvironment) (results : list PyVal)
         (r : Rng),
    forallb string_keyed results = true ->
    exists agent' env' results' r',
      for_each l (agent, env, results) (train_episode fuel gw N) r
        = Some (Ok (agent', env', results'), r') /\
      forallb string_keyed results' = true /\
      map (field "episode") results' = map (field "episode") results ++ map VInt l.
Proof.
  intros Hfuel HN. induction l as [|episode l IH]; intros agent env results r Hres.
  - exists agent, env, results, r. cbn [for_each map]. rewrite app_nil_r. now repeat split.
  - cbn [for_each]. unfold bind.
    destruct (train_episode_spec fuel gw N episode agent env results r Hfuel)
      as (e & r1 & _ & _ & ->).
    rewrite sampling_every_episode by exact HN.
    destruct (IH (stopEpisode (ep_agent e)) (env_reset (ep_env e))
                 (results ++ [history_entry episode (ep_total_reward e) (ep_steps e)]) r1)
      as (agent' & env' & results' & r' & Hrun & Hok & Hmap).
    { apply forallb_app_true; [exact Hres | reflexivity]. }
    exists agent', env', results', r'. split; [exact Hrun|]. split; [exact Hok|].
    rewrite Hmap, map_app. cbn [map]. rewrite <- app_assoc. reflexivity.
Qed.

(** C9: for every requested episode count N the sampling modulus
    [max(1, N // 20)] is at least 1, so that the test whether to record an
    episode never takes a modulo by zero; for N < 40 the modulus is 1, every
    pass through the training loop appends the summary of its episode
    (index, total reward, step count), and the training history of the
    response has one entry for each episode 0 .. N-1, in order. *)
Theorem history_sampling_is_safe (N : Z) :
  1 <= Z.max 1 (N / 20) /\
  (forall (episode : Z) (r : Rng),
      py_mod episode (Z.max 1 (N / 20)) r
        = Some (Ok (episode mod Z.max 1 (N / 20)), r)) /\
  (N < 40 ->
   Z.max 1 (N / 20) = 1 /\
   (forall (fuel : nat) (gw : Gridworld) (episode : Z) (agent : QLearningAgent)
           (env : GridworldEnvironment) (results : list PyVal) (r : Rng),
       (101 <= fuel)%nat ->
       exists e r',
         episode_loop fuel gw (startEpisode agent) env (getCurrentState env) f0 0 r
           = Some (Ok e, r') /\
         train_episode fuel gw N episode (agent, env, results) r
           = Some (Ok (stopEpisode (ep_agent e), env_reset (ep_env e),
                       results ++
                       [history_entry episode (ep_total_reward e) (ep_steps e)]), r')) /\
   (forall (fuel : nat) (data : RequestData) (r : Rng),
       (101 <= fuel)%nat ->
       d_episodes data = Some N ->
       unknown_name QLearningStart data = false ->
       exists resp r',
         start_qlearning fuel data r = Some (Ok resp, r') /\
         map (field "episode") (items (field "trainingHistory" (body resp)))
           = map VInt (range N))).
Proof.
  split; [lia|]. split; [intros; apply py_mod_sampling|].
  intros HN. split; [|split].
  - assert (N / 20 < 2) by (apply Z.div_lt_upper_bound; lia). lia.
  - intros fuel gw episode agent env results r Hfuel.
    destruct (train_episode_spec fuel gw N episode agent env results r Hfuel)
      as (e & r' & He & _ & Ht).
    exists e, r'. split; [exact He|].
    rewrite Ht. now rewrite sampling_every_episode.
  - intros fuel data r Hfuel HN' Hknown.
    unfold start_qlearning. cbn [unknown_name requested_name] in Hknown.
    destruct (gridworld_getattr _) as [grid_func|]; [|discriminate].
    rewrite HN'. cbn [get].
    set (gw := setLivingReward _ _).
    set (agent0 := new_QLearningAgent _ _ _ _).
    destruct (training_records_all fuel gw N (range N) Hfuel HN agent0
                (new_GridworldEnvironment gw) [] r eq_refl)
      as (agent & env & results & r' & Hrun & Hres & Hmap).
    pose proof (ql_collect_ok gw agent) as Hok.
    destruct (ql_collect gw agent) as [[values policy] q_values] eqn:Hcol.
    eexists _, r'. split.
    + apply try_except_ok. unfold bind. rewrite Hrun, Hcol.
      apply jsonify_ok. now apply ql_result_ok.
    + exact Hmap.
Qed.

(** ** States without legal actions *)

Lemma vi_getAction_none (agent : ValueIterationAgent) (s : State) :
  getPossibleActions (vi_mdp agent) s = [] -> vi_getAction agent s = None.
Proof. intros H. unfold vi_getAction. now rewrite H. Qed.

Lemma ql_getPolicy_none (agent : QLearningAgent) (s : State) :
  actionFn agent s = [] -> ql_getPolicy agent s = None.
Proof. intros H. unfold ql_getPolicy. now rewrite H. Qed.

Lemma str_key_differs (s t : State) :
  s <> t -> key_eqb (KStr (str t)) (KStr (str s)) = false.
Proof.
  intros Hne. destruct (key_eqb (KStr (str t)) (KStr (str s))) eqn:E; [|reflexivity].
  apply key_eqb_eq in E. injection E as E. apply str_inj in E. now subst.
Qed.

Lemma vi_policy_omits (gw : Gridworld) (agent : ValueIterationAgent) (s : State) :
  vi_getAction agent s = None ->
  dict_get (snd (fst (vi_collect gw agent))) (KStr (str s)) = None.
Proof.
  intros Hnone. unfold vi_collect.
  apply (fold_left_inv (fun t : Tables => dict_get (snd (fst t)) (KStr (str s)) = None));
    [reflexivity|].
  intros [[values policy] q_values] t _ Hp. cbn [fst snd] in *.
  destruct (negb (state_eqb t terminalState)); [|exact Hp]. cbn [fst snd].
  destruct (truthy (vi_getAction agent t)) eqn:Htruthy; [|exact Hp].
  rewrite dict_get_set_other; [exact Hp|].
  apply str_key_differs. intros ->. rewrite Hnone in Htruthy. discriminate.
Qed.

Lemma ql_policy_omits (gw : Gridworld) (agent : QLearningAgent) (s : State) :
  getPossibleActions gw s = [] ->
  dict_get (snd (fst (ql_collect gw agent))) (KStr (str s)) = None.
Proof.
  intros Hnone. unfold ql_collect.
  apply (fold_left_inv (fun t : Tables => dict_get (snd (fst t)) (KStr (str s)) = None));
    [reflexivity|].
  intros [[values policy] q_values] t _ Hp. cbn [fst snd] in *.
  destruct (negb (state_eqb t terminalState)); [|exact Hp].
  destruct (getPossibleActions gw t) as [|a l] eqn:Hacts; [exact Hp|]. cbn [fst snd].
  rewrite dict_get_set_other; [exact Hp|].
  apply str_key_differs. intros ->. rewrite Hnone in Hacts. discriminate.
Qed.

(** C6: for a state without legal actions the greedy action is "no action"
    (value iteration's [getAction], Q-learning's [getPolicy] and
    [getAction] return none, they do not raise), and the policy maps that
    solve and train return have no entry for it. *)
Theorem states_without_actions_are_left_out (data : RequestData)
  (grid_func : unit -> Gridworld) (s : State) (fuel : nat) (r : Rng) :
  gridworld_getattr ("get" ++ get (d_grid data) "BookGrid")%string = Some grid_func ->
  getPossibleActions (configured data grid_func) s = [] ->
  (101 <= fuel)%nat ->
  (forall discount iterations,
      vi_getAction (new_ValueIterationAgent (configured data grid_func) discount iterations) s
      = None) /\
  (forall (agent : QLearningAgent) (r0 : Rng),
      actionFn agent s = [] ->
      ql_getPolicy agent s = None /\ ql_getAction agent s r0 = Some (Ok None, r0)) /\
  (exists resp,
      run_value_iteration data r = Some (Ok resp, r) /\
      has_key (field "policy" (body resp)) (str s) = false) /\
  (exists resp r',
      start_qlearning fuel data r = Some (Ok resp, r') /\
      has_key (field "policy" (body resp)) (str s) = false).
Proof.
  intros Hgrid Hnone Hfuel. split; [|split; [|split]].
  - intros discount iterations. now apply vi_getAction_none.
  - intros agent r0 Hfn. split; [now apply ql_getPolicy_none|].
    unfold ql_getAction. now rewrite Hfn.
  - unfold run_value_iteration. rewrite Hgrid.
    change (setLivingReward _ _) with (configured data grid_func).
    set (gw := configured data grid_func) in *.
    set (agent := new_ValueIterationAgent _ _ _).
    pose proof (vi_collect_ok gw agent) as Hok.
    pose proof (vi_policy_omits gw agent s (vi_getAction_none agent s Hnone)) as Hom.
    destruct (vi_collect gw agent) as [[values policy] q_values].
    eexists. split.
    + apply try_except_ok, jsonify_ok. now apply vi_result_ok.
    + cbn [fst snd] in Hom. unfold has_key, dict_mem.
      change (field "policy" _) with (VDict policy). cbv beta iota. now rewrite Hom.
  - unfold start_qlearning. rewrite Hgrid.
    change (setLivingReward _ _) with (configured data grid_func).
    set (gw := configured data grid_func) in *.
    set (agent0 := new_QLearningAgent _ _ _ _).
    destruct (training_returns fuel gw (get (d_episodes data) 100)
                (range (get (d_episodes data) 100))
                (agent0, new_GridworldEnvironment gw, []) r Hfuel eq_refl)
      as ([[agent env] results] & r' & Hrun & Hres).
    pose proof (ql_collect_ok gw agent) as Hok.
    pose proof (ql_policy_omits gw agent s Hnone) as Hom.
    destruct (ql_collect gw agent) as [[values policy] q_values] eqn:Hcol.
    eexists _, r'. split.
    + apply try_except_ok. unfold bind. unfold Training in Hrun.
      rewrite Hrun, Hcol. apply jsonify_ok. now apply ql_result_ok.
    + cbn [fst snd] in Hom. unfold has_key, dict_mem.
      change (field "policy" _) with (VDict policy). cbv beta iota. now rewrite Hom.
Qed.

(** ** Training for no episode *)

Lemma py_max_same (x : F) (l : list F) : Forall (eq x) l -> py_max x l = x.
Proof.
  unfold py_max. induction 1 as [|y l <- _ IH]; cbn [fold_left]; [reflexivity|].
  now destruct (fltb x x).
Qed.

Lemma zero_valued_set (d : pydict) (k : PyKey) :
  zero_valued d -> zero_valued (dict_set d k (VNum f0)).
Proof.
  intros Hd. apply Forall_forall. intros kw Hin.
  destruct (dict_set_In _ _ _ _ Hin) as [->|Hin']; [reflexivity|].
  exact (proj1 (Forall_forall _ _) Hd _ Hin').
Qed.

Lemma zero_valued_get (d : pydict) (k : PyKey) (v : PyVal) :
  zero_valued d -> dict_get d k = Some v -> v = VNum f0.
Proof.
  intros Hd Hg. apply dict_get_In in Hg.
  exact (proj1 (Forall_forall _ _) Hd _ Hg).
Qed.

Lemma zero_valued_values (d : pydict) :
  zero_valued d -> Forall (fun v => v = VNum f0) (map snd d).
Proof. intros Hd. apply Forall_map. exact Hd. Qed.

Lemma str_keys_zero (d : pydict) : zero_valued d -> zero_valued (str_keys d).
Proof.
  intros Hd. unfold str_keys.
  apply (fold_left_inv zero_valued); [constructor|].
  intros acc [k v] Hin Hacc. cbn [fst snd].
  pose proof (proj1 (Forall_forall _ _) Hd _ Hin) as Hk. cbn [snd] in Hk.
  rewrite Hk. now apply zero_valued_set.
Qed.

(** The tables collected from an agent whose Q-table is empty. *)
Lemma ql_collect_fresh (gw : Gridworld) (agent : QLearningAgent) :
  qtable agent = [] ->
  zero_valued (fst (fst (ql_collect gw agent))) /\ zero_valued (snd (ql_collect gw agent)).
Proof.
  intros Hq.
  assert (Hzero : forall s a, ql_getQValue agent s a = f0).
  { intros s a. unfold ql_getQValue. now rewrite Hq. }
  unfold ql_collect.
  apply (fold_left_inv
           (fun t : Tables => zero_valued (fst (fst t)) /\ zero_valued (snd t)));
    [split; constructor|].
  intros [[values policy] q_values] s _ [Hv Hqv]. cbn [fst snd] in *.
  destruct (negb (state_eqb s terminalState)); [|now split].
  destruct (getPossibleActions gw s) as [|a l]; [now split|]. cbn [fst snd]. split.
  - cbn [map]. rewrite !Hzero. rewrite py_max_same; [now apply zero_valued_set|].
    apply Forall_map, Forall_forall. intros b _. now rewrite Hzero.
  - apply (fold_left_inv zero_valued); [exact Hqv|].
    intros q b _ Hqb. rewrite Hzero. now apply zero_valued_set.
Qed.

(** What a state's entry of the grid data reports comes from the tables. *)
Lemma state_info_zero (gw : Gridworld) (s : State) (x y : Z) (values q_values : pydict) :
  zero_valued values -> zero_valued q_values ->
  let info := state_info gw s x y (Some values) (Some q_values) in
  Forall (fun v => v = VNum f0) (dict_values (field "qValues" info)) /\
  Forall (fun v => v = VNum f0)
         (if has_key info "value" then [field "value" info] else []).
Proof.
  intros Hv Hq. unfold state_info. cbv zeta.
  set (base := [(KStr "x"%string, VInt x); _; _; _; _]).
  set (info1 := match dict_get values (KState s) with
                | Some v => dict_set base (KStr "value"%string) v
                | None => base
                end).
  match goal with
  | |- context [fold_left ?f (getPossibleActions gw s) []] =>
      set (qs := fold_left f (getPossibleActions gw s) [])
  end.
  assert (Hqs : zero_valued qs).
  { apply (fold_left_inv zero_valued); [constructor|].
    intros acc a _ Hacc.
    destruct (dict_get q_values (KPair s a)) as [q|] eqn:Hg; [|exact Hacc].
    rewrite (zero_valued_get _ _ _ Hq Hg). now apply zero_valued_set. }
  unfold field, has_key, dict_mem. split.
  - rewrite dict_get_set_same. now apply zero_valued_values.
  - rewrite dict_get_set_other by reflexivity.
    subst info1. destruct (dict_get values (KState s)) as [v|] eqn:Hg.
    + rewrite dict_get_set_same. constructor; [|constructor].
      exact (zero_valued_get _ _ _ Hv Hg).
    + replace (dict_get base (KStr "value"%string)) with (@None PyVal) by reflexivity.
      constructor.
Qed.

Lemma state_infos_zero (gw : Gridworld) (values q_values : pydict) :
  zero_valued values -> zero_valued q_values ->
  Forall (fun info =>
            Forall (fun v => v = VNum f0) (dict_values (field "qValues" info)) /\
            Forall (fun v => v = VNum f0)
                   (if has_key info "value" then [field "value" info] else []))
         (items (field "states"
                   (serialize_gridworld_state gw None (Some values) (Some q_values)))).
Proof.
  intros Hv Hq.
  change (items _) with
    (fold_left
       (fun acc s =>
          if state_eqb s terminalState then acc
          else match s with
               | Cell x y => acc ++ [state_info gw s x y (Some values) (Some q_values)]
               | TERMINAL_STATE => acc
               end)
       (getStates gw) []).
  apply (fold_left_inv (Forall _)); [constructor|].
  intros acc s _ Hacc.
  destruct (state_eqb s terminalState); [exact Hacc|].
  destruct s as [x y|]; [|exact Hacc].
  apply Forall_app. split; [exact Hacc|].
  constructor; [|constructor]. now apply state_info_zero.
Qed.

Lemma Forall_flat_map {A B : Type} (P : B -> Prop) (f : A -> list B) (l : list A) :
  Forall (fun a => Forall P (f a)) l -> Forall P (flat_map f l).
Proof.
  induction 1 as [|a l Ha _ IH]; cbn [flat_map]; [constructor|].
  apply Forall_app. now split.
Qed.

Lemma fold_left_reach {A B : Type} (Q : A -> Prop) (f : A -> B -> A) (x : B) (l : list B) :
  (forall a, Q (f a x)) -> (forall a y, Q a -> Q (f a y)) ->
  In x l -> forall a, Q (fold_left f l a).
Proof.
  intros Hx Hkeep. induction l as [|y l IH]; intros Hin a; [destruct Hin|].
  cbn [fold_left]. destruct Hin as [->|Hin].
  - apply fold_left_inv; [apply Hx|]. intros b z _. apply Hkeep.
  - now apply IH.
Qed.

Lemma dict_mem_set (d : pydict) (k j : PyKey) (v : PyVal) :
  dict_mem d j = true \/ j = k -> dict_mem (dict_set d k v) j = true.
Proof.
  unfold dict_mem. intros H. destruct (key_eqb k j) eqn:E.
  - apply key_eqb_eq in E. subst. now rewrite dict_get_set_same.
  - rewrite dict_get_set_other by exact E.
    destruct H as [H| ->]; [exact H|]. now rewrite key_eqb_refl in E.
Qed.

(** Every legal pair of a state of the grid has its entry in [q_values]. *)
Lemma ql_collect_complete (gw : Gridworld) (agent : QLearningAgent) (s : State) (a : Action) :
  In s (getStates gw) -> s <> terminalState -> In a (getPossibleActions gw s) ->
  dict_mem (snd (ql_collect gw agent)) (KPair s a) = true.
Proof.
  intros Hs Hterm Ha. unfold ql_collect.
  apply (fold_left_reach
           (fun t : Tables => dict_mem (snd t) (KPair s a) = true)) with (x := s);
    [| |exact Hs].
  - intros [[values policy] q_values]. cbn [snd].
    destruct (state_eqb s terminalState) eqn:E; [now apply state_eqb_eq in E|].
    cbn [negb]. destruct (getPossibleActions gw s) as [|a0 l] eqn:Hacts; [destruct Ha|].
    cbn [snd].
    apply (fold_left_reach (fun q => dict_mem q (KPair s a) = true)) with (x := a);
      [| |exact Ha].
    + intros q. apply dict_mem_set. now right.
    + intros q b Hq. apply dict_mem_set. now left.
  - intros [[values policy] q_values] t Hq. cbn [snd] in *.
    destruct (negb (state_eqb t terminalState)); [|exact Hq].
    destruct (getPossibleActions gw t) as [|a0 l]; [exact Hq|]. cbn [snd].
    apply fold_left_inv; [exact Hq|].
    intros q b _ Hqb. apply dict_mem_set. now left.
Qed.

(** The entry of a state reports the Q-value of each legal action that
    [q_values] holds. *)
Lemma state_info_reports (gw : Gridworld) (x y : Z) (a : Action) (values q_values : pydict) :
  zero_valued q_values ->
  In a (getPossibleActions gw (Cell x y)) ->
  dict_mem q_values (KPair (Cell x y) a) = true ->
  let info := state_info gw (Cell x y) x y (Some values) (Some q_values) in
  field "x" info = VInt x /\ field "y" info = VInt y /\
  field a (field "qValues" info) = VNum f0.
Proof.
  intros Hq Ha Hmem. unfold state_info. cbv zeta.
  set (base := [(KStr "x"%string, VInt x); _; _; _; _]).
  set (info1 := match dict_get values (KState (Cell x y)) with
                | Some v => dict_set base (KStr "value"%string) v
                | None => base
                end).
  assert (Hx : dict_get info1 (KStr "x"%string) = Some (VInt x)).
  { subst info1. destruct (dict_get values _); [|reflexivity].
    now rewrite dict_get_set_other. }
  assert (Hy : dict_get info1 (KStr "y"%string) = Some (VInt y)).
  { subst info1. destruct (dict_get values _); [|reflexivity].
    now rewrite dict_get_set_other. }
  unfold field. rewrite dict_get_set_same.
  rewrite !dict_get_set_other by reflexivity. rewrite Hx, Hy.
  split; [reflexivity|]. split; [reflexivity|].
  apply (fold_left_reach
           (fun qs => match dict_get qs (KStr a) with
                      | Some q => q
                      | None => VNone
                      end = VNum f0)) with (x := a); [| |exact Ha].
  - intros qs. unfold dict_mem in Hmem.
    destruct (dict_get q_values (KPair (Cell x y) a)) as [q|] eqn:Hg; [|discriminate].
    rewrite dict_get_set_same. exact (zero_valued_get _ _ _ Hq Hg).
  - intros qs b Hqs.
    destruct (dict_get q_values (KPair (Cell x y) b)) as [q|] eqn:Hg; [|exact Hqs].
    destruct (key_eqb (KStr b) (KStr a)) eqn:E.
    + apply key_eqb_eq in E. injection E as ->.
      rewrite dict_get_set_same. exact (zero_valued_get _ _ _ Hq Hg).
    + now rewrite dict_get_set_other.
Qed.

(** Every state of the grid but the terminal one has its entry in the grid
    data. *)
Lemma state_infos_complete (gw : Gridworld) (x y : Z) (values q_values : pydict) :
  In (Cell x y) (getStates gw) ->
  In (state_info gw (Cell x y) x y (Some values) (Some q_values))
     (items (field "states"
               (serialize_gridworld_state gw None (Some values) (Some q_values)))).
Proof.
  intros Hs.
  change (items _) with
    (fold_left
       (fun acc s =>
          if state_eqb s terminalState then acc
          else match s with
               | Cell x y => acc ++ [state_info gw s x y (Some values) (Some q_values)]
               | TERMINAL_STATE => acc
               end)
       (getStates gw) []).
  apply (fold_left_reach
           (fun acc => In (state_info gw (Cell x y) x y (Some values) (Some q_values)) acc))
    with (x := Cell x y); [| |exact Hs].
  - intros acc. cbn [state_eqb terminalState]. apply in_or_app. right. now left.
  - intros acc s Hacc.
    destruct (state_eqb s terminalState); [exact Hacc|].
    destruct s; [|exact Hacc]. apply in_or_app. now left.
Qed.

(** C4: a training run of 0 episodes returns a Q-table that is 0 for every
    pair: every Q-value it reports is 0, and it reports one for every legal
    action of every state of the grid; every state value it reports is 0.
    No episode runs (any fuel will do) and the generator is not drawn
    from. *)
Theorem zero_episodes_leave_the_tables_at_zero (fuel : nat) (data : RequestData) (r : Rng) :
  d_episodes data = Some 0 ->
  exists resp,
    start_qlearning fuel data r = Some (Ok resp, r) /\
    Forall (fun v => v = VNum f0) (reported_qvalues resp) /\
    Forall (fun v => v = VNum f0) (reported_values resp) /\
    (forall grid_func x y a,
        gridworld_getattr ("get" ++ get (d_grid data) "BookGrid")%string = Some grid_func ->
        In (Cell x y) (getStates (configured data grid_func)) ->
        In a (getPossibleActions (configured data grid_func) (Cell x y)) ->
        exists info,
          In info (state_infos resp) /\
          field "x" info = VInt x /\ field "y" info = VInt y /\
          field a (field "qValues" info) = VNum f0).
Proof.
  intros Hzero. unfold start_qlearning. rewrite Hzero.
  cbn [get range Z.to_nat seq map for_each].
  destruct (gridworld_getattr _) as [grid_func|].
  - change (setLivingReward _ _) with (configured data grid_func).
    set (gw := configured data grid_func).
    set (agent := new_QLearningAgent _ _ _ _).
    pose proof (ql_collect_ok gw agent) as Hok.
    pose proof (ql_collect_complete gw agent) as Hall.
    destruct (ql_collect_fresh gw agent eq_refl) as [Hv Hq].
    destruct (ql_collect gw agent) as [[values policy] q_values] eqn:Hcol.
    cbn [fst snd] in Hv, Hq, Hall.
    eexists. split; [|split; [|split]].
    + apply try_except_ok. unfold bind, ret. rewrite Hcol.
      apply jsonify_ok. now apply ql_result_ok.
    + unfold reported_qvalues, state_infos. cbn [body].
      change (field "gridData" _)
        with (serialize_gridworld_state gw None (Some values) (Some q_values)).
      apply Forall_flat_map.
      eapply Forall_impl; [|exact (state_infos_zero gw values q_values Hv Hq)].
      now intros info [H _].
    + unfold reported_values, state_infos. cbn [body].
      change (field "gridData" _)
        with (serialize_gridworld_state gw None (Some values) (Some q_values)).
      change (field "values" _) with (VDict (str_keys values)).
      apply Forall_app. split.
      * apply zero_valued_values. now apply str_keys_zero.
      * apply Forall_flat_map.
        eapply Forall_impl; [|exact (state_infos_zero gw values q_values Hv Hq)].
        now intros info [_ H].
    + intros grid_func' x y a [= <-] Hs Ha. fold gw in Hs, Ha.
      exists (state_info gw (Cell x y) x y (Some values) (Some q_values)).
      split.
      * unfold state_infos. cbn [body].
        change (field "gridData" _)
          with (serialize_gridworld_state gw None (Some values) (Some q_values)).
        now apply state_infos_complete.
      * apply state_info_reports; [exact Hq | exact Ha|].
        apply Hall; [exact Hs | discriminate | exact Ha].
  - eexists. split; [|split; [|split]].
    + apply try_except_ok, not_found_run.
    + constructor.
    + constructor.
    + intros grid_func x y a [=].
Qed.

(** ** A state with a single action *)

Lemma ql_getAction_single (agent : QLearningAgent) (s : State) (a : Action) (r : Rng) :
  actionFn agent s = [a] ->
  exists r', ql_getAction agent s r = Some (Ok (Some a), r').
Proof.
  intros H. unfold ql_getAction. rewrite H.
  cbv [bind flipCoin lift ret random_choice].
  destruct (random_random r) as [x r1].
  destruct (fltb x (epsilon agent)).
  - destruct (random_below (List.length [a]) r1) as [i r2].
    exists r2. now destruct i as [|[|i]].
  - exists r1. unfold ql_getPolicy. now rewrite H.
Qed.

End Properties.


(** * Further properties of api.py *)

Section FurtherProperties.
Context {FL : PyFloat} {RD : Random} {GM : GridworldModule} {PM : PacmanModule}.

(** ** The serialized grid *)

Ltac keys_ok :=
  rewrite string_keyed_dict; cbn [forallb entry_ok fst snd];
  repeat match goal with
         | |- andb _ _ = true => apply andb_true_intro; split
         end;
  try reflexivity.

Lemma range_In (z n : Z) : In z (range n) <-> 0 <= z < n.
Proof.
  unfold range. rewrite in_map_iff. split.
  - intros (k & <- & Hk). apply in_seq in Hk. lia.
  - intros Hz. exists (Z.to_nat z). split; [lia|]. apply in_seq. lia.
Qed.

Lemma serialize_walls (gw : Gridworld) (st : option State) (values q_values : option pydict) :
  items (field "walls" (serialize_gridworld_state gw st values q_values)) =
  flat_map
    (fun x => flat_map (fun y => if is_wall (at_ (grid gw) x y) then [wall_entry x y] else [])
                       (range (height (grid gw))))
    (range (width (grid gw))).
Proof. reflexivity. Qed.

(** X1: the ['walls'] list of the serialized grid holds exactly the cells of
    the grid, within its width and height, that are ['#']. *)
Theorem walls_are_the_wall_cells (gw : Gridworld) (st : option State)
  (values q_values : option pydict) (v : PyVal) :
  In v (items (field "walls" (serialize_gridworld_state gw st values q_values))) <->
  exists x y,
    v = wall_entry x y /\
    0 <= x < width (grid gw) /\ 0 <= y < height (grid gw) /\
    at_ (grid gw) x y = CChar "#".
Proof.
  assert (Hwall : forall c, is_wall c = true <-> c = CChar "#").
  { intros [r|c]; simpl; split; try discriminate.
    - intros H. apply String.eqb_eq in H. now subst.
    - intros [= ->]. reflexivity. }
  rewrite serialize_walls. rewrite in_flat_map. split.
  - intros (x & Hx & Hin). apply in_flat_map in Hin as (y & Hy & Hin).
    destruct (is_wall (at_ (grid gw) x y)) eqn:E; [|destruct Hin].
    destruct Hin as [<-|[]]. exists x, y.
    apply range_In in Hx, Hy. apply Hwall in E. now repeat split.
  - intros (x & y & -> & Hx & Hy & E). exists x. split; [now apply range_In|].
    apply in_flat_map. exists y. split; [now apply range_In|].
    apply Hwall in E. rewrite E. now left.
Qed.

Lemma state_info_coords (gw : Gridworld) (x y : Z) (values q_values : option pydict) :
  coords (state_info gw (Cell x y) x y values q_values) = (VInt x, VInt y).
Proof.
  unfold state_info, coords, field. cbv zeta.
  set (base := [(KStr "x"%string, VInt x); _; _; _; _]).
  set (info1 := match values with Some _ => _ | None => _ end).
  assert (Hx : dict_get info1 (KStr "x"%string) = Some (VInt x)).
  { subst info1. destruct values as [d|]; [|reflexivity].
    destruct (dict_get d _); [|reflexivity]. now rewrite dict_get_set_other. }
  assert (Hy : dict_get info1 (KStr "y"%string) = Some (VInt y)).
  { subst info1. destruct values as [d|]; [|reflexivity].
    destruct (dict_get d _); [|reflexivity]. now rewrite dict_get_set_other. }
  destruct q_values as [q|].
  - rewrite !dict_get_set_other by reflexivity. now rewrite Hx, Hy.
  - now rewrite Hx, Hy.
Qed.

Lemma states_fold (gw : Gridworld) (values q_values : option pydict) (l : list State) :
  forall acc,
    fold_left
      (fun acc s =>
         if state_eqb s terminalState then acc
         else match s with
              | Cell x y => acc ++ [state_info gw s x y values q_values]
              | TERMINAL_STATE => acc
              end)
      l acc
    = acc ++ map (info_of gw values q_values) (non_terminal l).
Proof.
  induction l as [|s l IH]; intros acc; cbn [fold_left non_terminal filter map].
  - now rewrite app_nil_r.
  - rewrite IH. destruct s as [x y|]; cbn [state_eqb terminalState negb map info_of].
    + now rewrite <- app_assoc.
    + reflexivity.
Qed.

Lemma serialize_states (gw : Gridworld) (st : option State) (values q_values : option pydict) :
  items (field "states" (serialize_gridworld_state gw st values q_values)) =
  map (info_of gw values q_values) (non_terminal (getStates gw)).
Proof. exact (states_fold gw values q_values (getStates gw) []). Qed.

(** X2: the ['states'] list of the serialized grid has one entry for each
    state that [getStates] enumerates, the terminal state left out, in the
    order of the enumeration; each entry carries the coordinates of its
    state. *)
Theorem one_entry_per_non_terminal_state (gw : Gridworld) (st : option State)
  (values q_values : option pydict) :
  map coords (items (field "states" (serialize_gridworld_state gw st values q_values)))
  = map coords_of (non_terminal (getStates gw)).
Proof.
  rewrite serialize_states, map_map. apply map_ext_in.
  intros s Hs. unfold non_terminal in Hs. apply filter_In in Hs as [_ Hs].
  destruct s as [x y|]; [|discriminate]. apply state_info_coords.
Qed.

Lemma qvalues_fold (q : pydict) (s : State) (a : Action) (l : list Action) :
  forall acc,
    dict_get
      (fold_left
         (fun qs action =>
            match dict_get q (KPair s action) with
            | Some v => dict_set qs (KStr action) v
            | None => qs
            end)
         l acc)
      (KStr a)
    = if existsb (String.eqb a) l
      then match dict_get q (KPair s a) with
           | Some v => Some v
           | None => dict_get acc (KStr a)
           end
      else dict_get acc (KStr a).
Proof.
  induction l as [|b l IH]; intros acc; cbn [fold_left existsb]; [reflexivity|].
  rewrite IH. destruct (String.eqb a b) eqn:E; cbn [orb].
  - apply String.eqb_eq in E. subst b.
    destruct (dict_get q (KPair s a)) as [v|]; [|now destruct (existsb (String.eqb a) l)].
    rewrite dict_get_set_same. now destruct (existsb (String.eqb a) l).
  - assert (Hsame : dict_get
                      match dict_get q (KPair s b) with
                      | Some v => dict_set acc (KStr b) v
                      | None => acc
                      end (KStr a) = dict_get acc (KStr a)).
    { destruct (dict_get q (KPair s b)); [|reflexivity].
      apply dict_get_set_other. cbn [key_eqb]. now rewrite String.eqb_sym. }
    now rewrite Hsame.
Qed.

(** What the entry of a state holds of the tables. *)
Lemma info_of_reports (gw : Gridworld) (values q_values : option pydict) (x y : Z) :
  let s := Cell x y in
  let info := info_of gw values q_values s in
  entry info "value" = lookup values (KState s) /\
  match q_values with
  | None => entry info "qValues" = None
  | Some q =>
      exists qs,
        entry info "qValues" = Some qs /\
        forall a,
          entry qs a = if existsb (String.eqb a) (getPossibleActions gw s)
                       then dict_get q (KPair s a)
                       else None
  end.
Proof.
  intros s info. subst info s. cbn [info_of]. unfold state_info. cbv zeta.
  set (base := [(KStr "x"%string, VInt x); _; _; _; _]).
  set (info1 := match values with Some _ => _ | None => _ end).
  assert (Hvalue : dict_get info1 (KStr "value"%string)
                   = lookup values (KState (Cell x y))).
  { subst info1. destruct values as [d|]; [|reflexivity]. cbn [lookup].
    destruct (dict_get d (KState (Cell x y))) as [v|]; [|reflexivity].
    apply dict_get_set_same. }
  assert (Hnoq : dict_get info1 (KStr "qValues"%string) = None).
  { subst info1. destruct values as [d|]; [|reflexivity].
    destruct (dict_get d _); [|reflexivity]. now rewrite dict_get_set_other. }
  destruct q_values as [q|]; cbn [entry].
  - split; [now rewrite dict_get_set_other|].
    eexists. split; [apply dict_get_set_same|].
    intros a. cbn [entry]. rewrite qvalues_fold. cbn [dict_get].
    destruct (existsb _ _); [|reflexivity]. now destruct (dict_get q _).
  - now split.
Qed.

(** X3: the entry of a state in the serialized grid reports the tables it
    was given and nothing else: it has a ['value'] exactly when the state is
    a key of [values], and then that value; it has ['qValues'] exactly when a
    Q-table was given, and these hold, for each legal action of the state
    that is paired with it in the Q-table, the table's value, and no other
    key. *)
Theorem state_entries_report_the_tables (gw : Gridworld) (st : option State)
  (values q_values : option pydict) :
  items (field "states" (serialize_gridworld_state gw st values q_values))
    = map (info_of gw values q_values) (non_terminal (getStates gw)) /\
  forall x y,
    let s := Cell x y in
    let info := info_of gw values q_values s in
    entry info "value" = lookup values (KState s) /\
    match q_values with
    | None => entry info "qValues" = None
    | Some q =>
        exists qs,
          entry info "qValues" = Some qs /\
          forall a,
            entry qs a = if existsb (String.eqb a) (getPossibleActions gw s)
                         then dict_get q (KPair s a)
                         else None
    end.
Proof.
  split; [apply serialize_states|]. intros x y. apply info_of_reports.
Qed.

(** ** Lookups in the collected tables *)

Lemma dict_set_keeps (d : pydict) (k j : PyKey) (v w : PyVal) :
  dict_get d j = Some w -> (k = j -> v = w) ->
  dict_get (dict_set d k v) j = Some w.
Proof.
  intros Hj Hsame. destruct (key_eqb k j) eqn:E.
  - apply key_eqb_eq in E. subst k. rewrite (Hsame eq_refl). apply dict_get_set_same.
  - now rewrite dict_get_set_other.
Qed.

Lemma dict_get_None (d : pydict) (k : PyKey) :
  ~ In k (map fst d) -> dict_get d k = None.
Proof.
  induction d as [|[j v] d IH]; cbn [dict_get map fst In]; [reflexivity|].
  intros Hnot. destruct (key_eqb j k) eqn:E.
  - apply key_eqb_eq in E. tauto.
  - apply IH. tauto.
Qed.

Lemma dict_set_keys (d : pydict) (k : PyKey) (v : PyVal) :
  map fst (dict_set d k v) = if dict_mem d k then map fst d else map fst d ++ [k].
Proof.
  unfold dict_mem. induction d as [|[j w] d IH]; cbn [dict_set dict_get map fst app];
    [reflexivity|].
  destruct (key_eqb j k) eqn:E; cbn [map fst]; [reflexivity|].
  rewrite IH. now destruct (dict_get d k).
Qed.

Lemma dict_mem_In (d : pydict) (k : PyKey) :
  dict_mem d k = false -> ~ In k (map fst d).
Proof.
  unfold dict_mem. induction d as [|[j w] d IH]; cbn [dict_get map fst In]; [tauto|].
  destruct (key_eqb j k) eqn:E; [discriminate|].
  intros Hd [->|Hin]; [now rewrite key_eqb_refl in E | now apply IH].
Qed.

Lemma state_keyed_set (d : pydict) (s : State) (v : PyVal) :
  state_keyed d -> state_keyed (dict_set d (KState s) v).
Proof.
  intros [Hkeys Hnodup]. split.
  - apply Forall_forall. intros kw Hin.
    destruct (dict_set_In _ _ _ _ Hin) as [->|Hin']; [now exists s|].
    exact (proj1 (Forall_forall _ _) Hkeys _ Hin').
  - rewrite dict_set_keys. destruct (dict_mem d (KState s)) eqn:E; [exact Hnodup|].
    apply NoDup_app; [exact Hnodup | repeat constructor; intros [] |].
    intros k Hk [<-|[]]. exact (dict_mem_In _ _ E Hk).
Qed.

(** Looking a state up by its string in the table with string keys gives
    what the table keyed by states holds for it. *)
Lemma str_keys_get (d : pydict) (s : State) :
  state_keyed d ->
  dict_get (str_keys d) (KStr (str s)) = dict_get d (KState s).
Proof.
  unfold str_keys.
  assert (H : forall acc,
             state_keyed d ->
             dict_get (fold_left (fun acc kv => dict_set acc (KStr (str_key (fst kv))) (snd kv))
                                 d acc) (KStr (str s))
             = match dict_get d (KState s) with
               | Some v => Some v
               | None => dict_get acc (KStr (str s))
               end).
  { induction d as [|[k v] d IH]; intros acc [Hkeys Hnodup]; [reflexivity|].
    cbn [fold_left fst snd]. inversion Hkeys as [|? ? [t Ht] Hkeys']. subst.
    cbn [fst] in Ht. subst k. cbn [map fst] in Hnodup. inversion Hnodup as [|? ? Hnot Hnodup'].
    subst. rewrite IH by now split. cbn [dict_get key_eqb str_key].
    destruct (state_eqb t s) eqn:E.
    - apply state_eqb_eq in E. subst t.
      rewrite (dict_get_None d (KState s) Hnot). apply dict_get_set_same.
    - rewrite dict_get_set_other; [reflexivity|].
      apply str_key_differs. intros ->. now rewrite state_eqb_refl in E. }
  intros Hd. rewrite H by exact Hd. now destruct (dict_get d (KState s)).
Qed.

Lemma existsb_In_str (a : string) (l : list string) :
  In a l -> existsb (String.eqb a) l = true.
Proof.
  intros H. apply existsb_exists. exists a. split; [exact H | apply String.eqb_refl].
Qed.

(** The entry of a state of the grid, as a handler's response has it. *)
Lemma grid_entry (gw : Gridworld) (values q_values : pydict) (x y : Z) :
  In (Cell x y) (getStates gw) ->
  let s := Cell x y in
  exists info,
    In info (items (field "states"
                      (serialize_gridworld_state gw None (Some values) (Some q_values)))) /\
    coords info = (VInt x, VInt y) /\
    entry info "value" = dict_get values (KState s) /\
    exists qs,
      entry info "qValues" = Some qs /\
      forall a, In a (getPossibleActions gw s) ->
                entry qs a = dict_get q_values (KPair s a).
Proof.
  intros Hs s. exists (info_of gw (Some values) (Some q_values) s).
  split; [|split].
  - rewrite serialize_states. apply in_map. apply filter_In. now split.
  - apply state_info_coords.
  - destruct (info_of_reports gw (Some values) (Some q_values) x y)
      as (Hvalue & qs & Hqs & Hall).
    split; [exact Hvalue|]. exists qs. split; [exact Hqs|].
    intros a Ha. rewrite Hall. now rewrite existsb_In_str.
Qed.

Lemma argmax_from_In (l : list (Action * F)) :
  forall best bq, In (argmax_from best bq l) (best :: map fst l).
Proof.
  induction l as [|[a q] l IH]; intros best bq; cbn [argmax_from map fst]; [now left|].
  destruct (fltb bq q).
  - right. apply IH.
  - destruct (IH best bq) as [H|H]; [now left | now right; right].
Qed.

Lemma argmax_In (l : list (Action * F)) (a : Action) :
  argmax l = Some a -> In a (map fst l).
Proof.
  destruct l as [|[b q] l]; [discriminate|]. cbn [argmax]. intros [= <-].
  apply argmax_from_In.
Qed.

Lemma vi_getAction_legal (agent : ValueIterationAgent) (s : State) (a : Action) :
  vi_getAction agent s = Some a -> In a (getPossibleActions (vi_mdp agent) s).
Proof.
  unfold vi_getAction. intros H. apply argmax_In in H.
  rewrite map_map in H. cbn [fst] in H. now rewrite map_id in H.
Qed.

Lemma vi_collect_values (gw : Gridworld) (agent : ValueIterationAgent) (s : State) :
  In s (getStates gw) -> s <> terminalState ->
  dict_get (fst (fst (vi_collect gw agent))) (KState s) = Some (VNum (vi_getValue agent s)).
Proof.
  intros Hs Hterm. unfold vi_collect.
  apply (fold_left_reach
           (fun t : Tables =>
              dict_get (fst (fst t)) (KState s) = Some (VNum (vi_getValue agent s))))
    with (x := s); [| |exact Hs].
  - intros [[values policy] q_values].
    destruct (state_eqb s terminalState) eqn:E; [now apply state_eqb_eq in E|].
    cbn [negb fst]. apply dict_get_set_same.
  - intros [[values policy] q_values] t Hv. cbn [fst] in *.
    destruct (negb (state_eqb t terminalState)); [|exact Hv]. cbn [fst].
    apply dict_set_keeps; [exact Hv|]. now intros [= ->].
Qed.

Lemma vi_collect_qvalues (gw : Gridworld) (agent : ValueIterationAgent) (s : State)
  (a : Action) :
  In s (getStates gw) -> s <> terminalState -> In a (getPossibleActions gw s) ->
  dict_get (snd (vi_collect gw agent)) (KPair s a) = Some (VNum (vi_getQValue agent s a)).
Proof.
  intros Hs Hterm Ha. unfold vi_collect.
  apply (fold_left_reach
           (fun t : Tables =>
              dict_get (snd t) (KPair s a) = Some (VNum (vi_getQValue agent s a))))
    with (x := s); [| |exact Hs].
  - intros [[values policy] q_values].
    destruct (state_eqb s terminalState) eqn:E; [now apply state_eqb_eq in E|].
    cbn [negb snd].
    apply (fold_left_reach
             (fun q => dict_get q (KPair s a) = Some (VNum (vi_getQValue agent s a))))
      with (x := a); [| |exact Ha].
    + intros q. apply dict_get_set_same.
    + intros q b Hq. apply dict_set_keeps; [exact Hq|]. now intros [= ->].
  - intros [[values policy] q_values] t Hq. cbn [snd] in *.
    destruct (negb (state_eqb t terminalState)); [|exact Hq]. cbn [snd].
    apply fold_left_inv; [exact Hq|].
    intros q b _ Hqb. apply dict_set_keeps; [exact Hqb|]. now intros [= -> ->].
Qed.

Lemma vi_collect_state_keyed (gw : Gridworld) (agent : ValueIterationAgent) :
  state_keyed (fst (fst (vi_collect gw agent))).
Proof.
  unfold vi_collect.
  apply (fold_left_inv (fun t : Tables => state_keyed (fst (fst t))));
    [split; constructor|].
  intros [[values policy] q_values] t _ Hv. cbn [fst] in *.
  destruct (negb (state_eqb t terminalState)); [|exact Hv]. cbn [fst].
  now apply state_keyed_set.
Qed.

Lemma vi_policy_sound (gw : Gridworld) (agent : ValueIterationAgent) :
  Forall (fun kv => exists s a,
              In s (getStates gw) /\ s <> terminalState /\
              kv = (KStr (str s), VStr a) /\
              vi_getAction agent s = Some a /\ a <> ""%string)
         (snd (fst (vi_collect gw agent))).
Proof.
  unfold vi_collect.
  apply (fold_left_inv
           (fun t : Tables =>
              Forall (fun kv => exists s a,
                          In s (getStates gw) /\ s <> terminalState /\
                          kv = (KStr (str s), VStr a) /\
                          vi_getAction agent s = Some a /\ a <> ""%string)
                     (snd (fst t)))); [constructor|].
  intros [[values policy] q_values] t Ht Hp. cbn [fst snd] in *.
  destruct (negb (state_eqb t terminalState)) eqn:E; [|exact Hp]. cbn [fst snd].
  destruct (vi_getAction agent t) as [a|] eqn:Hact; cbn [truthy]; [|exact Hp].
  destruct (String.eqb a "") eqn:Ea; cbn [negb]; [exact Hp|].
  apply Forall_forall. intros kw Hin.
  destruct (dict_set_In _ _ _ _ Hin) as [->|Hin'].
  - exists t, a. repeat split; try assumption.
    + intros ->. cbn in E. discriminate.
    + intros ->. discriminate.
  - exact (proj1 (Forall_forall _ _) Hp _ Hin').
Qed.

Lemma vi_policy_complete (gw : Gridworld) (agent : ValueIterationAgent) (s : State)
  (a : Action) :
  In s (getStates gw) -> s <> terminalState ->
  vi_getAction agent s = Some a -> a <> ""%string ->
  dict_get (snd (fst (vi_collect gw agent))) (KStr (str s)) = Some (VStr a).
Proof.
  intros Hs Hterm Hact Ha. unfold vi_collect.
  assert (Htruthy : truthy (vi_getAction agent s) = true).
  { rewrite Hact. cbn [truthy]. destruct (String.eqb a "") eqn:E; [|reflexivity].
    apply String.eqb_eq in E. contradiction. }
  apply (fold_left_reach
           (fun t : Tables => dict_get (snd (fst t)) (KStr (str s)) = Some (VStr a)))
    with (x := s); [| |exact Hs].
  - intros [[values policy] q_values].
    destruct (state_eqb s terminalState) eqn:E; [now apply state_eqb_eq in E|].
    cbn [negb fst snd]. rewrite Htruthy, Hact. apply dict_get_set_same.
  - intros [[values policy] q_values] t Hp. cbn [fst snd] in *.
    destruct (negb (state_eqb t terminalState)); [|exact Hp]. cbn [fst snd].
    destruct (truthy (vi_getAction agent t)); [|exact Hp].
    apply dict_set_keeps; [exact Hp|].
    intros [= E]. apply str_inj in E. subst t. now rewrite Hact.
Qed.

(** ** What the solve operation reports *)

(** X4: for every state (x, y) of the grid, the solve response reports the
    solver's numbers: the ['values'] table holds [getValue(s)] under the key
    [str(s)], and the state's entry of the grid data holds the same value
    and, for each legal action, [getQValue(s, a)]. *)
Theorem solve_reports_the_solver (data : RequestData) (grid_func : unit -> Gridworld) :
  gridworld_getattr ("get" ++ get (d_grid data) "BookGrid")%string = Some grid_func ->
  let gw := configured data grid_func in
  let agent := new_ValueIterationAgent gw (get (d_discount data) (lit 9 1))
                 (get (d_iterations data) 100) in
  exists resp,
    (forall r, run_value_iteration data r = Some (Ok resp, r)) /\
    forall x y,
      In (Cell x y) (getStates gw) ->
      entry (field "values" (body resp)) (str (Cell x y))
        = Some (VNum (vi_getValue agent (Cell x y))) /\
      exists info,
        In info (state_infos resp) /\
        coords info = (VInt x, VInt y) /\
        entry info "value" = Some (VNum (vi_getValue agent (Cell x y))) /\
        exists qs,
          entry info "qValues" = Some qs /\
          forall a,
            In a (getPossibleActions gw (Cell x y)) ->
            entry qs a = Some (VNum (vi_getQValue agent (Cell x y) a)).
Proof.
  intros Hgrid gw agent. unfold run_value_iteration. rewrite Hgrid.
  change (setLivingReward _ _) with gw.
  change (new_ValueIterationAgent gw _ _) with agent.
  pose proof (vi_collect_ok gw agent) as Hok.
  pose proof (vi_collect_values gw agent) as Hvalues.
  pose proof (vi_collect_qvalues gw agent) as Hqvalues.
  pose proof (vi_collect_state_keyed gw agent) as Hkeyed.
  destruct (vi_collect gw agent) as [[values policy] q_values].
  cbn [fst snd] in Hvalues, Hqvalues, Hkeyed.
  eexists. split.
  - intros r. apply try_except_ok, jsonify_ok. now apply vi_result_ok.
  - intros x y Hs.
    assert (Hterm : Cell x y <> terminalState) by discriminate.
    split.
    + cbn [body]. change (field "values" _) with (VDict (str_keys values)).
      cbn [entry]. rewrite str_keys_get by exact Hkeyed. now apply Hvalues.
    + destruct (grid_entry gw values q_values x y Hs)
        as (info & Hin & Hxy & Hvalue & qs & Hqs & Hall).
      exists info. split; [exact Hin|]. split; [exact Hxy|].
      split; [rewrite Hvalue; now apply Hvalues|].
      exists qs. split; [exact Hqs|].
      intros a Ha. rewrite Hall by exact Ha. now apply Hqvalues.
Qed.

(** X5: the policy map of the solve response holds exactly the greedy
    actions: each of its entries is [str(s)] for a state [s] of the grid
    other than the terminal one, with the solver's action for [s], which is
    a legal action of [s]; and every such state whose greedy action is a
    non-empty string has its entry. *)
Theorem solve_policy_is_greedy_and_legal (data : RequestData)
  (grid_func : unit -> Gridworld) :
  gridworld_getattr ("get" ++ get (d_grid data) "BookGrid")%string = Some grid_func ->
  let gw := configured data grid_func in
  let agent := new_ValueIterationAgent gw (get (d_discount data) (lit 9 1))
                 (get (d_iterations data) 100) in
  exists resp,
    (forall r, run_value_iteration data r = Some (Ok resp, r)) /\
    (forall k v,
        entry (field "policy" (body resp)) k = Some v ->
        exists s a,
          In s (getStates gw) /\ s <> terminalState /\
          k = str s /\ v = VStr a /\
          vi_getAction agent s = Some a /\ In a (getPossibleActions gw s)) /\
    (forall s a,
        In s (getStates gw) -> s <> terminalState ->
        vi_getAction agent s = Some a -> a <> ""%string ->
        entry (field "policy" (body resp)) (str s) = Some (VStr a)).
Proof.
  intros Hgrid gw agent. unfold run_value_iteration. rewrite Hgrid.
  change (setLivingReward _ _) with gw.
  change (new_ValueIterationAgent gw _ _) with agent.
  pose proof (vi_collect_ok gw agent) as Hok.
  pose proof (vi_policy_sound gw agent) as Hsound.
  pose proof (vi_policy_complete gw agent) as Hcomplete.
  destruct (vi_collect gw agent) as [[values policy] q_values].
  cbn [fst snd] in Hsound, Hcomplete.
  eexists. split; [|split].
  - intros r. apply try_except_ok, jsonify_ok. now apply vi_result_ok.
  - intros k v. cbn [body]. change (field "policy" _) with (VDict policy).
    cbn [entry]. intros Hget. apply dict_get_In in Hget.
    destruct (proj1 (Forall_forall _ _) Hsound _ Hget)
      as (s & a & Hs & Hterm & [= -> ->] & Hact & _).
    exists s, a. repeat split; try assumption.
    exact (vi_getAction_legal agent s a Hact).
  - intros s a Hs Hterm Hact Ha. cbn [body].
    change (field "policy" _) with (VDict policy). cbn [entry].
    now apply Hcomplete.
Qed.

(** ** What the train operation reports *)

(** The training loop from any state of the run: what it appends to the
    history, and that the agent keeps its action function. *)
Lemma training_run (fuel : nat) (gw : Gridworld) (N : Z) (l : list Z) :
  (101 <= fuel)%nat ->
  forall (agent : QLearningAgent) (env : GridworldEnvironment) (results : list PyVal)
         (r : Rng),
  exists agent' env' recs r',
    for_each l (agent, env, results) (train_episode fuel gw N) r
      = Some (Ok (agent', env', results ++ map history_of recs), r') /\
    actionFn agent' = actionFn agent /\
    map (fun rec : EpisodeRecord => fst (fst rec)) recs = filter (sampled N) l /\
    Forall (fun rec : EpisodeRecord => 0 <= snd rec <= 101) recs.
Proof.
  intros Hfuel. induction l as [|episode l IH]; intros agent env results r.
  - exists agent, env, [], r. cbn [for_each map filter]. rewrite app_nil_r.
    repeat split. constructor.
  - cbn [for_each]. unfold bind.
    destruct (train_episode_spec fuel gw N episode agent env results r Hfuel)
      as (e & r1 & He & Hsteps & ->).
    destruct (episode_loop_ends gw fuel (startEpisode agent) env (getCurrentState env)
                f0 0 r) as (e' & r1' & He' & _ & Hfn & _); [lia | lia |].
    rewrite He in He'. injection He' as <- <-.
    cbn [filter]. change (episode mod Z.max 1 (N / 20) =? 0) with (sampled N episode).
    destruct (sampled N episode).
    + destruct (IH (stopEpisode (ep_agent e)) (env_reset (ep_env e))
                  (results ++ [history_entry episode (ep_total_reward e) (ep_steps e)]) r1)
        as (agent' & env' & recs & r' & Hrun & Hfn' & Hmap & Hall).
      exists agent', env', ((episode, ep_total_reward e, ep_steps e) :: recs), r'.
      split; [|split; [|split]].
      * rewrite Hrun. cbn [map]. now rewrite <- app_assoc.
      * rewrite Hfn'. exact Hfn.
      * cbn [map fst]. now rewrite Hmap.
      * constructor; [exact Hsteps | exact Hall].
    + destruct (IH (stopEpisode (ep_agent e)) (env_reset (ep_env e)) results r1)
        as (agent' & env' & recs & r' & Hrun & Hfn' & Hmap & Hall).
      exists agent', env', recs, r'.
      split; [exact Hrun|]. split; [|split; assumption].
      rewrite Hfn'. exact Hfn.
Qed.

Lemma history_of_ok (recs : list EpisodeRecord) :
  forallb string_keyed (map history_of recs) = true.
Proof. induction recs; [reflexivity|]. cbn [map forallb]. now rewrite IHrecs. Qed.

Lemma NoDup_map_on {A B : Type} (f : A -> B) (l : list A) :
  (forall a b, In a l -> In b l -> f a = f b -> a = b) ->
  NoDup l -> NoDup (map f l).
Proof.
  intros Hinj Hl. induction Hl as [|a l Hnot Hl IH]; cbn [map]; constructor.
  - intros Hin. apply in_map_iff in Hin as (b & Hfb & Hb).
    apply Hnot. rewrite (Hinj a b); [exact Hb | now left | now right | now symmetry].
  - apply IH. intros x y Hx Hy. apply Hinj; now right.
Qed.

Lemma range_NoDup (n : Z) : NoDup (range n).
Proof.
  unfold range. apply NoDup_map_on; [|apply seq_NoDup].
  intros a b _ _. apply Nat2Z.inj.
Qed.

Lemma range_length (n : Z) : List.length (range n) = Z.to_nat n.
Proof. unfold range. now rewrite length_map, length_seq. Qed.

(** However many episodes are asked for, fewer than 40 are sampled. *)
Lemma sampled_count (N : Z) : (List.length (filter (sampled N) (range N)) <= 39)%nat.
Proof.
  set (m := Z.max 1 (N / 20)).
  assert (Hm : 1 <= m) by (subst m; lia).
  destruct (Z.le_gt_cases N 0) as [HN|HN].
  { unfold range. replace (Z.to_nat N) with 0%nat by lia. cbn. lia. }
  set (K := (N - 1) / m + 1).
  assert (HK : K <= 39).
  { subst K. enough ((N - 1) / m < 39) by lia.
    apply Z.div_lt_upper_bound; [lia|].
    pose proof (Z.div_mod N 20 ltac:(lia)) as Hdiv.
    pose proof (Z.mod_pos_bound N 20 ltac:(lia)) as Hmod.
    subst m. lia. }
  rewrite <- (length_map (fun e => e / m)).
  transitivity (List.length (range K)); [|rewrite range_length; lia].
  apply NoDup_incl_length.
  - apply NoDup_map_on; [|apply NoDup_filter, range_NoDup].
    intros a b Ha Hb Hab.
    apply filter_In in Ha as [_ Ha]. apply filter_In in Hb as [_ Hb].
    unfold sampled in Ha, Hb. fold m in Ha, Hb.
    apply Z.eqb_eq in Ha, Hb.
    rewrite (Z.div_mod a m), (Z.div_mod b m) by lia. now rewrite Ha, Hb, Hab.
  - intros q Hq. apply in_map_iff in Hq as (e & <- & He).
    apply filter_In in He as [He _]. apply range_In in He. apply range_In.
    subst K. split; [apply Z.div_pos; lia|].
    enough (e / m <= (N - 1) / m) by lia.
    apply Z.div_le_mono; lia.
Qed.

(** The response of a training request on a known grid, with the agent the
    training ends with and the episodes it recorded. *)
Lemma start_qlearning_run (fuel : nat) (data : RequestData)
  (grid_func : unit -> Gridworld) (r : Rng) :
  (101 <= fuel)%nat ->
  gridworld_getattr ("get" ++ get (d_grid data) "BookGrid")%string = Some grid_func ->
  let gw := configured data grid_func in
  let N := get (d_episodes data) 100 in
  exists agent recs values policy q_values r',
    ql_collect gw agent = (values, policy, q_values) /\
    (forall s, actionFn agent s = getPossibleActions gw s) /\
    map (fun rec : EpisodeRecord => fst (fst rec)) recs = filter (sampled N) (range N) /\
    Forall (fun rec : EpisodeRecord => 0 <= snd rec <= 101) recs /\
    start_qlearning fuel data r =
      Some (Ok {| body :=
                    VDict
                      [(KStr "grid"%string, VStr (get (d_grid data) "BookGrid"%string));
                       (KStr "episodes"%string, VInt N);
                       (KStr "epsilon"%string, VNum (get (d_epsilon data) (lit 3 1)));
                       (KStr "alpha"%string, VNum (get (d_alpha data) (lit 5 1)));
                       (KStr "discount"%string, VNum (get (d_discount data) (lit 9 1)));
                       (KStr "trainingHistory"%string, VList (map history_of recs));
                       (KStr "gridData"%string,
                          serialize_gridworld_state gw None (Some values) (Some q_values));
                       (KStr "values"%string, VDict (str_keys values));
                       (KStr "policy"%string, VDict policy)];
                  status := 200 |}, r').
Proof.
  intros Hfuel Hgrid gw N. unfold start_qlearning. rewrite Hgrid.
  change (setLivingReward _ _) with gw. fold N.
  set (agent0 := new_QLearningAgent _ _ _ _).
  destruct (training_run fuel gw N (range N) Hfuel agent0 (new_GridworldEnvironment gw) [] r)
    as (agent & env & recs & r' & Hrun & Hfn & Hmap & Hall).
  cbn [app] in Hrun.
  pose proof (ql_collect_ok gw agent) as Hok.
  destruct (ql_collect gw agent) as [[values policy] q_values] eqn:Hcol.
  exists agent, recs, values, policy, q_values, r'.
  split; [exact Hcol|]. split; [|split; [exact Hmap|split; [exact Hall|]]].
  - intros s. now rewrite Hfn.
  - apply try_except_ok. unfold bind. unfold Training in Hrun. rewrite Hrun, Hcol.
    apply jsonify_ok. apply ql_result_ok; [apply history_of_ok | exact Hok].
Qed.

(** X6: the training history of a response records exactly the episodes
    whose index is a multiple of [max(1, N // 20)], in order, N being the
    number of episodes asked for; whatever N, it has at most 39 entries; and
    each entry reports between 0 and 101 steps. *)
Theorem training_history_is_sampled (fuel : nat) (data : RequestData)
  (grid_func : unit -> Gridworld) (r : Rng) :
  (101 <= fuel)%nat ->
  gridworld_getattr ("get" ++ get (d_grid data) "BookGrid")%string = Some grid_func ->
  let N := get (d_episodes data) 100 in
  exists resp r' recs,
    start_qlearning fuel data r = Some (Ok resp, r') /\
    items (field "trainingHistory" (body resp)) = map history_of recs /\
    map (fun rec : EpisodeRecord => fst (fst rec)) recs = filter (sampled N) (range N) /\
    Forall (fun rec : EpisodeRecord => 0 <= snd rec <= 101) recs /\
    (List.length recs <= 39)%nat.
Proof.
  intros Hfuel Hgrid N.
  destruct (start_qlearning_run fuel data grid_func r Hfuel Hgrid)
    as (agent & recs & values & policy & q_values & r' & _ & _ & Hmap & Hall & Hrun).
  eexists _, r', recs. split; [exact Hrun|]. split; [reflexivity|].
  split; [exact Hmap|]. split; [exact Hall|].
  rewrite <- (length_map (fun rec : EpisodeRecord => fst (fst rec))).
  fold N in Hmap. rewrite Hmap. apply sampled_count.
Qed.

Lemma ql_collect_values (gw : Gridworld) (agent : QLearningAgent) (s : State) :
  In s (getStates gw) -> s <> terminalState -> getPossibleActions gw s <> [] ->
  dict_get (fst (fst (ql_collect gw agent))) (KState s)
  = Some (VNum (best_value (map (ql_getQValue agent s) (getPossibleActions gw s)))).
Proof.
  intros Hs Hterm Hacts. unfold ql_collect.
  apply (fold_left_reach
           (fun t : Tables =>
              dict_get (fst (fst t)) (KState s)
              = Some (VNum (best_value
                              (map (ql_getQValue agent s) (getPossibleActions gw s))))))
    with (x := s); [| |exact Hs].
  - intros [[values policy] q_values].
    destruct (state_eqb s terminalState) eqn:E; [now apply state_eqb_eq in E|].
    cbn [negb]. destruct (getPossibleActions gw s) as [|a l]; [contradiction|].
    cbn [fst]. apply dict_get_set_same.
  - intros [[values policy] q_values] t Hv. cbn [fst] in *.
    destruct (negb (state_eqb t terminalState)); [|exact Hv].
    destruct (getPossibleActions gw t) as [|a l] eqn:Ht; [exact Hv|]. cbn [fst].
    apply dict_set_keeps; [exact Hv|]. intros [= ->]. now rewrite Ht.
Qed.

Lemma ql_collect_policy (gw : Gridworld) (agent : QLearningAgent) (s : State) :
  In s (getStates gw) -> s <> terminalState -> getPossibleActions gw s <> [] ->
  dict_get (snd (fst (ql_collect gw agent))) (KStr (str s))
  = Some (VAction (ql_getPolicy agent s)).
Proof.
  intros Hs Hterm Hacts. unfold ql_collect.
  apply (fold_left_reach
           (fun t : Tables =>
              dict_get (snd (fst t)) (KStr (str s)) = Some (VAction (ql_getPolicy agent s))))
    with (x := s); [| |exact Hs].
  - intros [[values policy] q_values].
    destruct (state_eqb s terminalState) eqn:E; [now apply state_eqb_eq in E|].
    cbn [negb]. destruct (getPossibleActions gw s) as [|a l]; [contradiction|].
    cbn [fst snd]. apply dict_get_set_same.
  - intros [[values policy] q_values] t Hp. cbn [fst snd] in *.
    destruct (negb (state_eqb t terminalState)); [|exact Hp].
    destruct (getPossibleActions gw t) as [|a l]; [exact Hp|]. cbn [fst snd].
    apply dict_set_keeps; [exact Hp|]. intros [= E]. apply str_inj in E. now subst t.
Qed.

Lemma ql_collect_qvalues (gw : Gridworld) (agent : QLearningAgent) (s : State)
  (a : Action) :
  In s (getStates gw) -> s <> terminalState -> In a (getPossibleActions gw s) ->
  dict_get (snd (ql_collect gw agent)) (KPair s a) = Some (VNum (ql_getQValue agent s a)).
Proof.
  intros Hs Hterm Ha. unfold ql_collect.
  apply (fold_left_reach
           (fun t : Tables =>
              dict_get (snd t) (KPair s a) = Some (VNum (ql_getQValue agent s a))))
    with (x := s); [| |exact Hs].
  - intros [[values policy] q_values].
    destruct (state_eqb s terminalState) eqn:E; [now apply state_eqb_eq in E|].
    cbn [negb]. destruct (getPossibleActions gw s) as [|a0 l] eqn:Hacts; [destruct Ha|].
    cbn [snd].
    apply (fold_left_reach
             (fun q => dict_get q (KPair s a) = Some (VNum (ql_getQValue agent s a))))
      with (x := a); [| |exact Ha].
    + intros q. apply dict_get_set_same.
    + intros q b Hq. apply dict_set_keeps; [exact Hq|]. now intros [= ->].
  - intros [[values policy] q_values] t Hq. cbn [snd] in *.
    destruct (negb (state_eqb t terminalState)); [|exact Hq].
    destruct (getPossibleActions gw t) as [|a0 l]; [exact Hq|]. cbn [snd].
    apply fold_left_inv; [exact Hq|].
    intros q b _ Hqb. apply dict_set_keeps; [exact Hqb|]. now intros [= -> ->].
Qed.

Lemma ql_collect_state_keyed (gw : Gridworld) (agent : QLearningAgent) :
  state_keyed (fst (fst (ql_collect gw agent))).
Proof.
  unfold ql_collect.
  apply (fold_left_inv (fun t : Tables => state_keyed (fst (fst t))));
    [split; constructor|].
  intros [[values policy] q_values] t _ Hv. cbn [fst] in *.
  destruct (negb (state_eqb t terminalState)); [|exact Hv].
  destruct (getPossibleActions gw t) as [|a l]; [exact Hv|]. cbn [fst].
  now apply state_keyed_set.
Qed.

Lemma ql_policy_sound (gw : Gridworld) (agent : QLearningAgent) :
  Forall (fun kv => exists s,
              In s (getStates gw) /\ s <> terminalState /\
              getPossibleActions gw s <> [] /\ fst kv = KStr (str s))
         (snd (fst (ql_collect gw agent))).
Proof.
  unfold ql_collect.
  apply (fold_left_inv
           (fun t : Tables =>
              Forall (fun kv => exists s,
                          In s (getStates gw) /\ s <> terminalState /\
                          getPossibleActions gw s <> [] /\ fst kv = KStr (str s))
                     (snd (fst t)))); [constructor|].
  intros [[values policy] q_values] t Ht Hp. cbn [fst snd] in *.
  destruct (negb (state_eqb t terminalState)) eqn:E; [|exact Hp].
  destruct (getPossibleActions gw t) as [|a l] eqn:Hacts; [exact Hp|]. cbn [fst snd].
  apply Forall_forall. intros kw Hin.
  destruct (dict_set_In _ _ _ _ Hin) as [->|Hin'].
  - exists t. repeat split; try assumption.
    + intros ->. cbn in E. discriminate.
    + rewrite Hacts. discriminate.
  - exact (proj1 (Forall_forall _ _) Hp _ Hin').
Qed.

(** The greatest Q-value of a row is the Q-value of the greedy action. *)
Lemma best_is_argmax (Qf : Action -> F) (l : list Action) :
  forall best,
    py_max (Qf best) (map Qf l)
    = Qf (argmax_from best (Qf best) (map (fun a => (a, Qf a)) l)).
Proof.
  unfold py_max. induction l as [|b l IH]; intros best; cbn [map fold_left argmax_from];
    [reflexivity|].
  destruct (fltb (Qf best) (Qf b)); apply IH.
Qed.

Lemma greedy_action (Qf : Action -> F) (l : list Action) :
  l <> [] ->
  exists a,
    argmax (map (fun a => (a, Qf a)) l) = Some a /\ In a l /\
    best_value (map Qf l) = Qf a.
Proof.
  destruct l as [|b l]; [contradiction|]. intros _.
  cbn [map argmax best_value]. eexists. split; [reflexivity|]. split.
  - pose proof (argmax_from_In (map (fun a => (a, Qf a)) l) b (Qf b)) as H.
    rewrite map_map in H. cbn [fst] in H. now rewrite map_id in H.
  - apply best_is_argmax.
Qed.

(** X7: in the response of a training request the policy map has an entry
    exactly for the states of the grid, other than the terminal one, that
    have a legal action; the entry of such a state names one of its legal
    actions, and the value reported for the state, in the ['values'] table
    and in the grid data, is the Q-value reported for that action. *)
Theorem train_reports_a_consistent_policy (fuel : nat) (data : RequestData)
  (grid_func : unit -> Gridworld) (r : Rng) :
  (101 <= fuel)%nat ->
  gridworld_getattr ("get" ++ get (d_grid data) "BookGrid")%string = Some grid_func ->
  let gw := configured data grid_func in
  exists resp r',
    start_qlearning fuel data r = Some (Ok resp, r') /\
    (forall k v,
        entry (field "policy" (body resp)) k = Some v ->
        exists s,
          In s (getStates gw) /\ s <> terminalState /\
          getPossibleActions gw s <> [] /\ k = str s) /\
    (forall x y,
        In (Cell x y) (getStates gw) ->
        getPossibleActions gw (Cell x y) <> [] ->
        exists a q info qs,
          In a (getPossibleActions gw (Cell x y)) /\
          entry (field "policy" (body resp)) (str (Cell x y)) = Some (VStr a) /\
          entry (field "values" (body resp)) (str (Cell x y)) = Some (VNum q) /\
          In info (state_infos resp) /\
          coords info = (VInt x, VInt y) /\
          entry info "value" = Some (VNum q) /\
          entry info "qValues" = Some qs /\
          entry qs a = Some (VNum q)).
Proof.
  intros Hfuel Hgrid gw.
  destruct (start_qlearning_run fuel data grid_func r Hfuel Hgrid)
    as (agent & recs & values & policy & q_values & r' & Hcol & Hfn & _ & _ & Hrun).
  fold gw in Hcol, Hfn.
  pose proof (ql_policy_sound gw agent) as Hsound.
  pose proof (ql_collect_values gw agent) as Hvalues.
  pose proof (ql_collect_policy gw agent) as Hpolicy.
  pose proof (ql_collect_qvalues gw agent) as Hqvalues.
  pose proof (ql_collect_state_keyed gw agent) as Hkeyed.
  rewrite Hcol in Hsound, Hvalues, Hpolicy, Hqvalues, Hkeyed.
  cbn [fst snd] in Hsound, Hvalues, Hpolicy, Hqvalues, Hkeyed.
  eexists _, r'. split; [exact Hrun|]. cbn [body]. split.
  - intros k v. change (field "policy" _) with (VDict policy). cbn [entry].
    intros Hget. apply dict_get_In in Hget.
    destruct (proj1 (Forall_forall _ _) Hsound _ Hget) as (s & Hs & Hterm & Hacts & Hk).
    cbn [fst] in Hk. injection Hk as ->. now exists s.
  - intros x y Hs Hacts.
    assert (Hterm : Cell x y <> terminalState) by discriminate.
    destruct (greedy_action (ql_getQValue agent (Cell x y))
                (getPossibleActions gw (Cell x y)) Hacts) as (a & Hargmax & Ha & Hbest).
    destruct (grid_entry gw values q_values x y Hs)
      as (info & Hin & Hxy & Hvalue & qs & Hqs & Hall).
    exists a, (ql_getQValue agent (Cell x y) a), info, qs.
    split; [exact Ha|]. split; [|split; [|split; [|split; [|split; [|split]]]]].
    + change (field "policy" _) with (VDict policy). cbn [entry].
      rewrite Hpolicy by assumption. unfold ql_getPolicy. rewrite Hfn, Hargmax. reflexivity.
    + change (field "values" _) with (VDict (str_keys values)). cbn [entry].
      rewrite str_keys_get by exact Hkeyed. rewrite Hvalues by assumption.
      now rewrite Hbest.
    + exact Hin.
    + exact Hxy.
    + rewrite Hvalue, Hvalues by assumption. now rewrite Hbest.
    + exact Hqs.
    + rewrite Hall by exact Ha. now apply Hqvalues.
Qed.

(** ** What the Pacman run reports *)

Lemma game_entries_index (l : list Game) (idx : list Z) :
  List.length idx = List.length l ->
  map (field "gameIndex") (map game_entry (combine idx l)) = map VInt idx.
Proof.
  revert idx. induction l as [|g l IH]; intros [|i idx] Hlen; try discriminate;
    [reflexivity|].
  cbn [combine map]. rewrite IH by (cbn in Hlen; lia). reflexivity.
Qed.

Lemma game_entries_count (p : Game -> bool) (key : string) (l : list Game) :
  (forall i g, is_true (field key (game_entry (i, g))) = p g) ->
  forall idx,
    List.length idx = List.length l ->
    count (fun e => is_true (field key e)) (map game_entry (combine idx l)) = count p l.
Proof.
  intros Hkey. unfold count, len.
  induction l as [|g l IH]; intros [|i idx] Hlen; try discriminate; [reflexivity|].
  cbn [combine map filter]. rewrite Hkey.
  assert (Hl : List.length idx = List.length l) by (cbn in Hlen; lia).
  specialize (IH idx Hl).
  destruct (p g); cbn [List.length]; lia.
Qed.

Lemma test_games_length (games : list Game) (num_training : Z) :
  (List.length (test_games_of games num_training) <= List.length games)%nat.
Proof.
  unfold test_games_of, slice_from.
  destruct (len games >? num_training); [|lia].
  rewrite length_skipn. lia.
Qed.

(** X8: the response of a Pacman run is consistent: its games are numbered
    0, 1, 2, ... in order, there are no more of them than the engine
    returned, and the summary counts as wins (as losses) exactly the games
    listed with [isWin] ([isLose]) true. *)
Theorem summary_agrees_with_the_games (data : RequestData) (lay : Layout)
  (games : list Game) (r r' : Rng) :
  getLayout (get (d_layout data) "smallGrid"%string) = Some lay ->
  runGames (pacman_call data lay) r = Some (Ok games, r') ->
  exists resp,
    run_pacman_game data r = Some (Ok resp, r') /\
    let listed := items (field "games" (body resp)) in
    let summ := field "summary" (body resp) in
    map (field "gameIndex") listed = map VInt (range (len listed)) /\
    (List.length listed <= List.length games)%nat /\
    field "wins" summ = VInt (count (fun e => is_true (field "isWin" e)) listed) /\
    field "losses" summ = VInt (count (fun e => is_true (field "isLose" e)) listed).
Proof.
  intros Hlay Hrun.
  destruct (run_pacman_game_returns data lay games r r' Hlay Hrun)
    as (resp & Hresp & _ & Hsum & Hgames).
  exists resp. split; [exact Hresp|]. cbv zeta. rewrite Hsum, Hgames. cbn [items].
  set (tg := test_games_of games (get (d_numTraining data) 10)).
  assert (Hlen : List.length (range (len tg)) = List.length tg).
  { rewrite range_length. unfold len. lia. }
  assert (Hlisted : len (map game_entry (enumerate tg)) = len tg).
  { unfold len, enumerate. rewrite length_map, length_combine, Hlen. lia. }
  split; [|split; [|split]].
  - rewrite Hlisted. unfold enumerate. now apply game_entries_index.
  - unfold len in Hlisted. apply Nat2Z.inj in Hlisted. rewrite Hlisted.
    apply test_games_length.
  - unfold enumerate.
    rewrite (game_entries_count (fun g => isWin (state g)) "isWin"); [reflexivity | | exact Hlen].
    intros i g. cbn. now destruct (isWin (state g)).
  - unfold enumerate.
    rewrite (game_entries_count (fun g => isLose (state g)) "isLose");
      [reflexivity | | exact Hlen].
    intros i g. cbn. now destruct (isLose (state g)).
Qed.

Lemma nth_range {A : Type} (f : Z -> A) (n z : Z) (d : A) :
  0 <= z < n -> nth (Z.to_nat z) (map f (range n)) d = f z.
Proof.
  intros Hz. unfold range. rewrite map_map.
  rewrite nth_indep with (d' := f (Z.of_nat 0)) by (rewrite length_map, length_seq; lia).
  rewrite (map_nth (fun k => f (Z.of_nat k))). rewrite seq_nth by lia.
  f_equal. lia.
Qed.

(** X9: the ['food'] and ['walls'] entries of a serialized game state are
    the matrices of the state and of its layout, indexed by x then y: within
    the bounds, the entry at [x][y] is the state's; and they have as many
    columns as the width says.  A missing state serializes to [None]. *)
Theorem game_state_matrices (st : GameState) (x y : Z) :
  serialize_game_state None = VNone /\
  (0 <= x < food_width st -> 0 <= y < food_height st ->
   at2 (field "food" (serialize_game_state (Some st))) x y = VBool (food st x y)) /\
  (0 <= x < layout_width st -> 0 <= y < layout_height st ->
   at2 (field "walls" (serialize_game_state (Some st))) x y = VBool (layout_walls st x y)) /\
  len (items (field "food" (serialize_game_state (Some st)))) = Z.max 0 (food_width st) /\
  len (items (field "walls" (serialize_game_state (Some st)))) = Z.max 0 (layout_width st).
Proof.
  split; [reflexivity|]. unfold at2. cbn [serialize_game_state].
  split; [|split; [|split]].
  - intros Hx Hy.
    change (field "food" _)
      with (VList (map (fun x => VList (map (fun y => VBool (food st x y))
                                            (range (food_height st))))
                       (range (food_width st)))).
    cbn [items]. rewrite (nth_range _ _ x) by exact Hx. cbn [items].
    now rewrite (nth_range _ _ y) by exact Hy.
  - intros Hx Hy.
    change (field "walls" _)
      with (VList (map (fun x => VList (map (fun y => VBool (layout_walls st x y))
                                            (range (layout_height st))))
                       (range (layout_width st)))).
    cbn [items]. rewrite (nth_range _ _ x) by exact Hx. cbn [items].
    now rewrite (nth_range _ _ y) by exact Hy.
  - change (field "food" _)
      with (VList (map (fun x => VList (map (fun y => VBool (food st x y))
                                            (range (food_height st))))
                       (range (food_width st)))).
    cbn [items]. unfold len. rewrite length_map, range_length. lia.
  - change (field "walls" _)
      with (VList (map (fun x => VList (map (fun y => VBool (layout_walls st x y))
                                            (range (layout_height st))))
                       (range (layout_width st)))).
    cbn [items]. unfold len. rewrite length_map, range_length. lia.
Qed.

(** X15: an agent type other than the two Q-learning agents is no error:
    the engine is run with the random agent, and the response, of status
    200, names the agent type as the request gave it.  Whatever the agent,
    the engine gets one random ghost per ghost of the layout, numbered from
    1, and is asked for [numTraining + numGames] games. *)
Theorem unknown_agent_plays_at_random (data : RequestData) (lay : Layout)
  (games : list Game) (r r' : Rng) (i : Z) :
  getLayout (get (d_layout data) "smallGrid"%string) = Some lay ->
  runGames (pacman_call data lay) r = Some (Ok games, r') ->
  let agent_type := get (d_agent data) "PacmanQAgent"%string in
  (agent_type <> "PacmanQAgent"%string -> agent_type <> "ApproximateQAgent"%string ->
   rg_agent (pacman_call data lay) = RandomAgent) /\
  (exists resp,
      run_pacman_game data r = Some (Ok resp, r') /\ status resp = 200 /\
      field "agent" (body resp) = VStr agent_type) /\
  len (rg_ghosts (pacman_call data lay)) = Z.max 0 (numGhosts lay) /\
  (0 <= i < numGhosts lay ->
   nth (Z.to_nat i) (rg_ghosts (pacman_call data lay)) (RandomGhost 0) = RandomGhost (i + 1)) /\
  rg_numGames (pacman_call data lay)
  = get (d_numTraining data) 10 + get (d_numGames data) 1.
Proof.
  intros Hlay Hrun agent_type. split; [|split; [|split; [|split]]].
  - intros H1 H2. unfold pacman_call, runGames_args, make_agent. cbn [rg_agent].
    fold agent_type.
    apply String.eqb_neq in H1, H2. now rewrite H1, H2.
  - unfold run_pacman_game. rewrite Hlay. eexists. split.
    { apply try_except_ok. unfold bind at 1.
      change (runGames_args lay _ _ _) with (pacman_call data lay). rewrite Hrun.
      unfold bind. rewrite summary_run. apply jsonify_ok. keys_ok.
      cbn [string_keyed]. apply forallb_map_true. apply game_entry_ok. }
    split; reflexivity.
  - unfold pacman_call, runGames_args, len. cbn [rg_ghosts].
    rewrite length_map, range_length. lia.
  - intros Hi. unfold pacman_call, runGames_args. cbn [rg_ghosts].
    now rewrite (nth_range _ _ i) by exact Hi.
  - reflexivity.
Qed.

(** ** The layout files *)

Lemma ascii_compare_refl (a : ascii) : Ascii.compare a a = Eq.
Proof. unfold Ascii.compare. apply N.compare_refl. Qed.

Lemma string_leb_trans (a b c : string) :
  String.leb a b = true -> String.leb b c = true -> String.leb a c = true.
Proof.
  unfold String.leb. revert b c.
  induction a as [|x a IH]; intros [|y b] [|z c]; cbn; try congruence.
  destruct (Ascii.compare x y) eqn:Hxy; try congruence;
    destruct (Ascii.compare y z) eqn:Hyz; try congruence.
  - apply Ascii.compare_eq_iff in Hxy, Hyz. subst. rewrite ascii_compare_refl. apply IH.
  - apply Ascii.compare_eq_iff in Hxy. subst. now rewrite Hyz.
  - apply Ascii.compare_eq_iff in Hyz. subst. now rewrite Hxy.
  - intros _ _. unfold Ascii.compare in *.
    rewrite N.compare_lt_iff in Hxy, Hyz.
    assert (H : (N_of_ascii x ?= N_of_ascii z)%N = Lt) by (apply N.compare_lt_iff; lia).
    now rewrite H.
Qed.

Lemma string_ltb_leb (a b : string) : String.ltb a b = true -> String.leb a b = true.
Proof. unfold String.ltb, String.leb. now destruct (String.compare a b). Qed.

Lemma string_not_ltb_leb (a b : string) : String.ltb a b = false -> String.leb b a = true.
Proof.
  unfold String.ltb, String.leb. rewrite (String.compare_antisym b a).
  now destruct (String.compare a b).
Qed.

Lemma insert_sorted_perm (x : string) (l : list string) :
  Permutation (insert_sorted x l) (x :: l).
Proof.
  induction l as [|y l IH]; cbn; [reflexivity|].
  destruct (String.ltb x y); [reflexivity|].
  rewrite IH. apply perm_swap.
Qed.

Lemma sorted_perm (l : list string) : Permutation (sorted l) l.
Proof.
  induction l as [|x l IH]; cbn; [reflexivity|].
  rewrite insert_sorted_perm. now constructor.
Qed.

Lemma insert_sorted_sorted (x : string) (l : list string) :
  StronglySorted (fun a b => String.leb a b = true) l ->
  StronglySorted (fun a b => String.leb a b = true) (insert_sorted x l).
Proof.
  induction 1 as [|y l Hs IH Hy]; cbn.
  - constructor; constructor.
  - destruct (String.ltb x y) eqn:Hlt.
    + constructor; [now constructor|].
      apply string_ltb_leb in Hlt. constructor; [exact Hlt|].
      eapply Forall_impl; [|exact Hy].
      intros z Hz. now apply string_leb_trans with y.
    + constructor; [exact IH|].
      apply string_not_ltb_leb in Hlt.
      eapply Permutation_Forall; [symmetry; apply insert_sorted_perm|].
      now constructor.
Qed.

Lemma sorted_sorted (l : list string) :
  StronglySorted (fun a b => String.leb a b = true) (sorted l).
Proof.
  induction l as [|x l IH]; cbn; [constructor|]. now apply insert_sorted_sorted.
Qed.

Lemma layouts_fold (listdir acc : list string) :
  fold_left
    (fun layouts f =>
       if endswith f ".lay" then layouts ++ [replace ".lay" "" f] else layouts)
    listdir acc
  = acc ++ map (replace ".lay" "") (filter (fun f => endswith f ".lay") listdir).
Proof.
  revert acc. induction listdir as [|f l IH]; intros acc; cbn [fold_left filter].
  - cbn. now rewrite app_nil_r.
  - rewrite IH. destruct (endswith f ".lay"); [|reflexivity].
    cbn [map]. now rewrite <- app_assoc.
Qed.

(** X10: the layout names are listed in ascending order, and they are the
    names of the files of the directory that end in [.lay], each with its
    [.lay] removed, once per file; without the directory the list is
    empty. *)
Theorem layouts_are_the_sorted_stems (dir_exists : bool) (listdir : list string) :
  StronglySorted (fun a b => String.leb a b = true)
    (get_available_layouts dir_exists listdir) /\
  Permutation (get_available_layouts dir_exists listdir)
    (if dir_exists
     then map (replace ".lay" "") (filter (fun f => endswith f ".lay") listdir)
     else []).
Proof.
  unfold get_available_layouts. split; [apply sorted_sorted|].
  rewrite sorted_perm. destruct dir_exists; [|reflexivity].
  now rewrite layouts_fold.
Qed.

Lemma endswith_app (n suffix : string) : endswith (n ++ suffix) suffix = true.
Proof.
  induction n as [|c n IH].
  - cbn [append]. destruct suffix; cbn [endswith]; now rewrite String.eqb_refl.
  - cbn [append endswith]. rewrite IH. apply Bool.orb_true_r.
Qed.

Lemma prefix_cons (a b : ascii) (s1 s2 : string) :
  prefix (String a s1) (String b s2) = Ascii.eqb a b && prefix s1 s2.
Proof.
  cbn [prefix]. destruct (ascii_dec a b) as [->|H].
  - now rewrite Ascii.eqb_refl.
  - apply Ascii.eqb_neq in H. now rewrite H.
Qed.

Lemma prefix_lay_app (n : string) :
  n <> EmptyString -> prefix ".lay" n = false -> prefix ".lay" (n ++ ".lay") = false.
Proof.
  intros Hn.
  destruct n as [|c1 [|c2 [|c3 [|c4 n]]]]; [congruence| | | |];
    cbn [append]; rewrite !prefix_cons;
    repeat match goal with
           | |- context [Ascii.eqb ?a ?b] =>
               is_var b; destruct (Ascii.eqb_spec a b); subst
           end; cbn; try congruence.
  destruct n; cbn; congruence.
Qed.

Lemma replace_stem (n : string) :
  occurs ".lay" n = false -> replace ".lay" "" (n ++ ".lay") = n.
Proof.
  unfold replace. induction n as [|c n IH]; intros Hn; [reflexivity|].
  cbn [occurs] in Hn. apply Bool.orb_false_iff in Hn as [Hp Hn].
  cbn [append replace_from].
  change (String c (n ++ ".lay")) with (String c n ++ ".lay")%string.
  rewrite prefix_lay_app by (exact Hp || discriminate).
  now rewrite IH.
Qed.

(** X11: a file [n.lay] of the directory, where [n] holds no [.lay], is
    listed under the name [n]. *)
Theorem layout_file_is_listed_by_its_stem (listdir : list string) (n : string) :
  In (n ++ ".lay")%string listdir ->
  occurs ".lay" n = false ->
  In n (get_available_layouts true listdir).
Proof.
  intros Hin Hn. unfold get_available_layouts.
  eapply Permutation_in; [symmetry; apply sorted_perm|].
  rewrite layouts_fold. cbn [app].
  rewrite <- (replace_stem n Hn). apply in_map.
  apply filter_In. split; [exact Hin|]. apply endswith_app.
Qed.

(** ** The details of a layout *)

Context {LD : LayoutData}.

Lemma bool_matrix_at (m : Z -> Z -> bool) (w h x y : Z) :
  0 <= x < w -> 0 <= y < h -> at2 (bool_matrix m w h) x y = VBool (m x y).
Proof.
  intros Hx Hy. unfold at2, bool_matrix. cbn [items].
  rewrite (nth_range _ _ x) by exact Hx. cbn [items].
  now rewrite (nth_range _ _ y) by exact Hy.
Qed.

Lemma pos_lists_ok {A : Type} (f : A -> Z * Z) (l : list A) :
  string_keyed (VList (map (fun a => pos_list (f a)) l)) = true.
Proof. cbn [string_keyed]. now apply forallb_map_true. Qed.

Lemma slice_from_1 {A : Type} (x : A) (l : list A) : slice_from (x :: l) 1 = l.
Proof. now rewrite slice_from_skipn by lia. Qed.

(** X12: the details of a layout the loader knows come with status 200;
    ['pacmanStart'] followed by ['ghostStarts'] gives the positions of all
    the agents of the layout, in the layout's order (for a layout without
    agents, [None] and the empty list); and ['walls'] and ['food'] are the
    layout's matrices, indexed by x then y.  A name the loader does not
    know is answered with status 404 and a message that holds the name. *)
Theorem layout_details_cover_every_agent (layout_name : string) (r : Rng) :
  (forall lay,
      getLayout layout_name = Some lay ->
      exists resp,
        get_layout layout_name r = Some (Ok resp, r) /\
        status resp = 200 /\
        match lay_agentPositions lay with
        | [] =>
            field "pacmanStart" (body resp) = VNone /\
            field "ghostStarts" (body resp) = VList []
        | _ :: _ =>
            field "pacmanStart" (body resp) :: items (field "ghostStarts" (body resp))
            = map (fun p => pos_list (snd p)) (lay_agentPositions lay)
        end /\
        forall x y,
          0 <= x < lay_width lay -> 0 <= y < lay_height lay ->
          at2 (field "walls" (body resp)) x y = VBool (lay_walls lay x y) /\
          at2 (field "food" (body resp)) x y = VBool (lay_food lay x y)) /\
  (getLayout layout_name = None ->
   get_layout layout_name r
   = Some (Ok (failure 404 ("Layout " ++ layout_name ++ " not found")), r)).
Proof.
  split.
  - intros lay Hlay. unfold get_layout. rewrite Hlay.
    eexists. split.
    { apply try_except_ok, jsonify_ok. keys_ok.
      - apply bool_grid_ok.
      - apply bool_grid_ok.
      - apply (pos_lists_ok (fun c => c)).
      - destruct (lay_agentPositions lay) as [|p l]; reflexivity.
      - destruct (len (lay_agentPositions lay) >? 1); [|reflexivity].
        apply (pos_lists_ok (fun p : bool * (Z * Z) => snd p)). }
    split; [reflexivity|]. split.
    + cbn [body].
      destruct (lay_agentPositions lay) as [|p l] eqn:Hpos.
      * split; reflexivity.
      * change (field "pacmanStart" _) with (pos_list (snd p)).
        change (field "ghostStarts" _)
          with (if len (p :: l) >? 1
                then VList (map (fun pos : bool * (Z * Z) => pos_list (snd pos))
                                (slice_from (p :: l) 1))
                else VList []).
        cbn [map]. f_equal. rewrite slice_from_1.
        destruct l as [|q l]; [reflexivity|].
        replace (len (p :: q :: l) >? 1) with true; [reflexivity|].
        symmetry. apply Z.gtb_lt. unfold len. cbn [List.length]. lia.
    + intros x y Hx Hy. cbn [body].
      change (field "walls" _)
        with (bool_matrix (lay_walls lay) (lay_width lay) (lay_height lay)).
      change (field "food" _)
        with (bool_matrix (lay_food lay) (lay_width lay) (lay_height lay)).
      split; now apply bool_matrix_at.
  - intros Hlay. unfold get_layout. rewrite Hlay.
    apply try_except_ok, not_found_run.
Qed.

(** ** The comparison of the two algorithms *)

(** An episode of the comparison that ends has raised nothing, and leaves
    the agent its action function. *)
Lemma compare_episode_loop_run (fuel : nat) :
  forall (agent : QLearningAgent) (env : GridworldEnvironment) (s : State) (r r' : Rng)
         (res : Result (QLearningAgent * GridworldEnvironment)),
    compare_episode_loop fuel agent env s r = Some (res, r') ->
    exists agent' env', res = Ok (agent', env') /\ actionFn agent' = actionFn agent.
Proof.
  induction fuel as [|fuel IH]; intros agent env s r r' res;
    cbn [compare_episode_loop]; [discriminate|].
  destruct (negb (state_eqb s terminalState)).
  - unfold bind at 1.
    destruct (ql_getAction_total agent s r) as (a & r1 & -> & _).
    destruct a as [a|].
    + unfold bind at 1. destruct (doAction_total env a r1) as (ns & rw & r2 & ->).
      intros H. apply IH in H. destruct H as (agent' & env' & -> & Hfn).
      exists agent', env'. split; [reflexivity|].
      rewrite Hfn. apply actionFn_update.
    + intros [= <- <-]. now exists agent, env.
  - intros [= <- <-]. now exists agent, env.
Qed.

Lemma compare_training_run (fuel : nat) (l : list Z) :
  forall (agent : QLearningAgent) (env : GridworldEnvironment) (r r' : Rng)
         (res : Result (QLearningAgent * GridworldEnvironment)),
    for_each l (agent, env) (compare_episode fuel) r = Some (res, r') ->
    exists agent' env', res = Ok (agent', env') /\ actionFn agent' = actionFn agent.
Proof.
  induction l as [|x l IH]; intros agent env r r' res; cbn [for_each].
  - intros [= <- <-]. now exists agent, env.
  - unfold bind at 1. unfold compare_episode at 1. unfold bind at 1.
    destruct (compare_episode_loop fuel (startEpisode agent) env (getCurrentState env) r)
      as [[res1 r1]|] eqn:E; [|discriminate].
    destruct (compare_episode_loop_run _ _ _ _ _ _ _ E) as (a1 & e1 & -> & Hfn1).
    cbv beta iota. unfold ret at 1. intros H. apply IH in H.
    destruct H as (agent' & env' & -> & Hfn).
    exists agent', env'. split; [reflexivity|]. rewrite Hfn. exact Hfn1.
Qed.

Lemma compare_vi_collect_ok (gw : Gridworld) (agent : ValueIterationAgent) :
  forallb entry_ok (fst (compare_vi_collect gw agent)) = true /\
  forallb entry_ok (snd (compare_vi_collect gw agent)) = true.
Proof.
  unfold compare_vi_collect.
  apply (fold_left_inv
           (fun t : pydict * pydict =>
              forallb entry_ok (fst t) = true /\ forallb entry_ok (snd t) = true));
    [now split|].
  intros [values policy] s _ [Hv Hp]. cbn [fst snd] in *.
  destruct (negb (state_eqb s terminalState)); [|now split]. cbn [fst snd]. split.
  - now apply dict_set_ok.
  - destruct (truthy (vi_getAction agent s)); [|exact Hp].
    apply dict_set_ok; [exact Hp | apply VAction_ok].
Qed.

Lemma compare_ql_collect_ok (gw : Gridworld) (agent : QLearningAgent) :
  forallb entry_ok (fst (compare_ql_collect gw agent)) = true /\
  forallb entry_ok (snd (compare_ql_collect gw agent)) = true.
Proof.
  unfold compare_ql_collect.
  apply (fold_left_inv
           (fun t : pydict * pydict =>
              forallb entry_ok (fst t) = true /\ forallb entry_ok (snd t) = true));
    [now split|].
  intros [values policy] s _ [Hv Hp]. cbn [fst snd] in *.
  destruct (negb (state_eqb s terminalState)); [|now split].
  destruct (getPossibleActions gw s) as [|a l]; [now split|]. cbn [fst snd]. split.
  - now apply dict_set_ok.
  - apply dict_set_ok; [exact Hp | apply VAction_ok].
Qed.

Lemma string_keyed_pair (a b : PyVal) :
  string_keyed a = true -> string_keyed b = true -> string_keyed (VList [a; b]) = true.
Proof. intros Ha Hb. cbn [string_keyed forallb]. now rewrite Ha, Hb. Qed.

(** The response of a comparison on a known grid, when there is one, with
    the agent the training ended with. *)
Lemma compare_algorithms_run (fuel : nat) (data : RequestData)
  (grid_func : unit -> Gridworld) (r r' : Rng) (res : Result Response) :
  gridworld_getattr ("get" ++ get (d_grid data) "BookGrid")%string = Some grid_func ->
  compare_algorithms fuel data r = Some (res, r') ->
  let gw := grid_func tt in
  let vi_agent := new_ValueIterationAgent gw (lit 9 1) (get (d_iterations data) 100) in
  exists ql_agent,
    (forall s, actionFn ql_agent s = getPossibleActions gw s) /\
    res =
      Ok {| body :=
              VDict
                [(KStr "grid"%string, VStr (get (d_grid data) "BookGrid"%string));
                 (KStr "comparisons"%string,
                    VList
                      [VDict [(KStr "algorithm"%string, VStr "Value Iteration");
                              (KStr "iterations"%string, VInt (get (d_iterations data) 100));
                              (KStr "values"%string,
                                 VDict (fst (compare_vi_collect gw vi_agent)));
                              (KStr "policy"%string,
                                 VDict (snd (compare_vi_collect gw vi_agent)))];
                       VDict [(KStr "algorithm"%string, VStr "Q-Learning");
                              (KStr "episodes"%string, VInt (get (d_episodes data) 100));
                              (KStr "values"%string,
                                 VDict (fst (compare_ql_collect gw ql_agent)));
                              (KStr "policy"%string,
                                 VDict (snd (compare_ql_collect gw ql_agent)))]])];
            status := 200 |}.
Proof.
  intros Hgrid Hrun gw vi_agent. unfold compare_algorithms in Hrun.
  rewrite Hgrid in Hrun. fold gw in Hrun. fold vi_agent in Hrun.
  pose proof (compare_vi_collect_ok gw vi_agent) as [Hv Hp].
  destruct (compare_vi_collect gw vi_agent) as [vi_values vi_policy].
  cbn [fst snd] in *.
  set (agent0 := new_QLearningAgent _ _ _ _) in Hrun.
  unfold try_except in Hrun. unfold bind at 1 in Hrun.
  destruct (for_each (range (get (d_episodes data) 100))
              (agent0, new_GridworldEnvironment gw) (compare_episode fuel) r)
    as [[res1 r1]|] eqn:E; [|discriminate].
  destruct (compare_training_run _ _ _ _ _ _ _ E) as (ql_agent & env & -> & Hfn).
  exists ql_agent. split; [intros s; now rewrite Hfn|].
  pose proof (compare_ql_collect_ok gw ql_agent) as [Hqv Hqp].
  destruct (compare_ql_collect gw ql_agent) as [ql_values ql_policy].
  cbn [fst snd app] in *.
  rewrite jsonify_ok in Hrun; [now injection Hrun as <- <-|].
  keys_ok. apply string_keyed_pair; keys_ok; now rewrite string_keyed_dict.
Qed.

(** X13: a comparison request that is answered is answered without error:
    the status is 200, or 404 for an unknown grid, never 500; and the
    response holds no composite key. *)
Theorem comparison_answers_without_error (fuel : nat) (data : RequestData)
  (r r' : Rng) (res : Result Response) :
  compare_algorithms fuel data r = Some (res, r') ->
  exists resp,
    res = Ok resp /\ (status resp = 200 \/ status resp = 404) /\
    string_keyed (body resp) = true.
Proof.
  intros Hrun.
  destruct (gridworld_getattr ("get" ++ get (d_grid data) "BookGrid")%string)
    as [grid_func|] eqn:Hgrid.
  - destruct (compare_algorithms_run fuel data grid_func r r' res Hgrid Hrun)
      as (ql_agent & _ & ->).
    eexists. split; [reflexivity|]. split; [now left|]. cbn [body].
    pose proof (compare_vi_collect_ok (grid_func tt)
                  (new_ValueIterationAgent (grid_func tt) (lit 9 1)
                     (get (d_iterations data) 100))) as [Hv Hp].
    pose proof (compare_ql_collect_ok (grid_func tt) ql_agent) as [Hqv Hqp].
    keys_ok. apply string_keyed_pair; keys_ok; now rewrite string_keyed_dict.
  - unfold compare_algorithms in Hrun. rewrite Hgrid in Hrun.
    erewrite try_except_ok in Hrun by apply not_found_run.
    injection Hrun as <- <-. eexists. split; [reflexivity|]. split; [now right|reflexivity].
Qed.







End FurtherProperties.
(** * The properties on the concrete world *)

Import Concrete.

(** On the loop grid the only action leaves the agent where it is: the
    [while] loop of the compare handler is still running after any number
    of iterations. *)
Lemma loop_grid_episode_never_ends (fuel : nat) :
  forall (agent : QLearningAgent) (env : GridworldEnvironment) (r : Rng),
    actionFn agent (Cell 0 0) = ["north"%string] ->
    env_state env = Cell 0 0 ->
    compare_episode_loop fuel agent env (Cell 0 0) r = None.
Proof.
  induction fuel as [|fuel IH]; intros agent env r Hfn Henv; [reflexivity|].
  cbn [compare_episode_loop state_eqb terminalState negb].
  unfold bind at 1.
  destruct (ql_getAction_single agent (Cell 0 0) "north"%string r Hfn) as (r1 & ->).
  unfold bind at 1.
  cbv [doAction bind lift ret sample_transition corridor]. rewrite Henv.
  cbn [move String.eqb Ascii.eqb Bool.eqb andb].
  apply IH; [exact Hfn | reflexivity].
Qed.

(** C1, as stated, fails: the episode loop of the compare handler has no
    step bound and does not end on the loop grid, whatever the number of
    iterations allowed; and the cap of the training handler is the constant
    of the code: on the same grid a training episode stops after 101 steps,
    not sooner. *)
Lemma compare_episode_loop_has_no_bound :
  (~ exists fuel r res, compare_algorithms fuel (on_grid "LoopGrid" 1) r = Some res) /\
  (exists resp,
      response_of (start_qlearning 101 (on_grid "LoopGrid" 1) (seed 0)) = Some resp /\
      field "trainingHistory" (body resp) = VList [history_entry 0 f0 101]) /\
  start_qlearning 100 (on_grid "LoopGrid" 1) (seed 0) = None.
Proof.
  split; [|split].
  - intros (fuel & r & res & H).
    unfold compare_algorithms in H. rewrite try_except_diverge in H.
    + discriminate H.
    + clear H. cbn [on_grid d_grid d_iterations d_episodes get].
      cbv [gridworld_getattr corridor]. cbn [String.eqb Ascii.eqb Bool.eqb append].
      destruct (compare_vi_collect _ _) as [vi_values vi_policy].
      change (range 1) with [0]. cbn [for_each]. unfold bind at 1.
      unfold compare_episode. unfold bind.
      change (getCurrentState _) with (Cell 0 0).
      now rewrite loop_grid_episode_never_ends.
  - eexists. split; vm_compute; reflexivity.
  - vm_compute. reflexivity.
Qed.

Lemma qlearning_episode_is_capped_witness :
  (101 <= 101)%nat /\
  exists resp r', start_qlearning 101 (on_grid "BookGrid" 3) (seed 0) = Some (Ok resp, r').
Proof.
  split; [lia|].
  destruct (qlearning_episode_is_capped 101) as [_ H]; [lia|].
  apply H.
Defined.

(** The scenario of the specification: with discount 0.9 and an exit of
    reward 1 one step away, value iteration gives the start state the value
    0.9 and sends it towards the exit. *)
Example value_iteration_on_the_book_grid :
  exists resp,
    response_of (run_value_iteration no_data (seed 0)) = Some resp /\
    field "(0, 0)" (field "values" (body resp)) = VNum (lit 9 1) /\
    field "(0, 0)" (field "policy" (body resp)) = VStr "east".
Proof. eexists. repeat split; vm_compute; reflexivity. Qed.

(** Training, unlike solving, draws from the generator: two states of the
    generator give two training histories. *)
Example training_depends_on_the_generator :
  exists resp0 resp1,
    response_of (start_qlearning 101 (on_grid "BookGrid" 3) (seed 0)) = Some resp0 /\
    response_of (start_qlearning 101 (on_grid "BookGrid" 3) (seed 1)) = Some resp1 /\
    field "trainingHistory" (body resp0) <> field "trainingHistory" (body resp1).
Proof.
  eexists. eexists. split; [vm_compute; reflexivity|].
  split; [vm_compute; reflexivity|].
  vm_compute. discriminate.
Qed.

Lemma returned_tables_are_string_keyed_witness :
  (101 <= 101)%nat /\
  (exists resp,
      run_value_iteration no_data (seed 0) = Some (Ok resp, (seed 0)) /\
      string_keyed (body resp) = true /\ status resp <> 500) /\
  (exists resp r',
      start_qlearning 101 no_data (seed 0) = Some (Ok resp, r') /\
      string_keyed (body resp) = true /\ status resp <> 500).
Proof.
  split; [lia|].
  apply (returned_tables_are_string_keyed 101 no_data (seed 0)). lia.
Defined.

Lemma unknown_name_is_reported_witness :
  unknown_name DemoCompare (on_grid "NoSuchGrid" 5) = true /\
  handle DemoCompare 0 (on_grid "NoSuchGrid" 5) (seed 7)
    = Some (Ok (failure 404 "Grid NoSuchGrid not found"), (seed 7)).
Proof.
  split; [reflexivity|].
  apply (unknown_name_is_reported DemoCompare 0 (on_grid "NoSuchGrid" 5) (seed 7)).
  reflexivity.
Defined.

Lemma zero_episodes_leave_the_tables_at_zero_witness :
  d_episodes (on_grid "BookGrid" 0) = Some 0 /\
  exists resp,
    start_qlearning 0 (on_grid "BookGrid" 0) (seed 5) = Some (Ok resp, (seed 5)) /\
    Forall (fun v => v = VNum f0) (reported_qvalues resp) /\
    Forall (fun v => v = VNum f0) (reported_values resp) /\
    exists info,
      In info (state_infos resp) /\
      field "x" info = VInt 0 /\ field "y" info = VInt 0 /\
      field "east" (field "qValues" info) = VNum f0.
Proof.
  split; [reflexivity|].
  destruct (zero_episodes_leave_the_tables_at_zero 0 (on_grid "BookGrid" 0) (seed 5))
    as (resp & Hrun & Hq & Hv & Hall); [reflexivity|].
  exists resp. split; [exact Hrun|]. split; [exact Hq|]. split; [exact Hv|].
  apply (Hall getBookGrid 0 0 "east"%string); [reflexivity | |].
  - vm_compute. right. now left.
  - vm_compute. right. now left.
Defined.

(** On the book grid the run of 0 episodes reports three Q-values and three
    state values (each twice), all of them 0. *)
Example zero_episodes_on_the_book_grid :
  exists resp,
    response_of (start_qlearning 0 (on_grid "BookGrid" 0) (seed 5)) = Some resp /\
    reported_qvalues resp = [VNum f0; VNum f0; VNum f0] /\
    reported_values resp = [VNum f0; VNum f0; VNum f0; VNum f0].
Proof. eexists. repeat split; vm_compute; reflexivity. Qed.

Lemma states_without_actions_are_left_out_witness :
  gridworld_getattr ("get" ++ get (d_grid no_data) "BookGrid")%string = Some getBookGrid /\
  getPossibleActions (configured no_data getBookGrid) (Cell 2 0) = [] /\
  (101 <= 101)%nat /\
  (exists resp,
      run_value_iteration no_data (seed 0) = Some (Ok resp, (seed 0)) /\
      has_key (field "policy" (body resp)) (str (Cell 2 0)) = false) /\
  (exists resp r',
      start_qlearning 101 no_data (seed 0) = Some (Ok resp, r') /\
      has_key (field "policy" (body resp)) (str (Cell 2 0)) = false).
Proof.
  split; [reflexivity|]. split; [reflexivity|]. split; [lia|].
  destruct (states_without_actions_are_left_out no_data getBookGrid (Cell 2 0) 101 (seed 0))
    as (_ & _ & Hvi & Hql); [reflexivity | reflexivity | lia |].
  split; [exact Hvi | exact Hql].
Defined.




(** C5, as stated, fails: no request reaches the engine with a policy other
    than [catchExceptions=True]. *)
Lemma catch_exceptions_is_not_a_request_option :
  ~ exists (data : RequestData) (lay : Layout),
      rg_catchExceptions (pacman_call data lay) = false.
Proof. intros (data & lay & H). discriminate H. Qed.

Lemma engine_runs_with_catch_exceptions_witness :
  getLayout (get (d_layout (pacman_request "smallGrid" 2 (-3))) "smallGrid"%string)
    = Some small_grid /\
  rg_catchExceptions (pacman_call (pacman_request "smallGrid" 2 (-3)) small_grid) = true /\
  exists resp,
    run_pacman_game (pacman_request "smallGrid" 2 (-3)) (seed 0) = Some (Ok resp, (seed 0)) /\
    status resp = 500 /\
    field "error" (body resp) = VStr "negative number of games" /\
    has_key (body resp) "games" = false /\
    has_key (body resp) "summary" = false.
Proof.
  split; [reflexivity|].
  destruct (engine_runs_with_catch_exceptions (pacman_request "smallGrid" 2 (-3)) small_grid (seed 0))
    as (Hcatch & Hraise); [reflexivity|].
  split; [exact Hcatch|].
  apply Hraise. reflexivity.
Defined.

Lemma history_sampling_is_safe_witness :
  3 < 40 /\
  Z.max 1 (3 / 20) = 1 /\
  exists resp r',
    start_qlearning 101 (on_grid "BookGrid" 3) (seed 0) = Some (Ok resp, r') /\
    map (field "episode") (items (field "trainingHistory" (body resp)))
      = map VInt (range 3).
Proof.
  split; [lia|].
  destruct (history_sampling_is_safe 3) as (_ & _ & H).
  destruct H as (Hmod & _ & Hhist); [lia|].
  split; [exact Hmod|].
  apply Hhist; [lia | reflexivity | reflexivity].
Defined.

(** * The further properties on the concrete world *)

Import ConcreteMore.

Lemma solve_reports_the_solver_witness :
  gridworld_getattr ("get" ++ get (d_grid no_data) "BookGrid")%string = Some getBookGrid /\
  In (Cell 0 0) (getStates (configured no_data getBookGrid)) /\
  exists resp,
    run_value_iteration no_data (seed 0) = Some (Ok resp, seed 0) /\
    entry (field "values" (body resp)) (str (Cell 0 0))
    = Some (VNum (vi_getValue
                    (new_ValueIterationAgent (configured no_data getBookGrid) (lit 9 1) 100)
                    (Cell 0 0))) /\
    exists info,
      In info (state_infos resp) /\
      coords info = (VInt 0, VInt 0) /\
      entry info "value"
      = Some (VNum (vi_getValue
                      (new_ValueIterationAgent (configured no_data getBookGrid) (lit 9 1) 100)
                      (Cell 0 0))).
Proof.
  split; [reflexivity|].
  assert (Hs : In (Cell 0 0) (getStates (configured no_data getBookGrid)))
    by (vm_compute; right; now left).
  split; [exact Hs|].
  destruct (solve_reports_the_solver no_data getBookGrid) as (resp & Hrun & Hall);
    [reflexivity|].
  exists resp. split; [apply Hrun|].
  destruct (Hall 0 0 Hs) as (Hv & info & Hin & Hxy & Hvalue & _).
  split; [exact Hv|]. exists info. now repeat split.
Defined.

Lemma solve_policy_is_greedy_and_legal_witness :
  gridworld_getattr ("get" ++ get (d_grid no_data) "BookGrid")%string = Some getBookGrid /\
  exists resp,
    run_value_iteration no_data (seed 0) = Some (Ok resp, seed 0) /\
    entry (field "policy" (body resp)) (str (Cell 0 0)) = Some (VStr "east") /\
    exists s a,
      In s (getStates (configured no_data getBookGrid)) /\
      str (Cell 0 0) = str s /\ VStr "east" = VStr a /\
      In a (getPossibleActions (configured no_data getBookGrid) s).
Proof.
  split; [reflexivity|].
  destruct (solve_policy_is_greedy_and_legal no_data getBookGrid)
    as (resp & Hrun & Hsound & Hcomplete); [reflexivity|].
  exists resp. split; [apply Hrun|].
  assert (Hp : entry (field "policy" (body resp)) (str (Cell 0 0)) = Some (VStr "east")).
  { apply Hcomplete.
    - vm_compute. right. now left.
    - discriminate.
    - vm_compute. reflexivity.
    - discriminate. }
  split; [exact Hp|].
  destruct (Hsound _ _ Hp) as (s & a & Hs & _ & Hk & Hv & _ & Ha).
  now exists s, a.
Defined.

Lemma training_history_is_sampled_witness :
  (101 <= 101)%nat /\
  gridworld_getattr ("get" ++ get (d_grid (on_grid "BookGrid" 60)) "BookGrid")%string
  = Some getBookGrid /\
  exists resp r' recs,
    start_qlearning 101 (on_grid "BookGrid" 60) (seed 0) = Some (Ok resp, r') /\
    items (field "trainingHistory" (body resp)) = map history_of recs /\
    map (fun rec : EpisodeRecord => fst (fst rec)) recs = map (Z.mul 3) (range 20) /\
    Forall (fun rec : EpisodeRecord => 0 <= snd rec <= 101) recs /\
    (List.length recs <= 39)%nat.
Proof.
  split; [lia|]. split; [reflexivity|].
  destruct (training_history_is_sampled 101 (on_grid "BookGrid" 60) getBookGrid (seed 0))
    as (resp & r' & recs & Hrun & Hhist & Hmap & Hsteps & Hlen); [lia | reflexivity |].
  exists resp, r', recs. split; [exact Hrun|]. split; [exact Hhist|].
  split; [|split; [exact Hsteps | exact Hlen]].
  rewrite Hmap. reflexivity.
Defined.

Lemma train_reports_a_consistent_policy_witness :
  (101 <= 101)%nat /\
  gridworld_getattr ("get" ++ get (d_grid (on_grid "BookGrid" 3)) "BookGrid")%string
  = Some getBookGrid /\
  In (Cell 0 0) (getStates (configured (on_grid "BookGrid" 3) getBookGrid)) /\
  getPossibleActions (configured (on_grid "BookGrid" 3) getBookGrid) (Cell 0 0) <> [] /\
  exists resp r' a q,
    start_qlearning 101 (on_grid "BookGrid" 3) (seed 0) = Some (Ok resp, r') /\
    In a (getPossibleActions (configured (on_grid "BookGrid" 3) getBookGrid) (Cell 0 0)) /\
    entry (field "policy" (body resp)) (str (Cell 0 0)) = Some (VStr a) /\
    entry (field "values" (body resp)) (str (Cell 0 0)) = Some (VNum q).
Proof.
  split; [lia|]. split; [reflexivity|].
  assert (Hs : In (Cell 0 0) (getStates (configured (on_grid "BookGrid" 3) getBookGrid)))
    by (vm_compute; right; now left).
  assert (Hacts : getPossibleActions (configured (on_grid "BookGrid" 3) getBookGrid) (Cell 0 0)
                  <> []) by (vm_compute; discriminate).
  split; [exact Hs|]. split; [exact Hacts|].
  destruct (train_reports_a_consistent_policy 101 (on_grid "BookGrid" 3) getBookGrid (seed 0))
    as (resp & r' & Hrun & _ & Hall); [lia | reflexivity |].
  destruct (Hall 0 0 Hs Hacts) as (a & q & _ & _ & Ha & Hp & Hv & _).
  exists resp, r', a, q. now repeat split.
Defined.

Lemma summary_agrees_with_the_games_witness :
  getLayout (get (d_layout (pacman_request "smallGrid" 1 2)) "smallGrid"%string)
  = Some small_grid /\
  runGames (pacman_call (pacman_request "smallGrid" 1 2) small_grid) (seed 0)
  = Some (Ok [won_game; won_game; won_game], seed 0) /\
  exists resp,
    run_pacman_game (pacman_request "smallGrid" 1 2) (seed 0) = Some (Ok resp, seed 0) /\
    map (field "gameIndex") (items (field "games" (body resp)))
    = map VInt (range (len (items (field "games" (body resp))))) /\
    (List.length (items (field "games" (body resp))) <= 3)%nat /\
    field "wins" (field "summary" (body resp))
    = VInt (count (fun e => is_true (field "isWin" e)) (items (field "games" (body resp)))).
Proof.
  split; [reflexivity|]. split; [reflexivity|].
  destruct (summary_agrees_with_the_games (pacman_request "smallGrid" 1 2) small_grid
              [won_game; won_game; won_game] (seed 0) (seed 0))
    as (resp & Hrun & Hidx & Hlen & Hwins & _); [reflexivity | reflexivity |].
  exists resp. split; [exact Hrun|]. split; [exact Hidx|]. split; [exact Hlen | exact Hwins].
Defined.

Lemma game_state_matrices_witness :
  0 <= 0 < food_width (state won_game) /\ 0 <= 0 < food_height (state won_game) /\
  at2 (field "food" (serialize_game_state (Some (state won_game)))) 0 0
  = VBool (food (state won_game) 0 0).
Proof.
  split; [cbn; lia|]. split; [cbn; lia|].
  apply (proj1 (proj2 (game_state_matrices (state won_game) 0 0))); cbn; lia.
Defined.

Lemma layout_file_is_listed_by_its_stem_witness :
  In ("smallGrid" ++ ".lay")%string some_files /\
  occurs ".lay" "smallGrid" = false /\
  In "smallGrid"%string (get_available_layouts true some_files).
Proof.
  split; [now left|]. split; [reflexivity|].
  apply (layout_file_is_listed_by_its_stem some_files "smallGrid"); [now left | reflexivity].
Defined.

Lemma layout_details_cover_every_agent_witness :
  getLayout "smallGrid" = Some small_grid /\
  0 <= 2 < lay_width small_grid /\ 0 <= 0 < lay_height small_grid /\
  exists resp,
    get_layout "smallGrid" (seed 0) = Some (Ok resp, seed 0) /\
    status resp = 200 /\
    field "pacmanStart" (body resp) :: items (field "ghostStarts" (body resp))
    = [pos_list (0, 0); pos_list (1, 0)] /\
    at2 (field "walls" (body resp)) 2 0 = VBool true.
Proof.
  split; [reflexivity|]. split; [cbn; lia|]. split; [cbn; lia|].
  destruct (proj1 (layout_details_cover_every_agent "smallGrid" (seed 0)) small_grid)
    as (resp & Hrun & Hst & Hpos & Hcells); [reflexivity|].
  exists resp. split; [exact Hrun|]. split; [exact Hst|]. split; [exact Hpos|].
  apply (Hcells 2 0); cbn; lia.
Defined.

Lemma comparison_answers_without_error_witness :
  exists resp r',
    compare_algorithms 50 (on_grid "BookGrid" 2) (seed 0) = Some (Ok resp, r') /\
    (status resp = 200 \/ status resp = 404) /\
    string_keyed (body resp) = true.
Proof.
  destruct (compare_algorithms 50 (on_grid "BookGrid" 2) (seed 0)) as [[res r']|] eqn:Hrun.
  - destruct (comparison_answers_without_error 50 (on_grid "BookGrid" 2) (seed 0) r' res Hrun)
      as (resp & -> & Hst & Hkeys).
    now exists resp, r'.
  - vm_compute in Hrun. discriminate Hrun.
Defined.


Lemma unknown_agent_plays_at_random_witness :
  getLayout (get (d_layout (agent_request "random" 2)) "smallGrid"%string) = Some small_grid /\
  runGames (pacman_call (agent_request "random" 2) small_grid) (seed 0)
  = Some (Ok [won_game; won_game], seed 0) /\
  rg_agent (pacman_call (agent_request "random" 2) small_grid) = RandomAgent /\
  (exists resp,
      run_pacman_game (agent_request "random" 2) (seed 0) = Some (Ok resp, seed 0) /\
      status resp = 200 /\ field "agent" (body resp) = VStr "random") /\
  nth 0 (rg_ghosts (pacman_call (agent_request "random" 2) small_grid)) (RandomGhost 0)
  = RandomGhost 1.
Proof.
  split; [reflexivity|]. split; [reflexivity|].
  destruct (unknown_agent_plays_at_random (agent_request "random" 2) small_grid
              [won_game; won_game] (seed 0) (seed 0) 0)
    as (Hagent & Hresp & _ & Hghost & _); [reflexivity | reflexivity |].
  split; [apply Hagent; discriminate|]. split; [exact Hresp|].
  apply Hghost. cbn. lia.
Defined.
